(** * Industrial pump monitoring dashboard: shallow embedding and properties

    The repository ships two dashboard clients and the documentation of a
    Flask backend:

    - the local-simulation client ([Sim], the script with [updateLoop],
      [loadMLInferenceResults], [updateEngineerTable], [updateManagementView]);
    - the live-streaming client ([Live], the script with [fetchLiveStep] and
      [updateMLStats]) which polls the backend's Read API;
    - the backend pipeline (ingestion queue, sequence buffer, stream
      processor), whose Python sources are not part of the repository
      snapshot and is described by the specification only ([Backend]).

    JavaScript numbers are embedded as exact rationals ([Q]) or, for counts
    and indices, as [nat]; IEEE-754 rounding, NaN and infinities are outside
    the model.  String labels stay strings. *)

From Stdlib Require Import QArith Qabs Qround ZArith Lia Lqa Ascii.
From stdpp Require Import gmap strings list sorting pretty.

Local Open Scope string_scope.
Local Open Scope list_scope.
Local Open Scope nat_scope.

(** ** Helpers shared by both clients *)

(** JavaScript [a > b] on numbers. *)
Definition Qgtb (a b : Q) : bool := negb (Qle_bool a b).

(** [x || d] for a numeric field that may be missing: [undefined] and [0]
    are both falsy. *)
Definition num_or (x : option Q) (d : Q) : Q :=
  match x with
  | Some v => if Qeq_bool v 0 then d else v
  | None => d
  end.

Definition nat_or (x : option nat) (d : nat) : nat :=
  match x with
  | Some (S n) => S n
  | _ => d
  end.

(** A sensor record: field name to numeric value.  A field that is absent
    or not numeric has no entry. *)
Abbreviation reading := (gmap string Q).

(** A JavaScript object iterated with [Object.entries]: keys in insertion
    order. *)
Abbreviation counts := (list (string * nat)).

(** ** The local-simulation client *)

Module Sim.

Record APP_STATE := mkApp {
  currentRole : string;
  dataIndex : nat;
  data : list reading;
  isPlaying : bool;
  mlThreshold : Q;
  lastAnomalyScore : Q;
  systemState : string
}.

Definition initial_APP_STATE : APP_STATE :=
  {| currentRole := "plant-engineer";
     dataIndex := 0;
     data := [];
     isPlaying := true;
     mlThreshold := 6222164315398973 # 100000000000000000;
     lastAnomalyScore := 0;
     systemState := "NORMAL" |}.

Record ML_STATE := mkMl {
  sensorAnomalyCounts : counts;
  totalAnomalies : nat;
  riskLevel : string;
  healthScore : nat
}.

Definition initial_ML_STATE : ML_STATE :=
  {| sensorAnomalyCounts :=
       [("Vibration_mm_s", 450); ("Bearing_Temperature_C", 420);
        ("Motor_Current_A", 380); ("Oil_Pressure_bar", 300);
        ("Flow_Rate_L_min", 260); ("Casing_Temperature_C", 220);
        ("Discharge_Pressure_bar", 200); ("Motor_RPM", 120);
        ("Suction_Pressure_bar", 80); ("Ambient_Temperature_C", 50)];
     totalAnomalies := 0;
     riskLevel := "NORMAL";
     healthScore := 100 |}.

(** [loadSensorData] stores the parsed CSV (or the fallback data). *)
Definition set_data (d : list reading) (st : APP_STATE) : APP_STATE :=
  {| currentRole := currentRole st; dataIndex := dataIndex st; data := d;
     isPlaying := isPlaying st; mlThreshold := mlThreshold st;
     lastAnomalyScore := lastAnomalyScore st;
     systemState := systemState st |}.

(** The "ML simulation" of [updateLoop]; [rnd] is the value returned by
    [Math.random()], a number in [0, 1). *)
Definition reconstructionError (rnd : Q) (currentData : reading) : Q :=
  let e := ((5 # 100) + rnd * (2 # 100))%Q in
  let vib := num_or (currentData !! "Vibration_mm_s") 0 in
  let temp := num_or (currentData !! "Bearing_Temperature_C") 0 in
  let e := if Qgtb vib 4 then (e + (2 # 10))%Q else e in
  if Qgtb temp 75 then (e + (3 # 10))%Q else e.

Definition classify (err threshold : Q) : string :=
  if Qgtb err (threshold + (3 # 10))%Q then "CRITICAL"
  else if Qgtb err threshold then "WARNING"
  else "NORMAL".

(** One call of [updateLoop].  The DOM writes that follow the state
    update do not touch [APP_STATE]. *)
Definition updateLoop (rnd : Q) (st : APP_STATE) : APP_STATE :=
  if negb (isPlaying st) || (length (data st) =? 0)%nat then st
  else
    let idx := ((dataIndex st + 1) mod length (data st))%nat in
    match data st !! idx with
    | None =>
        {| currentRole := currentRole st; dataIndex := idx; data := data st;
           isPlaying := isPlaying st; mlThreshold := mlThreshold st;
           lastAnomalyScore := lastAnomalyScore st;
           systemState := systemState st |}
    | Some currentData =>
        let err := reconstructionError rnd currentData in
        {| currentRole := currentRole st; dataIndex := idx; data := data st;
           isPlaying := isPlaying st; mlThreshold := mlThreshold st;
           lastAnomalyScore := err;
           systemState := classify err (mlThreshold st) |}
    end.

(** The timer calls [updateLoop] repeatedly, one random draw per call. *)
Definition run (rnds : list Q) (st : APP_STATE) : APP_STATE :=
  foldl (fun s r => updateLoop r s) st rnds.

(** The reading [updateLoop] is about to process. *)
Definition next_reading (st : APP_STATE) : option reading :=
  if negb (isPlaying st) || (length (data st) =? 0)%nat then None
  else data st !! ((dataIndex st + 1) mod length (data st))%nat.

(** A reading is reported as anomalous when the system leaves NORMAL. *)
Definition anomalous (state : string) : bool :=
  bool_decide (state = "WARNING") || bool_decide (state = "CRITICAL").

(** [loadMLInferenceResults]: totals and risk level from the stored counts. *)
Definition totals (cs : counts) : nat * nat :=
  foldl (fun (acc : nat * nat) (entry : string * nat) =>
           let '(total, maxCount) := acc in
           let count := snd entry in
           (total + count, if maxCount <? count then count else maxCount))
        (0, 0) cs.

Definition risk_of (maxCount : nat) : string * nat :=
  if 200 <? maxCount then ("CRITICAL", 45)
  else if 100 <? maxCount then ("UNSTABLE", 65)
  else if 50 <? maxCount then ("WATCH", 80)
  else ("NORMAL", 98).

Definition loadMLInferenceResults (ml : ML_STATE) : ML_STATE :=
  let '(total, maxCount) := totals (sensorAnomalyCounts ml) in
  let '(risk, health) := risk_of maxCount in
  {| sensorAnomalyCounts := sensorAnomalyCounts ml;
     totalAnomalies := total;
     riskLevel := risk;
     healthScore := health |}.

(** [Array.prototype.sort] with comparator [(a, b) => count b - count a]:
    a stable sort by descending count. *)
Fixpoint insert_desc {A} (f : A -> nat) (x : A) (l : list A) : list A :=
  match l with
  | [] => [x]
  | y :: l' => if f x <? f y then y :: insert_desc f x l' else x :: l
  end.

Definition sort_desc {A} (f : A -> nat) (l : list A) : list A :=
  foldr (insert_desc f) [] l.

(** The rows built by [updateEngineerTable].  [badgeText] repeats [status]
    behind a coloured dot and is left out. *)
Record row := mkRow {
  key : string;
  actual : Q;
  meaning : string;
  anomalyCount : nat;
  status : string;
  statusClass : string;
  badgeClass : string
}.

Definition baselines : list (string * (Q * string)) :=
  [("Vibration_mm_s", ((5 # 10)%Q, "Excessive vibration indicating mechanical imbalance or bearing wear"));
   ("Motor_Current_A", ((45)%Q, "Abnormally low load suggesting coupling or impeller issue"));
   ("Discharge_Pressure_bar", ((4)%Q, "Elevated pressure, possible downstream restriction"));
   ("Oil_Pressure_bar", ((3)%Q, "Pressure approaching upper limit, lubrication flow restriction possible"));
   ("Flow_Rate_L_min", ((100)%Q, "Operating variation within acceptable range"));
   ("Ambient_Temperature_C", ((25)%Q, "Environmental temperature variation"));
   ("Bearing_Temperature_C", ((35)%Q, "Slight increase, within safe operating limits"));
   ("Motor_RPM", ((1450)%Q, "Speed variation within control tolerance"));
   ("Suction_Pressure_bar", ((15 # 10)%Q, "No inlet restriction detected"));
   ("Casing_Temperature_C", ((40)%Q, "Equipment temperature within normal range"))].

Fixpoint assoc {V} (k : string) (l : list (string * V)) : option V :=
  match l with
  | [] => None
  | (k', v) :: l' => if String.eqb k k' then Some v else assoc k l'
  end.

Definition make_row (data : option reading) (entry : string * nat) : row :=
  let '(key, count) := entry in
  let actual := default 0%Q (data ≫= fun d => d !! key) in
  let config := default (0%Q, "N/A") (assoc key baselines) in
  if 200 <? count then
    mkRow key actual (snd config) count "CRITICAL" "text-critical" "status-critical"
  else if 100 <? count then
    mkRow key actual (snd config) count "UNSTABLE" "text-warning" "status-warning"
  else if 50 <? count then
    mkRow key actual (snd config) count "WATCH" "text-warning" "status-warning"
  else
    mkRow key actual (snd config) count "NORMAL" "text-success" "status-ok".

(** [updateEngineerTable]: the table rows in display order and the number
    of rows in CRITICAL state (which drives the risk banner). *)
Definition updateEngineerTable (ml : ML_STATE) (data : option reading)
  : list row * nat :=
  let rows := sort_desc anomalyCount (make_row data <$> sensorAnomalyCounts ml) in
  (rows, length (filter (fun r => status r = "CRITICAL") rows)).

(** [updateManagementView]: the financial risk attribution list written
    into the cost-breakdown container (when the page has one), as
    (sensor, cost) pairs in display order. *)
Definition TOTAL_BUDGET_RISK : Q := 450000.

Definition cost_of (totalAnomalies count : nat) : Q :=
  (inject_Z (Z.of_nat count) / inject_Z (Z.of_nat totalAnomalies)
   * TOTAL_BUDGET_RISK)%Q.

Definition attribute (totalAnomalies : nat) (entry : string * nat)
  : option (string * Q) :=
  let '(key, count) := entry in
  if 0 <? count then Some (key, cost_of totalAnomalies count) else None.

Definition updateManagementView (ml : ML_STATE) : list (string * Q) :=
  let totalAnomalies := nat_or (Some (totalAnomalies ml)) 1 in
  let sorted := sort_desc snd (sensorAnomalyCounts ml) in
  omap (attribute totalAnomalies) sorted.

Definition Qsum (l : list Q) : Q := foldr Qplus 0%Q l.

End Sim.

(** ** The live-streaming client *)

Module Live.

(** The JSON body served by [/api/live-data].  Optional fields may be
    missing from the body; the four financial fields come together. *)
Record response := mkResponse {
  status : string;
  reconstruction_error : option Q;
  values : reading;
  sensor_states : option (gmap string string);
  sensor_anomaly_counts : option counts;
  record_number : option nat;
  total_records : option nat;
  timestamp : string;
  threshold : option Q;
  financial : option (Q * Q * Q * string)
}.

(** The flattened record pushed on the chart history. *)
Record displayData := mkDisplay {
  d_values : reading;
  d_status : string;
  d_anomaly_score : option Q;
  d_sensor_states : option (gmap string string);
  d_record_number : option nat;
  d_total_records : option nat;
  d_timestamp : string
}.

Record APP_STATE := mkApp {
  currentRole : string;
  data : list displayData;
  isPlaying : bool;
  lastAnomalyScore : Q;
  systemState : string;
  streamInterval : option nat
}.

Record ML_STATE := mkMl {
  sensorAnomalyCounts : counts;
  totalAnomalies : nat;
  riskLevel : string;
  healthScore : Q;
  sequenceId : nat;
  recordNumber : nat;
  totalRecords : nat;
  ml_threshold : option Q;
  moneyAtRisk : Q;
  failureProbability : Q;
  maintenanceCost : Q;
  decision : string
}.

(** The page: both global objects and the browser's table of running
    interval timers. *)
Record page := mkPage {
  app : APP_STATE;
  ml : ML_STATE;
  timers : gset nat
}.

Definition SENSOR_ORDER : list string :=
  ["Vibration_mm_s"; "Bearing_Temperature_C"; "Motor_Current_A";
   "Oil_Pressure_bar"; "Flow_Rate_L_min"; "Discharge_Pressure_bar";
   "Suction_Pressure_bar"; "Motor_RPM"; "Casing_Temperature_C";
   "Ambient_Temperature_C"].

Definition initial_APP_STATE : APP_STATE :=
  {| currentRole := "plant-engineer"; data := []; isPlaying := true;
     lastAnomalyScore := 0; systemState := "LEARNING";
     streamInterval := None |}.

Definition initial_ML_STATE : ML_STATE :=
  {| sensorAnomalyCounts :=
       [("Motor_RPM", 0); ("Bearing_Temperature_C", 0);
        ("Oil_Pressure_bar", 0); ("Vibration_mm_s", 0);
        ("Flow_Rate_L_min", 0); ("Suction_Pressure_bar", 0);
        ("Discharge_Pressure_bar", 0); ("Motor_Current_A", 0);
        ("Casing_Temperature_C", 0); ("Ambient_Temperature_C", 0)];
     totalAnomalies := 0; riskLevel := "LEARNING"; healthScore := 100;
     sequenceId := 0; recordNumber := 0; totalRecords := 1000;
     ml_threshold := None;
     moneyAtRisk := 0; failureProbability := 0; maintenanceCost := 0;
     decision := "MONITOR" |}.

Definition initial_page : page :=
  {| app := initial_APP_STATE; ml := initial_ML_STATE; timers := ∅ |}.

Definition Qofnat (n : nat) : Q := inject_Z (Z.of_nat n).

(** [updateMLStats]. *)
Definition updateMLStats (newData : response) (m : ML_STATE) : ML_STATE :=
  let cs := match sensor_anomaly_counts newData with
            | Some c => c
            | None => sensorAnomalyCounts m
            end in
  let total := match sensor_anomaly_counts newData with
               | Some c => foldl (fun (t : nat) (e : string * nat) => t + snd e) 0 c
               | None => totalAnomalies m
               end in
  let health := (100 - Qofnat total / 10)%Q in
  let fin :=
    match financial newData with
    | Some f => f
    | None =>
        let prob := (Qofnat total / 150)%Q in
        let prob := if Qgtb prob 1 then 1%Q else prob in
        ((Qofnat total * 450)%Q, prob, 25000%Q,
         if Qgtb prob (6 # 10) then "APPROVE_MAINTENANCE" else "MONITORING")
    end in
  {| sensorAnomalyCounts := cs;
     totalAnomalies := total;
     riskLevel := status newData;
     healthScore := if Qgtb 0 health then 0%Q else health;
     sequenceId := nat_or (record_number newData) 0;
     recordNumber := nat_or (record_number newData) 0;
     totalRecords := nat_or (total_records newData) 1000;
     ml_threshold := Some (num_or (threshold newData) (5 # 100));
     moneyAtRisk := fin.1.1.1;
     failureProbability := fin.1.1.2;
     maintenanceCost := fin.1.2;
     decision := fin.2 |}.

(** The only write a view makes to the global objects: the management
    view fills in a missing money-at-risk figure. *)
Definition view_effect (role : string) (m : ML_STATE) : ML_STATE :=
  if bool_decide (role = "management")
     && Qeq_bool (moneyAtRisk m) 0 && (0 <? totalAnomalies m)
  then
    {| sensorAnomalyCounts := sensorAnomalyCounts m;
       totalAnomalies := totalAnomalies m; riskLevel := riskLevel m;
       healthScore := healthScore m; sequenceId := sequenceId m;
       recordNumber := recordNumber m; totalRecords := totalRecords m;
       ml_threshold := ml_threshold m;
       moneyAtRisk := (Qofnat (totalAnomalies m) * 5500)%Q;
       failureProbability := failureProbability m;
       maintenanceCost := maintenanceCost m; decision := decision m |}
  else m.

(** What one [fetch] can do: reject (network down, unreadable body),
    answer with a non-2xx status, or deliver a body. *)
Inductive fetch_result (A : Type) :=
| NetworkError
| HttpError
| HttpOk (body : A).
Arguments NetworkError {A}.
Arguments HttpError {A}.
Arguments HttpOk {A} body.

(** Everything outside the page that one call of [fetchLiveStep] observes:
    the answers of the two endpoints and whether rendering the current
    view raises an exception. *)
Record outcome := mkOutcome {
  live_data : fetch_result response;
  system_health : fetch_result unit;
  view_throws : bool
}.

Definition poll_failed (o : outcome) : bool :=
  match live_data o with
  | HttpOk _ => false
  | _ => true
  end.

Definition set_app (a : APP_STATE) (w : page) : page :=
  {| app := a; ml := ml w; timers := timers w |}.

Definition set_systemState (s : string) (w : page) : page :=
  set_app {| currentRole := currentRole (app w); data := data (app w);
             isPlaying := isPlaying (app w);
             lastAnomalyScore := lastAnomalyScore (app w);
             systemState := s;
             streamInterval := streamInterval (app w) |} w.

Definition render (w : page) : page :=
  {| app := app w; ml := view_effect (currentRole (app w)) (ml w);
     timers := timers w |}.

(** The [catch] block: mark the page OFFLINE and render again. *)
Definition on_error (w : page) : page :=
  render (set_systemState "OFFLINE" w).

Definition clearInterval (h : option nat) (ts : gset nat) : gset nat :=
  match h with
  | Some i => ts ∖ {[i]}
  | None => ts
  end.

Definition push_bounded (d : displayData) (l : list displayData)
  : list displayData :=
  let l' := l ++ [d] in
  if 100 <? length l' then drop 1 l' else l'.

(** One call of [fetchLiveStep]. *)
Definition fetchLiveStep (o : outcome) (w : page) : page :=
  match live_data o with
  | NetworkError | HttpError => on_error w
  | HttpOk d =>
      if bool_decide (status d = "COMPLETED") then
        let w1 :=
          {| app := app (set_systemState "COMPLETED" w);
             ml := updateMLStats d (ml w);
             timers := clearInterval (streamInterval (app w)) (timers w) |} in
        if view_throws o then on_error w1 else render w1
      else
        let dd := {| d_values := values d; d_status := status d;
                     d_anomaly_score := reconstruction_error d;
                     d_sensor_states := sensor_states d;
                     d_record_number := record_number d;
                     d_total_records := total_records d;
                     d_timestamp := timestamp d |} in
        let w1 :=
          {| app := {| currentRole := currentRole (app w);
                       data := push_bounded dd (data (app w));
                       isPlaying := isPlaying (app w);
                       lastAnomalyScore := num_or (reconstruction_error d) 0;
                       systemState := status d;
                       streamInterval := streamInterval (app w) |};
             ml := updateMLStats d (ml w);
             timers := timers w |} in
        match system_health o with
        | NetworkError => on_error w1
        | _ => if view_throws o then on_error w1 else render w1
        end
  end.

(** [startLiveStreaming]: a first step, then a fresh interval timer.
    Timer handles are non-zero, hence truthy. *)
Definition startLiveStreaming (o : outcome) (w : page) : page :=
  let w1 := fetchLiveStep o w in
  let ts := clearInterval (streamInterval (app w1)) (timers w1) in
  let h := fresh ({[0]} ∪ ts) in
  {| app := {| currentRole := currentRole (app w1); data := data (app w1);
               isPlaying := isPlaying (app w1);
               lastAnomalyScore := lastAnomalyScore (app w1);
               systemState := systemState (app w1);
               streamInterval := Some h |};
     ml := ml w1;
     timers := ts ∪ {[h]} |}.

(** The browser's timer: the callback runs while the interval stored in
    [streamInterval] is still registered. *)
Definition tick (o : outcome) (w : page) : page :=
  match streamInterval (app w) with
  | Some h => if bool_decide (h ∈ timers w) then fetchLiveStep o w else w
  | None => w
  end.

Definition ticks (os : list outcome) (w : page) : page :=
  foldl (fun w o => tick o w) w os.

End Live.

(** ** The backend pipeline

    The Python modules of the backend (ingestion queue, sequence buffer,
    stream processor, inference engine) are not in the repository
    snapshot; this module follows the specification's component design. *)

Module Backend.

(** Modelled from the spec: the Inference Adapter (inference_engine.py is
    missing) and the constants fixed at training time.  [infer] maps a
    window snapshot to the aggregate reconstruction error and the
    per-channel deltas; [normalize] scales a reading with the fixed
    per-channel bounds; the two escalating bounds grade a channel. *)
Class TrainedModel := {
  infer : list reading -> Q * gmap string Q;
  threshold : Q;
  normalize : reading -> reading;
  bound_anomaly : Q;
  bound_critical : Q
}.

(** Modelled from the spec: the Ingestion Queue of stream_processor.py
    (missing), a bounded FIFO whose [submit] answers at once. *)
Inductive reject_reason := QueueFull.

Inductive submit_result :=
| Accepted
| Rejected (why : reject_reason).

Record IngestionQueue := mkQueue {
  capacity : nat;
  pending : list reading
}.

(** Modelled from the spec: the queue of stream_processor.py (missing) is
    created empty with the default capacity of 1000 pending items. *)
Definition new_queue : IngestionQueue :=
  {| capacity := 1000; pending := [] |}.

(** Modelled from the spec: [submit] of the missing queue answers
    Accepted, or Rejected(QueueFull) when the queue is full; it never
    waits. *)
Definition submit (r : reading) (q : IngestionQueue)
  : submit_result * IngestionQueue :=
  if length (pending q) <? capacity q
  then (Accepted, {| capacity := capacity q; pending := pending q ++ [r] |})
  else (Rejected QueueFull, q).

(** Modelled from the spec: [take] of the missing queue hands out the
    oldest pending reading; [None] stands for the consumer waiting. *)
Definition take (q : IngestionQueue) : option (reading * IngestionQueue) :=
  match pending q with
  | [] => None
  | r :: rest => Some (r, {| capacity := capacity q; pending := rest |})
  end.

(** Modelled from the spec: the burst scenario of the missing queue, a
    producer submitting one reading after the other while nothing is
    taken. *)
Fixpoint submit_all (rs : list reading) (q : IngestionQueue)
  : list submit_result * IngestionQueue :=
  match rs with
  | [] => ([], q)
  | r :: rs' =>
      let '(res, q1) := submit r q in
      let '(ress, q2) := submit_all rs' q1 in
      (res :: ress, q2)
  end.

(** Modelled from the spec: the Sequence Buffer of stream_processor.py
    (missing): push the newest reading, drop the oldest once the size
    exceeds the window. *)
Definition WINDOW : nat := 30.

(** Modelled from the spec: [append] of the missing Sequence Buffer. *)
Definition append (r : reading) (buf : list reading) : list reading :=
  let b := buf ++ [r] in
  if WINDOW <? length b then drop 1 b else b.

(** Modelled from the spec: [is_ready] of the missing Sequence Buffer,
    true when the window holds 30 readings. *)
Definition is_ready (buf : list reading) : bool := length buf =? WINDOW.

(** Modelled from the spec: [snapshot] of the missing Sequence Buffer;
    normalisation happens here, not at append time. *)
Definition snapshot `{TrainedModel} (buf : list reading) : list reading :=
  normalize <$> buf.

(** Modelled from the spec: the Stream Processor of stream_processor.py
    (missing), steps 2 to 7 and 10 of the consumer loop.  Persistence and
    maintenance events are left out. *)
Inductive sensor_label := SENSOR_NORMAL | SENSOR_ANOMALY | SENSOR_CRITICAL.

(** Modelled from the spec: the states of the missing processor's status
    machine. *)
Inductive system_status := LEARNING | NORMAL | ANOMALY | CRITICAL | COMPLETED.

Definition status_name (s : system_status) : string :=
  match s with
  | LEARNING => "LEARNING"
  | NORMAL => "NORMAL"
  | ANOMALY => "ANOMALY"
  | CRITICAL => "CRITICAL"
  | COMPLETED => "COMPLETED"
  end.

Record InferenceResult := mkResult {
  reconstruction_error : Q;
  per_channel_delta : gmap string Q;
  threshold_used : Q;
  is_anomaly : bool;
  sensor_states : gmap string sensor_label
}.

Record processor := mkProcessor {
  queue : IngestionQueue;
  buffer : list reading;
  counters : gmap string nat;
  status : system_status;
  latest : option InferenceResult
}.

Definition CHANNELS : list string :=
  ["Motor_RPM"; "Bearing_Temperature_C"; "Oil_Pressure_bar";
   "Vibration_mm_s"; "Flow_Rate_L_min"; "Suction_Pressure_bar";
   "Discharge_Pressure_bar"; "Motor_Current_A"; "Casing_Temperature_C";
   "Ambient_Temperature_C"].

Definition zero_counters : gmap string nat :=
  list_to_map ((fun k => (k, 0)) <$> CHANNELS).

Definition new_processor : processor :=
  {| queue := new_queue; buffer := []; counters := zero_counters;
     status := LEARNING; latest := None |}.

(** Modelled from the spec: step 6 of the missing consumer loop, a
    channel's delta against the two escalating bounds. *)
Definition grade `{TrainedModel} (delta : Q) : sensor_label :=
  if Qgtb delta bound_critical then SENSOR_CRITICAL
  else if Qgtb delta bound_anomaly then SENSOR_ANOMALY
  else SENSOR_NORMAL.

Definition flagged (l : sensor_label) : bool :=
  match l with
  | SENSOR_NORMAL => false
  | _ => true
  end.

(** Modelled from the spec: step 7 of the missing consumer loop, one more
    anomalous observation for every channel in ANOMALY or CRITICAL state. *)
Definition bump (c : option nat) (l : option sensor_label) : option nat :=
  match c, l with
  | Some n, Some s => Some (if flagged s then S n else n)
  | Some n, None => Some n
  | None, Some s => if flagged s then Some 1 else None
  | None, None => None
  end.

Definition update_counters (states : gmap string sensor_label)
    (cs : gmap string nat) : gmap string nat :=
  merge bump cs states.

Definition count (cs : gmap string nat) (k : string) : nat :=
  default 0 (cs !! k).

Definition is_critical (l : sensor_label) : bool :=
  match l with
  | SENSOR_CRITICAL => true
  | _ => false
  end.

(** Modelled from the spec: the overall status of the missing processor
    once the window is full: NORMAL without anomaly, otherwise ANOMALY or,
    when some channel is CRITICAL, CRITICAL. *)
Definition rank (anomaly : bool) (states : gmap string sensor_label)
  : system_status :=
  if anomaly then
    if bool_decide (map_Exists (fun _ l => is_critical l = true) states)
    then CRITICAL else ANOMALY
  else NORMAL.

(** Modelled from the spec: the work the missing consumer loop does for
    one dequeued reading; the second component is the inference result,
    [None] when no inference was attempted. *)
Definition process `{TrainedModel} (r : reading) (st : processor)
  : processor * option InferenceResult :=
  let buf := append r (buffer st) in
  if negb (is_ready buf) then
    ({| queue := queue st; buffer := buf; counters := counters st;
        status := LEARNING; latest := latest st |}, None)
  else
    let '(err, deltas) := infer (snapshot buf) in
    let anomaly := Qgtb err threshold in
    let states := grade <$> deltas in
    let res := {| reconstruction_error := err; per_channel_delta := deltas;
                  threshold_used := threshold; is_anomaly := anomaly;
                  sensor_states := states |} in
    ({| queue := queue st; buffer := buf;
        counters := update_counters states (counters st);
        status := rank anomaly states; latest := Some res |}, Some res).

(** Modelled from the spec: the missing consumer loop fed a list of
    readings, keeping each step's inference result. *)
Fixpoint process_all `{TrainedModel} (rs : list reading) (st : processor)
  : processor * list (option InferenceResult) :=
  match rs with
  | [] => (st, [])
  | r :: rs' =>
      let '(st1, res) := process r st in
      let '(st2, ress) := process_all rs' st1 in
      (st2, res :: ress)
  end.

(** Modelled from the spec: everything that can happen to the missing
    processor: a producer submits, the consumer takes one reading, an
    administrator resets the counters, the buffer is cleared, or the
    finite replay runs out of input. *)
Inductive event :=
| Submit (r : reading)
| Consume
| ResetCounters
| ClearBuffer
| SourceExhausted.

(** Modelled from the spec: the administrative reset of the missing
    processor's counters. *)
Definition reset_counters (cs : gmap string nat) : gmap string nat :=
  (fun _ => 0) <$> cs.

(** Modelled from the spec: one transition of the missing processor.
    COMPLETED is terminal for the consumer. *)
Definition step `{TrainedModel} (e : event) (st : processor) : processor :=
  match e with
  | Submit r =>
      {| queue := (submit r (queue st)).2; buffer := buffer st;
         counters := counters st; status := status st; latest := latest st |}
  | Consume =>
      match status st, take (queue st) with
      | COMPLETED, _ | _, None => st
      | _, Some (r, q') =>
          (process r {| queue := q'; buffer := buffer st;
                        counters := counters st; status := status st;
                        latest := latest st |}).1
      end
  | ResetCounters =>
      {| queue := queue st; buffer := buffer st;
         counters := reset_counters (counters st);
         status := status st; latest := latest st |}
  | ClearBuffer =>
      {| queue := queue st; buffer := []; counters := counters st;
         status := status st; latest := latest st |}
  | SourceExhausted =>
      {| queue := queue st; buffer := buffer st; counters := counters st;
         status := COMPLETED; latest := latest st |}
  end.

Definition steps `{TrainedModel} (es : list event) (st : processor)
  : processor :=
  foldl (fun s e => step e s) st es.

(** Modelled from the spec: the Read API (app.py is missing) serves the
    published status under its name. *)
Definition read_status (st : processor) : string := status_name (status st).

End Backend.

(** ** The simulation client: charts, plant-head view and chat *)

Module SimExtra.

Definition SENSOR_ORDER : list string :=
  ["Vibration_mm_s"; "Bearing_Temperature_C"; "Motor_Current_A";
   "Oil_Pressure_bar"; "Flow_Rate_L_min"; "Discharge_Pressure_bar";
   "Suction_Pressure_bar"; "Motor_RPM"; "Casing_Temperature_C";
   "Ambient_Temperature_C"].

Definition SENSOR_COLORS : list (string * string) :=
  [("Vibration_mm_s", "#da3633"); ("Bearing_Temperature_C", "#d29922");
   ("Motor_Current_A", "#f0883e"); ("Oil_Pressure_bar", "#db6d28");
   ("Flow_Rate_L_min", "#238636"); ("Discharge_Pressure_bar", "#58a6ff");
   ("Suction_Pressure_bar", "#79c0ff"); ("Motor_RPM", "#8957e5");
   ("Casing_Temperature_C", "#bd5c00"); ("Ambient_Temperature_C", "#a5d6ff")].

(** [key.replace(/_/g, ' ')]. *)
Fixpoint replace_underscores (s : string) : string :=
  match s with
  | EmptyString => EmptyString
  | String c s' =>
      String (if Ascii.eqb c "_" then " "%char else c) (replace_underscores s')
  end.

(** [counts[sensor] || 0]. *)
Definition count_or_zero (cs : counts) (sensor : string) : nat :=
  nat_or (Sim.assoc sensor cs) 0.

(** JavaScript [a < b] on numbers. *)
Definition Qltb (a b : Q) : bool := Qgtb b a.

(** The reliability bar chart of [updateEngineerCharts] (filled once, when
    the chart is still empty): label, reliability and bar colour per
    sensor.  The chart stores the reliability formatted with one decimal;
    the number itself is kept here. *)
Definition reliability (count totalRecords : nat) : Q :=
  (100 - inject_Z (Z.of_nat count) / inject_Z (Z.of_nat totalRecords) * 100)%Q.

Definition reliability_color (r : Q) : string :=
  if Qltb r 80 then "#da3633"
  else if Qltb r 95 then "#d29922"
  else "#238636".

Definition trend_chart (cs : counts) (data : list reading)
  : list (string * Q * string) :=
  let totalRecords := nat_or (Some (length data)) 1 in
  (fun sensor =>
     let r := reliability (count_or_zero cs sensor) totalRecords in
     (replace_underscores sensor, r, reliability_color r)) <$> SENSOR_ORDER.

(** [updateEngineerAlerts]: the cards written into the alert panel, each
    with the value it prints. *)
Inductive alert_card :=
| CriticalVibration (v : Q)
| TempWarning (v : Q)
| NoActiveAlerts.

Definition updateEngineerAlerts (data : reading) : list alert_card :=
  let vib :=
    match data !! "Vibration_mm_s" with
    | Some v => if Qgtb v 4 then [CriticalVibration v] else []
    | None => []
    end in
  let temp :=
    match data !! "Bearing_Temperature_C" with
    | Some v => if Qgtb v 80 then [TempWarning v] else []
    | None => []
    end in
  match vib ++ temp with
  | [] => [NoActiveAlerts]
  | cards => cards
  end.

(** [Array.prototype.sort] with comparator [(a, b) => a.value - b.value]:
    a stable sort by ascending value. *)
Fixpoint insert_asc {A} (f : A -> nat) (x : A) (l : list A) : list A :=
  match l with
  | [] => [x]
  | y :: l' => if f y <? f x then y :: insert_asc f x l' else x :: l
  end.

Definition sort_asc {A} (f : A -> nat) (l : list A) : list A :=
  foldr (insert_asc f) [] l.

(** [generateAndRenderRUL]: the remaining-useful-life bars in display
    order. *)
Definition displayNames : list (string * string) :=
  [("Vibration_mm_s", "Vibration"); ("Bearing_Temperature_C", "Bearing Temp");
   ("Flow_Rate_L_min", "Flow Rate");
   ("Discharge_Pressure_bar", "Discharge Pressure");
   ("Motor_Current_A", "Motor Current"); ("Oil_Pressure_bar", "Oil Pressure");
   ("Suction_Pressure_bar", "Suction Pressure"); ("Motor_RPM", "Motor RPM");
   ("Casing_Temperature_C", "Casing Temp");
   ("Ambient_Temperature_C", "Ambient Temp")].

Record rul_item := mkItem {
  item_name : option string;
  item_value : nat;
  item_color : string
}.

Definition rul_item_of (sensorStats : counts) (key : string) : rul_item :=
  let count := count_or_zero sensorStats key in
  if 200 <? count then mkItem (Sim.assoc key displayNames) 20 "red"
  else if 100 <? count then mkItem (Sim.assoc key displayNames) 40 "amber"
  else if 50 <? count then mkItem (Sim.assoc key displayNames) 60 "amber"
  else mkItem (Sim.assoc key displayNames) 85 "green".

Definition generateAndRenderRUL (sensorStats : counts) : list rul_item :=
  sort_asc item_value (rul_item_of sensorStats <$> SENSOR_ORDER).

(** [updatePlantHeadView]: what the plant-head page shows.  An empty list
    of top faults is rendered as "No Significant Faults", an empty list of
    risk drivers as "No Significant Risks"; every driver card also carries
    a coloured dot, red for High Impact and orange otherwise. *)
Record plant_head_view := mkPlantHead {
  health_text : string;
  health_class : string;
  risk_text : string;
  risk_class : string;
  risk_window : string;
  top_faults : list (string * nat);
  risk_drivers : list (string * string * nat);
  summary_text : string;
  summary_color : string;
  rul_bars : list rul_item
}.

Definition updatePlantHeadView (ml : Sim.ML_STATE) : plant_head_view :=
  let risk := Sim.riskLevel ml in
  let critical := bool_decide (risk = "CRITICAL") in
  let sorted := Sim.sort_desc snd (Sim.sensorAnomalyCounts ml) in
  let top3 := firstn 3 sorted in
  {| health_text :=
       if critical || bool_decide (risk = "UNSTABLE")
       then "At Risk" else "Optimized";
     health_class :=
       if critical then "value critical-text" else "value success-text";
     risk_text :=
       if critical then "High"
       else if bool_decide (risk = "UNSTABLE") then "Medium" else "Low";
     risk_class :=
       if critical then "value critical-text" else "value success-text";
     risk_window := if critical then "24‚Äì36 Hours" else "Safe";
     top_faults :=
       (fun e : string * nat => (replace_underscores e.1, e.2))
         <$> filter (fun e : string * nat => 0 < e.2) top3;
     risk_drivers :=
       (fun e : string * nat =>
          (replace_underscores e.1,
           if 200 <? e.2 then "High Impact" else "Medium Impact", e.2))
         <$> filter (fun e : string * nat => 50 < e.2) top3;
     summary_text :=
       if critical
       then "The system is in a <strong>CRITICAL</strong> state. Immediate intervention required for top contributors."
       else "System operating within acceptable limits.";
     summary_color := if critical then "#da3633" else "#238636";
     rul_bars := generateAndRenderRUL (Sim.sensorAnomalyCounts ml) |}.

(** *** The chat assistant *)

(** [getSystemContext]. *)
Record sensor_info := mkSensor {
  s_name : string;
  s_count : nat;
  s_isCritical : bool
}.

Record context := mkContext {
  role : string;
  riskLevel : string;
  isCritical : bool;
  isWarning : bool;
  isNormal : bool;
  topSensor : option sensor_info;
  topSensorName : string;
  failureWindow : string;
  downtimeCost : string;
  repairCost : string;
  systemStatus : string;
  lastSync : string
}.

Definition criticalSensors (cs : counts) : list sensor_info :=
  Sim.sort_desc s_count
    ((fun e : string * nat =>
        mkSensor (replace_underscores e.1) e.2 (200 <? e.2))
       <$> filter (fun e : string * nat => 50 < e.2) cs).

Definition getSystemContext (app : Sim.APP_STATE) (ml : Sim.ML_STATE)
  : context :=
  let risk := Sim.riskLevel ml in
  let top := head (criticalSensors (Sim.sensorAnomalyCounts ml)) in
  {| role := Sim.currentRole app;
     riskLevel := risk;
     isCritical := bool_decide (risk = "CRITICAL");
     isWarning := bool_decide (risk = "UNSTABLE") || bool_decide (risk = "WATCH");
     isNormal := bool_decide (risk = "NORMAL");
     topSensor := top;
     topSensorName :=
       match top with
       | Some t => s_name t
       | None => "Standard Operations"
       end;
     failureWindow :=
       if bool_decide (risk = "CRITICAL") then "24‚Äì36 hours" else "Safe";
     downtimeCost := "‚Çπ4.5 Lakhs";
     repairCost := "‚Çπ25,000";
     systemStatus := "Online";
     lastSync := "Just now" |}.

(** [String.prototype.toLowerCase] and [String.prototype.includes], on
    ASCII text. *)
Definition lower_char (c : ascii) : ascii :=
  let n := Ascii.nat_of_ascii c in
  if (65 <=? n) && (n <=? 90) then Ascii.ascii_of_nat (n + 32) else c.

Fixpoint toLowerCase (s : string) : string :=
  match s with
  | EmptyString => EmptyString
  | String c s' => String (lower_char c) (toLowerCase s')
  end.

Fixpoint includes (s p : string) : bool :=
  String.prefix p s
  || match s with
     | EmptyString => false
     | String _ s' => includes s' p
     end.

Definition includes_any (s : string) (ps : list string) : bool :=
  existsb (includes s) ps.

(** [detectIntent]. *)
Definition detectIntent (text : string) : string :=
  let text := toLowerCase text in
  if includes text "alert"
     && (includes text "if" || includes text "when")
     && (includes text ">" || includes text "above" || includes text "greater")
  then "CREATE_ALERT"
  else if includes_any text ["hello"; "hi"; "hey"; "greetings"]
  then "GREETING"
  else if includes_any text
            ["system"; "sync"; "data"; "model"; "diagnostic"; "integrity";
             "latency"; "connect"]
  then "SYSTEM_DIAGNOSTICS"
  else if includes_any text
            ["cost"; "price"; "money"; "financial"; "roi"; "budget"; "loss";
             "worth"; "api"]
  then "FINANCIAL"
  else if includes_any text
            ["safe"; "run"; "continue"; "shut"; "stop"; "permission";
             "allow"; "danger"; "urgent"]
  then "SAFETY_DECISION"
  else if includes_any text
            ["when"; "time"; "window"; "fail"; "future"; "predict"; "long"]
  then "TIMELINE_RISK"
  else if includes_any text
            ["fix"; "repair"; "do"; "action"; "recommend"; "suggest";
             "approve"; "step"]
  then "GENERAL_DECISION"
  else if includes_any text
            ["status"; "health"; "condition"; "how is"; "sensor"; "reading";
             "value"; "vibration"; "temp"; "pressure"; "limit"; "warning";
             "state"]
  then "STATUS_CHECK"
  else "GENERAL".

(** What a generator hands back: a text, the pending promise of
    [handleCreateAlert] (with the texts it resolves to on success and on a
    failed request), or a TypeError raised while building the text. *)
Inductive reply :=
| Text (s : string)
| Pending (on_success on_failure : string)
| TypeError.

Definition nl : string := String (Ascii.ascii_of_nat 10) EmptyString.

Definition cat (parts : list string) : string := String.concat "" parts.

Definition handleCreateAlert (query : string) : reply :=
  Pending "‚úÖ Alert Created. I will monitor this condition and notify you if it is triggered." "‚ùå Failed to create alert. Please try again. (Ensure Backend is running).".

Definition generateGreeting (ctx : context) : string :=
  default "Hello. System ready."
    (Sim.assoc (role ctx)
       [("plant-engineer", "Hello Engineer. I am monitoring the sensor array. Ask me about specific technical conditions or status.");
        ("plant-head", "Hello. Plant risk assessment is active. We can discuss operational timelines and safety risks.");
        ("management", "Hello. Financial impact models are ready. Ask me about ROI or cost of downtime.");
        ("admin", "System Online. Admin console active. I can report on diagnostics and data integrity.")]).

Definition is_one_of (x : string) (l : list string) : bool :=
  existsb (String.eqb x) l.

Definition generateEngineerResponse (intent : string) (ctx : context)
  : reply :=
  if String.eqb intent "FINANCIAL" then
    Text "I focus on purely technical performance and maintenance. Please consult Management for financial approval or cost analysis."
  else if String.eqb intent "SYSTEM_DIAGNOSTICS" then
    Text "System diagnostics look nominal. Refer to the Admin console for detailed ML model health logs."
  else if is_one_of intent ["STATUS_CHECK"; "TIMELINE_RISK"] then
    if isCritical ctx then
      match topSensor ctx with
      | Some t =>
          Text (cat ["Condition Alert: **"; topSensorName ctx;
                     "** is showing severe instability (";
                     pretty (s_count t);
                     " anomalies). The vibration signature suggests mechanical looseness or bearing degradation."])
      | None => TypeError
      end
    else if isWarning ctx then
      Text (cat ["Status is degraded. I am detecting early drift in **";
                 topSensorName ctx;
                 "**. It is currently manageable but requires monitoring."])
    else
      Text (cat ["All systems operational. "; topSensorName ctx;
                 " and other key parameters are within standard engineering limits."])
  else if is_one_of intent ["SAFETY_DECISION"; "GENERAL_DECISION"] then
    if isCritical ctx then
      Text (cat ["**Unsafe to Continue**. The sensor deviation in **";
                 topSensorName ctx;
                 "** has exceeded the safety threshold. I recommend immediate isolation of the pump to prevent catastrophic failure."])
    else
      Text (cat ["Technically, the pump is within safe operating limits. You may continue operation, but please schedule a routine inspection for **";
                 topSensorName ctx; "** during the next shift."])
  else
    Text (cat ["I am analyzing **"; topSensorName ctx;
               "**. Ask me about its condition or safety status."]).

Definition generatePlantHeadResponse (intent : string) (ctx : context)
  : reply :=
  if is_one_of intent ["STATUS_CHECK"; "SYSTEM_DIAGNOSTICS"] then
    if isCritical ctx then
      Text "**Operational Status: RED**. The plant is operating in a critical risk state due to instability in the pump array. Uptime is compromised."
    else
      Text "Plant operations are stable. We are meeting our reliability targets for this shift."
  else if String.eqb intent "TIMELINE_RISK" then
    if isCritical ctx then
      Text (cat ["Risk Projection: Failure is highly probable within **";
                 failureWindow ctx;
                 "**. We are risking unplanned downtime if we do not intervene."])
    else
      Text "The current failure probability is low. We have a safe operating window for the foreseeable future (Next 72+ hours)."
  else if is_one_of intent ["SAFETY_DECISION"; "GENERAL_DECISION"] then
    if isCritical ctx then
      Text "**DO NOT RUN**. The operational risk is too high. Continued operation will likely result in an unplanned outage and asset damage. Initiate shutdown procedures."
    else
      Text (cat ["Operations can proceed, but with heightened caution. We are accepting a low level of risk on **";
                 topSensorName ctx;
                 "**. Keep the maintenance team on standby."])
  else if String.eqb intent "FINANCIAL" then
    Text "My focus is on operational continuity. However, high risk usually correlates with high financial exposure. Check with Management for the exact figures."
  else
    Text "I can assess operational risks and failure timelines for you.".

Definition generateManagementResponse (intent : string) (ctx : context)
  : reply :=
  if is_one_of intent ["SYSTEM_DIAGNOSTICS"; "STATUS_CHECK"] then
    Text "That is a technical detail. I suggest focusing on the business implications: We are currently tracking the financial risk of these anomalies."
  else if is_one_of intent ["FINANCIAL"; "TIMELINE_RISK"] then
    if isCritical ctx then
      Text (cat ["**Financial Implication**: We are facing a projected loss of **";
                 downtimeCost ctx;
                 "** due to imminent failure. The cost of inaction far exceeds the repair budget."])
    else
      Text "Current financial exposure is minimal. The asset is generating value without significant risk of capital loss."
  else if is_one_of intent ["SAFETY_DECISION"; "GENERAL_DECISION"] then
    if isCritical ctx then
      Text (cat ["**Decision**: Approve the Maintenance. "; nl; nl;
                 "Logic: Spending **"; repairCost ctx; "** now prevents a **";
                 downtimeCost ctx;
                 "** production loss. The ROI on immediate action is positive (~18x)."])
    else
      Text (cat ["**Decision**: Defer Maintenance. "; nl; nl;
                 "Logic: There is no financial justification for downtime right now. Run to failure or wait for the next planned outage."])
  else
    Text "I can help you weigh the cost of repair against the cost of downtime.".

Definition admin_refusal : string :=
  cat ["I cannot advise on operational or safety decisions. "; nl; nl;
       "**System Status**: My role is strictly limited to verifying data integrity and platform health. Please consult the Plant Engineer."].

Definition admin_report (ctx : context) : string :=
  cat ["**System Diagnostic Report**:"; nl;
       "- Data Stream: Active ("; lastSync ctx; ")"; nl;
       "- Exposed API: http://localhost:5000/api/v1/data"; nl;
       "- Integrity Check: PASS"; nl; nl;
       "The dashboard is accurately reflecting the underlying sensor data. Users can access raw data via the API endpoint above."].

Definition admin_fallback : string :=
  "System ready. Diagnostics active. API online.".

Definition generateAdminResponse (intent : string) (ctx : context) : reply :=
  if is_one_of intent ["SAFETY_DECISION"; "GENERAL_DECISION"; "TIMELINE_RISK"]
  then Text admin_refusal
  else if is_one_of intent
            ["FINANCIAL"; "SYSTEM_DIAGNOSTICS"; "STATUS_CHECK"; "GENERAL"]
  then Text (admin_report ctx)
  else Text admin_fallback.

(** [generateAIResponse]. *)
Definition generateAIResponse (app : Sim.APP_STATE) (ml : Sim.ML_STATE)
    (query : string) : reply :=
  let ctx := getSystemContext app ml in
  let intent := detectIntent query in
  if String.eqb intent "CREATE_ALERT" then handleCreateAlert query
  else if String.eqb intent "GREETING" then Text (generateGreeting ctx)
  else if String.eqb (role ctx) "plant-engineer"
  then generateEngineerResponse intent ctx
  else if String.eqb (role ctx) "plant-head"
  then generatePlantHeadResponse intent ctx
  else if String.eqb (role ctx) "management"
  then generateManagementResponse intent ctx
  else if String.eqb (role ctx) "admin"
  then generateAdminResponse intent ctx
  else Text "I am ready to assist. Please select a valid role.".

(** The text that the timer callback of [handleUserMessage] appends to the
    chat for the (trimmed, non-empty) message: the reply converted to a
    string by the template literal.  A promise converts to
    "[object Promise]"; after a TypeError nothing is appended. *)
Definition displayed_reply (r : reply) : option string :=
  match r with
  | Text s => Some s
  | Pending _ _ => Some "[object Promise]"
  | TypeError => None
  end.

End SimExtra.

(** ** The live-streaming client: charts and remaining useful life *)

Module LiveExtra.

(** The record [fetchLiveStep] builds from an answer and pushes on the
    history. *)
Definition display_of (d : Live.response) : Live.displayData :=
  {| Live.d_values := Live.values d; Live.d_status := Live.status d;
     Live.d_anomaly_score := Live.reconstruction_error d;
     Live.d_sensor_states := Live.sensor_states d;
     Live.d_record_number := Live.record_number d;
     Live.d_total_records := Live.total_records d;
     Live.d_timestamp := Live.timestamp d |}.


(** [calculateRUL], local to [generateAndRenderRUL]: start at 100, lose
    half a point per anomaly, never below 10, rounded down.  The result is
    never negative and is kept as a natural number. *)
Definition calculateRUL (count : nat) : nat :=
  let rul := (100 - Live.Qofnat count * (5 # 10))%Q in
  let rul := if SimExtra.Qltb rul 10 then 10%Q else rul in
  Z.to_nat (Qfloor rul).

Definition rul_color (rulPct : nat) : string :=
  if rulPct <? 40 then "red"
  else if rulPct <? 75 then "amber"
  else "green".

Definition rul_item_of (sensorStats : counts) (key : string)
  : SimExtra.rul_item :=
  let rulPct := calculateRUL (SimExtra.count_or_zero sensorStats key) in
  SimExtra.mkItem (Sim.assoc key SimExtra.displayNames) rulPct
    (rul_color rulPct).

Definition generateAndRenderRUL (sensorStats : counts)
  : list SimExtra.rul_item :=
  SimExtra.sort_asc SimExtra.item_value
    (rul_item_of sensorStats <$> Live.SENSOR_ORDER).

(** *** The live intelligence stream of [updateEngineerCharts] *)

(** The height a sensor state is drawn at, before noise. *)
Definition state_level (state : option string) : Q :=
  let val := 20%Q in
  let val := if bool_decide (state = Some "ANOMALY") then 70%Q else val in
  if bool_decide (state = Some "CRITICAL") then 95%Q else val.

(** A point added by an update; [rnd] is the [Math.random()] draw. *)
Definition live_point (state : option string) (rnd : Q) : Q :=
  let val := (state_level state + (rnd * 10 - 5))%Q in
  if SimExtra.Qltb val 0 then 0%Q else val.

(** A point of the pre-populated history. *)
Definition history_point (d : Live.displayData) (sensor : string) (rnd : Q)
  : Q :=
  let state :=
    match Live.d_sensor_states d with
    | Some m => m !! sensor
    | None => Some "NORMAL"
    end in
  (state_level state + (rnd * 4 - 2))%Q.

(** One line of the chart; the style options are left out.  A point that
    is [None] is the [null] padding. *)
Record dataset := mkDataset {
  ds_label : string;
  ds_data : list (option Q);
  ds_hidden : bool
}.

Record live_chart := mkChart {
  chart_labels : list string;
  chart_datasets : list dataset
}.

(** [array.slice(-100)]. *)
Definition last100 {A} (l : list A) : list A := drop (length l - 100) l.

(** [array.push(x); if (array.length > 100) array.shift()]. *)
Definition push100 {A} (x : A) (l : list A) : list A :=
  let l' := l ++ [x] in
  if 100 <? length l' then drop 1 l' else l'.

(** Creation of the chart from the history buffer; [rnd i j] is the draw
    for point j of sensor i. *)
Definition create_live_chart (data : list Live.displayData)
    (rnd : nat -> nat -> Q) : live_chart :=
  let history := last100 data in
  let pad := 100 - length history in
  {| chart_labels := replicate pad "" ++ (Live.d_timestamp <$> history);
     chart_datasets :=
       imap (fun i sensor =>
               {| ds_label := SimExtra.replace_underscores sensor;
                  ds_data :=
                    replicate pad None
                      ++ imap (fun j d =>
                                 Some (history_point d sensor (rnd i j)))
                           history;
                  ds_hidden := false |})
            Live.SENSOR_ORDER |}.

(** The three sensors with the most anomalies. *)
Definition top3Keys (cs : counts) : list string :=
  fst <$> firstn 3 (Sim.sort_desc snd cs).

(** One update of the chart with the states of the current reading; [now]
    is the clock label and [rnd i] the draw for sensor i.  Without sensor
    states the chart is frozen. *)
Definition update_live_chart (chart : live_chart)
    (sensor_states : option (gmap string string)) (cs : counts)
    (now : string) (rnd : nat -> Q) : live_chart :=
  let currentStates := default ∅ sensor_states in
  if bool_decide (currentStates = ∅) then chart
  else
    {| chart_labels := push100 now (chart_labels chart);
       chart_datasets :=
         imap (fun i ds =>
                 match Live.SENSOR_ORDER !! i with
                 | Some sensor =>
                     {| ds_label := ds_label ds;
                        ds_data :=
                          push100
                            (Some (live_point (currentStates !! sensor)
                                     (rnd i)))
                            (ds_data ds);
                        ds_hidden :=
                          negb (bool_decide (sensor ∈ top3Keys cs)) |}
                 | None => ds
                 end)
              (chart_datasets chart) |}.

(** The reliability bar chart of [updateEngineerCharts], refreshed at
    every update: label, reliability (before it is formatted with one
    decimal) and colour. *)
Definition reliability (count totalRecords : nat) : Q :=
  let r := SimExtra.reliability count totalRecords in
  if Qgtb 0 r then 0%Q else r.

Definition trend_chart (ml : Live.ML_STATE) : list (string * Q * string) :=
  let totalRecords := nat_or (Some (Live.recordNumber ml)) 1 in
  (fun sensor =>
     let r :=
       reliability
         (SimExtra.count_or_zero (Live.sensorAnomalyCounts ml) sensor)
         totalRecords in
     (SimExtra.replace_underscores sensor, r, SimExtra.reliability_color r))
    <$> Live.SENSOR_ORDER.

(** The anomaly pie chart of [updateEngineerCharts]: label, value and
    colour per slice. *)
Definition anomaly_chart (cs : counts) : list (string * nat * string) :=
  let sortedSensors :=
    filter (fun e : string * nat => 0 < e.2) (Sim.sort_desc snd cs) in
  if length sortedSensors =? 0 then [("No Anomalies", 1, "#238636")]
  else
    (fun e : string * nat =>
       (SimExtra.replace_underscores e.1, e.2,
        default "#888" (Sim.assoc e.1 SimExtra.SENSOR_COLORS)))
      <$> sortedSensors.

(** Every line of the chart, and its label axis, holds exactly 100 points,
    one line per sensor. *)
Definition window_full (c : live_chart) : Prop :=
  length (chart_labels c) = 100
  /\ length (chart_datasets c) = length Live.SENSOR_ORDER
  /\ Forall (fun ds => length (ds_data ds) = 100)
       (chart_datasets c).

End LiveExtra.

(** ** The polling dashboard (dashboard-improved.js) *)

Module Improved.

Definition SENSOR_FEATURES : list string :=
  ["Motor_RPM"; "Bearing_Temperature_C"; "Oil_Pressure_bar";
   "Vibration_mm_s"; "Flow_Rate_L_min"; "Suction_Pressure_bar";
   "Discharge_Pressure_bar"; "Motor_Current_A"; "Casing_Temperature_C";
   "Ambient_Temperature_C"].

Definition SENSOR_LABELS : list (string * string) :=
  [("Motor_RPM", "Motor RPM"); ("Bearing_Temperature_C", "Bearing Temp");
   ("Oil_Pressure_bar", "Oil Pressure"); ("Vibration_mm_s", "Vibration");
   ("Flow_Rate_L_min", "Flow Rate");
   ("Suction_Pressure_bar", "Suction Pressure");
   ("Discharge_Pressure_bar", "Discharge Pressure");
   ("Motor_Current_A", "Motor Current");
   ("Casing_Temperature_C", "Casing Temp");
   ("Ambient_Temperature_C", "Ambient Temp")].

(** The part of the [/api/live-data] body this dashboard reads. *)
Record live_data := mkLiveData {
  values : option reading;
  sensor_states : option (gmap string string);
  sensor_anomaly_counts : option counts
}.

(** [data.sensor_anomaly_counts?.[sensor] || 0]. *)
Definition count_of (data : live_data) (sensor : string) : nat :=
  nat_or (sensor_anomaly_counts data ≫= Sim.assoc sensor) 0.

(** [data.sensor_states?.[sensor] || 'NORMAL']; the empty string is
    falsy. *)
Definition state_of (data : live_data) (sensor : string) : string :=
  match sensor_states data ≫= (fun m => m !! sensor) with
  | Some s => if String.eqb s "" then "NORMAL" else s
  | None => "NORMAL"
  end.

(** The markup [<span class="c">t</span>]. *)
Definition span (class text : string) : string :=
  let dq := String (Ascii.ascii_of_nat 34) EmptyString in
  SimExtra.cat ["<span class="; dq; class; dq; ">"; text; "</span>"].

(** [interpretSensor]. *)
Definition interpretSensor (sensor : string) (value : Q) (state : string)
    (count : nat) : string :=
  if String.eqb state "ANOMALY" then
    if 5 <? count
    then span "text-critical" "Requires immediate attention"
    else span "text-warning" "Monitor closely"
  else span "text-muted" "Operating normally".

(** [updateSensorTable]: one row per sensor, or nothing when the body has
    no values. *)
Record table_row := mkTableRow {
  row_label : option string;
  row_state : string;
  row_badge : string;
  row_value : Q;
  row_count : nat;
  row_class : string;
  row_text : string
}.

Definition updateSensorTable (data : live_data) : option (list table_row) :=
  match values data with
  | None => None
  | Some vals =>
      Some ((fun sensor =>
               let value := num_or (vals !! sensor) 0 in
               let state := state_of data sensor in
               let count := count_of data sensor in
               {| row_label := Sim.assoc sensor SENSOR_LABELS;
                  row_state := state;
                  row_badge := SimExtra.toLowerCase state;
                  row_value := value;
                  row_count := count;
                  row_class :=
                    if 5 <? count then "critical-row"
                    else if 2 <? count then "warning-row" else "";
                  row_text := interpretSensor sensor value state count |})
              <$> SENSOR_FEATURES)
  end.

(** [updateRULBars]: label, remaining useful life and colour for the three
    critical sensors. *)
Definition updateRULBars (data : live_data) : list (option string * nat * string) :=
  (fun sensor =>
     let count := count_of data sensor in
     let rul := 100 - count * 10 in
     (Sim.assoc sensor SENSOR_LABELS, rul,
      if 60 <? rul then "green" else if 30 <? rul then "amber" else "red"))
    <$> ["Bearing_Temperature_C"; "Vibration_mm_s"; "Motor_Current_A"].

(** [array.indexOf(x)]; [None] stands for -1. *)
Fixpoint indexOf (x : nat) (l : list nat) : option nat :=
  match l with
  | [] => None
  | y :: l' => if x =? y then Some 0 else S <$> indexOf x l'
  end.

(** [updateAnomalyChart]: the bar heights and, when some count is
    positive, the label named as primary anomaly source. *)
Definition updateAnomalyChart (data : live_data)
  : option (list nat * option string) :=
  match sensor_anomaly_counts data with
  | None => None
  | Some _ =>
      let cs : list nat := count_of data <$> SENSOR_FEATURES in
      Some (cs,
            match indexOf (max_list cs) cs with
            | Some maxIndex =>
                match cs !! maxIndex with
                | Some (S _) =>
                    match SENSOR_FEATURES !! maxIndex with
                    | Some s => Sim.assoc s SENSOR_LABELS
                    | None => None
                    end
                | _ => None
                end
            | None => None
            end)
  end.

End Improved.

(** ** Sample inputs used by the examples below *)

Definition quiet_reading : reading :=
  {[ "Vibration_mm_s" := 5 # 10; "Bearing_Temperature_C" := 35%Q ]}.

Definition hot_reading : reading :=
  {[ "Vibration_mm_s" := 42 # 10; "Bearing_Temperature_C" := 85%Q ]}.

Definition sample_app : Sim.APP_STATE :=
  Sim.set_data [hot_reading; quiet_reading; quiet_reading]
    Sim.initial_APP_STATE.

(** The simulation after two iterations: positioned on the last record. *)
Definition at_last_record : Sim.APP_STATE := Sim.run [0%Q; 0%Q] sample_app.

Definition completed_response : Live.response :=
  {| Live.status := "COMPLETED"; Live.reconstruction_error := None;
     Live.values := ∅; Live.sensor_states := None;
     Live.sensor_anomaly_counts := Some [("Vibration_mm_s", 3)];
     Live.record_number := Some 1000; Live.total_records := Some 1000;
     Live.timestamp := "12:00:00"; Live.threshold := Some (5 # 100)%Q;
     Live.financial := None |}.

Definition quiet_outcome (d : Live.response) : Live.outcome :=
  {| Live.live_data := Live.HttpOk d;
     Live.system_health := Live.HttpOk ();
     Live.view_throws := false |}.

(** The page once [startLiveStreaming] ran while the API was down. *)
Definition streaming_page : Live.page :=
  Live.startLiveStreaming
    {| Live.live_data := Live.NetworkError;
       Live.system_health := Live.NetworkError;
       Live.view_throws := false |}
    Live.initial_page.

(** A stand-in for the trained model: the error is the normalised
    bearing temperature of the newest reading of the window, the deltas are
    that reading's normalised channels. *)
Definition demo_model : Backend.TrainedModel :=
  {| Backend.infer := fun w =>
       match last w with
       | Some r => (default 0%Q (r !! "Bearing_Temperature_C"), r)
       | None => (0%Q, ∅)
       end;
     Backend.threshold := 6 # 10;
     Backend.normalize := fun r => (fun v => v / 100)%Q <$> r;
     Backend.bound_anomaly := 75 # 100;
     Backend.bound_critical := 85 # 100 |}.

(** A processor whose queue holds one hot reading and whose buffer
    already holds twenty-nine. *)
Definition loaded_processor : Backend.processor :=
  @Backend.steps demo_model
    (replicate 30 (Backend.Submit hot_reading)
       ++ replicate 29 Backend.Consume)
    Backend.new_processor.

Definition failed_outcome : Live.outcome :=
  {| Live.live_data := Live.HttpError;
     Live.system_health := Live.HttpOk ();
     Live.view_throws := false |}.

(** * Properties *)

(** Membership in a list given by its elements. *)
(** An application state with the admin role selected. *)
Definition admin_app : Sim.APP_STATE :=
  {| Sim.currentRole := "admin"; Sim.dataIndex := 0;
     Sim.data := [hot_reading; quiet_reading];
     Sim.isPlaying := true;
     Sim.mlThreshold := Sim.mlThreshold Sim.initial_APP_STATE;
     Sim.lastAnomalyScore := 0; Sim.systemState := "NORMAL" |}.

(** An answer of [/api/live-data] as the polling dashboard reads it. *)
Definition sample_live_data : Improved.live_data :=
  {| Improved.values := Some hot_reading;
     Improved.sensor_states := Some {[ "Vibration_mm_s" := "ANOMALY" ]};
     Improved.sensor_anomaly_counts :=
       Some [("Vibration_mm_s", 7); ("Bearing_Temperature_C", 7);
             ("Motor_RPM", 2)] |}.

Ltac in_list :=
  repeat first [apply list_elem_of_here | apply list_elem_of_further].

(** ** Comparisons *)

Lemma Qgtb_lt a b : Qgtb a b = true <-> (b < a)%Q.
Proof.
  unfold Qgtb. rewrite negb_true_iff.
  split.
  - intros H. apply Qnot_le_lt. intros Hle.
    apply Qle_bool_iff in Hle. congruence.
  - intros H. destruct (Qle_bool a b) eqn:E; [|reflexivity].
    apply Qle_bool_iff in E. exfalso. eapply Qlt_not_le; eauto.
Qed.

Lemma Qgtb_le a b : Qgtb a b = false <-> (a <= b)%Q.
Proof.
  unfold Qgtb. rewrite negb_false_iff. apply Qle_bool_iff.
Qed.

(** ** The simulation loop *)

Section SimLoop.

Import Sim.

Lemma classify_anomalous err thr :
  anomalous (classify err thr) = true <-> (thr < err)%Q.
Proof.
  unfold classify.
  destruct (Qgtb err (thr + (3 # 10))) eqn:Hc.
  - apply Qgtb_lt in Hc. split; [intros _; lra | reflexivity].
  - apply Qgtb_le in Hc.
    destruct (Qgtb err thr) eqn:Hw.
    + apply Qgtb_lt in Hw. split; [intros _; lra | reflexivity].
    + apply Qgtb_le in Hw. split; [discriminate | intros; lra].
Qed.

Lemma updateLoop_mlThreshold rnd st :
  mlThreshold (updateLoop rnd st) = mlThreshold st.
Proof.
  unfold updateLoop.
  destruct (negb (isPlaying st) || (length (data st) =? 0)); [reflexivity|].
  destruct (data st !! _); reflexivity.
Qed.

Lemma run_mlThreshold rnds st : mlThreshold (run rnds st) = mlThreshold st.
Proof.
  unfold run. revert st.
  induction rnds as [|r rnds IH]; intros st; simpl; [reflexivity|].
  rewrite IH. apply updateLoop_mlThreshold.
Qed.

Lemma updateLoop_next rnd st cur :
  next_reading st = Some cur ->
  updateLoop rnd st =
    {| currentRole := currentRole st;
       dataIndex := (dataIndex st + 1) mod length (data st);
       data := data st; isPlaying := isPlaying st;
       mlThreshold := mlThreshold st;
       lastAnomalyScore := reconstructionError rnd cur;
       systemState := classify (reconstructionError rnd cur) (mlThreshold st) |}.
Proof.
  unfold next_reading, updateLoop.
  destruct (negb (isPlaying st) || (length (data st) =? 0)); [discriminate|].
  intros ->. reflexivity.
Qed.

(** C1: every reading the loop processes is classified as anomalous
    (WARNING or CRITICAL) exactly when its reconstruction error is strictly
    greater than the threshold, and that threshold is still the constant
    the page was loaded with, whatever data was loaded and however many
    iterations ran before. *)
Theorem anomalous_iff_error_above_fixed_threshold
    (d : list reading) (rnds : list Q) (rnd : Q) (cur : reading) :
  next_reading (run rnds (set_data d initial_APP_STATE)) = Some cur ->
  mlThreshold (updateLoop rnd (run rnds (set_data d initial_APP_STATE)))
    = (6222164315398973 # 100000000000000000)%Q
  /\ lastAnomalyScore (updateLoop rnd (run rnds (set_data d initial_APP_STATE)))
    = reconstructionError rnd cur
  /\ (anomalous (systemState
         (updateLoop rnd (run rnds (set_data d initial_APP_STATE)))) = true
      <-> (6222164315398973 # 100000000000000000
             < reconstructionError rnd cur)%Q).
Proof.
  intros Hnext.
  rewrite (updateLoop_next _ _ _ Hnext). cbn [mlThreshold lastAnomalyScore systemState].
  rewrite run_mlThreshold. cbn [set_data initial_APP_STATE mlThreshold].
  split; [reflexivity|]. split; [reflexivity|].
  apply classify_anomalous.
Qed.

Lemma anomalous_iff_error_above_fixed_threshold_witness :
  anomalous (systemState
     (updateLoop (1 # 2)
        (run [0%Q] (set_data [quiet_reading; hot_reading] initial_APP_STATE))))
    = true
  <-> (6222164315398973 # 100000000000000000
         < reconstructionError (1 # 2) quiet_reading)%Q.
Proof.
  apply (anomalous_iff_error_above_fixed_threshold
           [quiet_reading; hot_reading] [0%Q] (1 # 2) quiet_reading).
  vm_compute. reflexivity.
Defined.

(** C2, as stated, fails: on one and the same state (hence the same
    reading) two evaluations of the simulated inference with different
    random draws return different errors, and even different verdicts. *)
Lemma inference_not_deterministic :
  ~ (lastAnomalyScore (updateLoop 0 sample_app)
       == lastAnomalyScore (updateLoop (9 # 10) sample_app))%Q
  /\ systemState (updateLoop 0 sample_app) = "NORMAL"
  /\ systemState (updateLoop (9 # 10) sample_app) = "WARNING".
Proof.
  split; [|split]; [|vm_compute; reflexivity ..].
  vm_compute. discriminate.
Qed.

Lemma reconstructionError_draws cur r1 r2 :
  (reconstructionError r1 cur - reconstructionError r2 cur
     == (r1 - r2) * (2 # 100))%Q.
Proof.
  unfold reconstructionError.
  destruct (Qgtb _ 4), (Qgtb _ 75); lra.
Qed.

(** C2, amended: the simulated inference is a function of the reading being
    processed and of one random draw in [0, 1) and of nothing else in the
    state: with the same reading and the same draw two evaluations return
    the same error, and with any two draws the errors on the same reading
    differ by less than 0.02. *)
Theorem inference_determined_by_reading_and_draw
    (st1 st2 : APP_STATE) (cur : reading) (r1 r2 : Q) :
  next_reading st1 = Some cur ->
  next_reading st2 = Some cur ->
  (0 <= r1)%Q -> (r1 < 1)%Q -> (0 <= r2)%Q -> (r2 < 1)%Q ->
  ((r1 == r2)%Q ->
   (lastAnomalyScore (updateLoop r1 st1)
      == lastAnomalyScore (updateLoop r2 st2))%Q)
  /\ (Qabs (lastAnomalyScore (updateLoop r1 st1)
            - lastAnomalyScore (updateLoop r2 st2)) < 2 # 100)%Q.
Proof.
  intros H1 H2 Hr1 Hr1' Hr2 Hr2'.
  rewrite (updateLoop_next _ _ _ H1), (updateLoop_next _ _ _ H2).
  cbn [lastAnomalyScore].
  pose proof (reconstructionError_draws cur r1 r2) as Hd.
  split.
  - intros Heq. lra.
  - apply Qabs_Qlt_condition. rewrite Hd. split; lra.
Qed.

Lemma inference_determined_by_reading_and_draw_witness :
  (Qabs (lastAnomalyScore (updateLoop 0 sample_app)
         - lastAnomalyScore (updateLoop (9 # 10) sample_app)) < 2 # 100)%Q.
Proof.
  apply (inference_determined_by_reading_and_draw
           sample_app sample_app quiet_reading 0 (9 # 10));
    vm_compute; (reflexivity || discriminate).
Defined.

End SimLoop.

(** ** End of the replay *)

Section Replay.

Lemma updateLoop_systemState rnd st cur :
  Sim.next_reading st = Some cur ->
  Sim.systemState (Sim.updateLoop rnd st) ∈ ["NORMAL"; "WARNING"; "CRITICAL"].
Proof.
  intros H. rewrite (updateLoop_next _ _ _ H). cbn [Sim.systemState].
  unfold Sim.classify.
  destruct (Qgtb _ (_ + _)); [in_list|].
  destruct (Qgtb _ _); in_list.
Qed.

(** C4, as stated, fails on the simulation loop: positioned on the last of
    its three records, the next call wraps to record 0 and the state is not
    COMPLETED. *)
Lemma replay_wraps_around :
  Sim.dataIndex at_last_record + 1 = length (Sim.data at_last_record)
  /\ Sim.dataIndex (Sim.updateLoop 0 at_last_record) = 0
  /\ Sim.systemState (Sim.updateLoop 0 at_last_record) <> "COMPLETED".
Proof.
  split; [|split]; [vm_compute; reflexivity ..|].
  vm_compute. discriminate.
Qed.

Lemma ticks_inactive os w h :
  Live.streamInterval (Live.app w) = Some h ->
  h ∉ Live.timers w ->
  Live.ticks os w = w.
Proof.
  intros Hh Hn. unfold Live.ticks.
  induction os as [|o os IH]; simpl; [reflexivity|].
  unfold Live.tick at 2. rewrite Hh.
  rewrite bool_decide_eq_false_2 by assumption. exact IH.
Qed.

(** C4, amended: in the live-streaming client a poll that answers COMPLETED
    (with the view rendering normally and the polling timer running) puts
    the page in state COMPLETED, leaves the history buffer as it is and
    cancels the timer, so that no later tick changes the page; the
    simulation loop has no such state: every call moves the index to
    (index + 1) mod length, which after the last record is the first one,
    and sets one of NORMAL, WARNING, CRITICAL. *)
Theorem replay_end_behaviour
    (o : Live.outcome) (w : Live.page) (d : Live.response) (h : nat)
    (os : list Live.outcome)
    (rnd : Q) (st : Sim.APP_STATE) (cur : reading) :
  Live.live_data o = Live.HttpOk d ->
  Live.status d = "COMPLETED" ->
  Live.view_throws o = false ->
  Live.streamInterval (Live.app w) = Some h ->
  Sim.next_reading st = Some cur ->
  (Live.systemState (Live.app (Live.fetchLiveStep o w)) = "COMPLETED"
   /\ Live.data (Live.app (Live.fetchLiveStep o w)) = Live.data (Live.app w)
   /\ (h ∉ Live.timers (Live.fetchLiveStep o w))
   /\ Live.ticks os (Live.fetchLiveStep o w) = Live.fetchLiveStep o w)
  /\ (Sim.dataIndex (Sim.updateLoop rnd st)
        = (Sim.dataIndex st + 1) mod length (Sim.data st)
      /\ (Sim.dataIndex st + 1 = length (Sim.data st) ->
          Sim.dataIndex (Sim.updateLoop rnd st) = 0)
      /\ (Sim.systemState (Sim.updateLoop rnd st)
           ∈ ["NORMAL"; "WARNING"; "CRITICAL"])).
Proof.
  intros Hd Hs Hv Hh Hn. split.
  - assert (Hstep : Live.fetchLiveStep o w =
      Live.render
        {| Live.app := Live.app (Live.set_systemState "COMPLETED" w);
           Live.ml := Live.updateMLStats d (Live.ml w);
           Live.timers := Live.timers w ∖ {[h]} |}).
    { unfold Live.fetchLiveStep. rewrite Hd, Hv, Hh.
      rewrite bool_decide_eq_true_2 by assumption. reflexivity. }
    assert (Hout : h ∉ Live.timers (Live.fetchLiveStep o w)).
    { rewrite Hstep. cbn. apply not_elem_of_difference. right.
      apply elem_of_singleton. reflexivity. }
    split; [rewrite Hstep; reflexivity|].
    split; [rewrite Hstep; reflexivity|].
    split; [exact Hout|].
    apply (ticks_inactive os _ h); [|exact Hout].
    rewrite Hstep. exact Hh.
  - split; [|split].
    + rewrite (updateLoop_next _ _ _ Hn). reflexivity.
    + intros Hlast. rewrite (updateLoop_next _ _ _ Hn). cbn [Sim.dataIndex].
      rewrite Hlast. apply Nat.Div0.mod_same.
    + eapply updateLoop_systemState; eassumption.
Qed.

Lemma replay_end_behaviour_witness :
  (Live.systemState
     (Live.app (Live.fetchLiveStep (quiet_outcome completed_response)
                  streaming_page)) = "COMPLETED"
   /\ Live.data
        (Live.app (Live.fetchLiveStep (quiet_outcome completed_response)
                     streaming_page))
      = Live.data (Live.app streaming_page)
   /\ (1 ∉ Live.timers
             (Live.fetchLiveStep (quiet_outcome completed_response)
                streaming_page))
   /\ Live.ticks [quiet_outcome completed_response]
        (Live.fetchLiveStep (quiet_outcome completed_response) streaming_page)
      = Live.fetchLiveStep (quiet_outcome completed_response) streaming_page)
  /\ (Sim.dataIndex (Sim.updateLoop 0 at_last_record)
        = (Sim.dataIndex at_last_record + 1)
            mod length (Sim.data at_last_record)
      /\ (Sim.dataIndex at_last_record + 1 = length (Sim.data at_last_record) ->
          Sim.dataIndex (Sim.updateLoop 0 at_last_record) = 0)
      /\ (Sim.systemState (Sim.updateLoop 0 at_last_record)
           ∈ ["NORMAL"; "WARNING"; "CRITICAL"])).
Proof.
  apply (replay_end_behaviour (quiet_outcome completed_response)
           streaming_page completed_response 1
           [quiet_outcome completed_response] 0 at_last_record hot_reading);
    vm_compute; reflexivity.
Defined.

End Replay.

(** ** Views derived from the anomaly counts *)

Section SimViews.

Import Sim.

Lemma insert_desc_perm {A} (f : A -> nat) x l : insert_desc f x l ≡ₚ x :: l.
Proof.
  induction l as [|y l IH]; simpl; [reflexivity|].
  destruct (f x <? f y); [|reflexivity].
  rewrite IH. apply Permutation_swap.
Qed.

Lemma sort_desc_perm {A} (f : A -> nat) l : sort_desc f l ≡ₚ l.
Proof.
  unfold sort_desc. induction l as [|x l IH]; simpl; [reflexivity|].
  rewrite insert_desc_perm, IH. reflexivity.
Qed.

Lemma make_row_labels data k c :
  key (make_row data (k, c)) = k
  /\ anomalyCount (make_row data (k, c)) = c
  /\ (status (make_row data (k, c)) = "CRITICAL" <-> 200 < c)
  /\ (status (make_row data (k, c)) = "UNSTABLE" <-> 100 < c <= 200)
  /\ (status (make_row data (k, c)) = "WATCH" <-> 50 < c <= 100)
  /\ (status (make_row data (k, c)) = "NORMAL" <-> c <= 50).
Proof.
  unfold make_row.
  destruct (200 <? c) eqn:H2; [apply Nat.ltb_lt in H2 | apply Nat.ltb_ge in H2];
    [cbn; repeat split; intros; try discriminate; lia|].
  destruct (100 <? c) eqn:H1; [apply Nat.ltb_lt in H1 | apply Nat.ltb_ge in H1];
    [cbn; repeat split; intros; try discriminate; lia|].
  destruct (50 <? c) eqn:H0; [apply Nat.ltb_lt in H0 | apply Nat.ltb_ge in H0];
    cbn; repeat split; intros; try discriminate; lia.
Qed.

(** C6, as stated, fails on the engineer table: with the counts the page is
    loaded with, the table shows the labels UNSTABLE and WATCH, which are
    not among NORMAL, ANOMALY, CRITICAL. *)
Lemma engineer_table_label_outside_set :
  status <$> (updateEngineerTable initial_ML_STATE (Some quiet_reading)).1
    = ["CRITICAL"; "CRITICAL"; "CRITICAL"; "CRITICAL"; "CRITICAL";
       "CRITICAL"; "UNSTABLE"; "UNSTABLE"; "WATCH"; "NORMAL"]
  /\ ("UNSTABLE" ∉ ["NORMAL"; "ANOMALY"; "CRITICAL"])
  /\ ("WATCH" ∉ ["NORMAL"; "ANOMALY"; "CRITICAL"]).
Proof.
  split; [vm_compute; reflexivity|].
  split; intros H; repeat (apply elem_of_cons in H as [H|H]; [discriminate|]);
    by apply elem_of_nil in H.
Qed.

(** C6, amended: every status label in the engineer table is one of NORMAL,
    WATCH, UNSTABLE, CRITICAL, and it is derived from the channel's anomaly
    count by three escalating bounds: above 200 CRITICAL, above 100
    UNSTABLE, above 50 WATCH, otherwise NORMAL. *)
Theorem engineer_table_labels
    (ml : ML_STATE) (data : option reading) (r : row) :
  r ∈ (updateEngineerTable ml data).1 ->
  (key r, anomalyCount r) ∈ sensorAnomalyCounts ml
  /\ (status r ∈ ["NORMAL"; "WATCH"; "UNSTABLE"; "CRITICAL"])
  /\ (status r = "CRITICAL" <-> 200 < anomalyCount r)
  /\ (status r = "UNSTABLE" <-> 100 < anomalyCount r <= 200)
  /\ (status r = "WATCH" <-> 50 < anomalyCount r <= 100)
  /\ (status r = "NORMAL" <-> anomalyCount r <= 50).
Proof.
  unfold updateEngineerTable. cbn [fst].
  rewrite sort_desc_perm. intros Hin.
  apply list_elem_of_fmap in Hin as [[k c] [-> Hin]].
  destruct (make_row_labels data k c) as (Hk & Hc & H2 & H1 & H0 & Hn).
  rewrite Hk, Hc. split; [exact Hin|].
  split; [|tauto].
  destruct (le_lt_dec c 50) as [L0|L0]; [apply Hn in L0; rewrite L0; in_list|].
  destruct (le_lt_dec c 100) as [L1|L1];
    [assert (Hw : 50 < c <= 100) by lia; apply H0 in Hw; rewrite Hw; in_list|].
  destruct (le_lt_dec c 200) as [L2|L2];
    [assert (Hu : 100 < c <= 200) by lia; apply H1 in Hu; rewrite Hu; in_list|].
  apply H2 in L2. rewrite L2. in_list.
Qed.

Lemma engineer_table_labels_witness :
  status (make_row (Some quiet_reading) ("Motor_RPM", 120)) = "UNSTABLE"
  <-> 100 < anomalyCount (make_row (Some quiet_reading) ("Motor_RPM", 120))
      <= 200.
Proof.
  apply (engineer_table_labels initial_ML_STATE (Some quiet_reading)
           (make_row (Some quiet_reading) ("Motor_RPM", 120))).
  apply list_elem_of_lookup. exists 7. vm_compute. reflexivity.
Defined.

Lemma totals_acc cs t m :
  foldl (fun (acc : nat * nat) (entry : string * nat) =>
           let '(total, maxCount) := acc in
           let count := snd entry in
           (total + count, if maxCount <? count then count else maxCount))
        (t, m) cs
  = (t + sum_list cs.*2, m `max` max_list cs.*2).
Proof.
  revert t m. induction cs as [|[k c] cs IH]; intros t m; simpl.
  - f_equal; lia.
  - rewrite IH.
    change (list_fmap (string * nat)%type nat snd cs) with (cs.*2).
    destruct (m <? c) eqn:E;
      [apply Nat.ltb_lt in E | apply Nat.ltb_ge in E]; f_equal; lia.
Qed.

Lemma totals_spec cs : totals cs = (sum_list cs.*2, max_list cs.*2).
Proof. unfold totals. rewrite totals_acc. f_equal. Qed.

(** C9: the risk level, the health score and the total are functions of
    the stored counts alone: with m the largest per-channel count, the risk
    is CRITICAL (health 45) if m > 200, UNSTABLE (65) if 100 < m <= 200,
    WATCH (80) if 50 < m <= 100 and NORMAL (98) otherwise, the total is the
    sum of the counts, and the counts themselves are left as they are. *)
Theorem risk_level_from_counts (ml : ML_STATE) :
  sensorAnomalyCounts (loadMLInferenceResults ml) = sensorAnomalyCounts ml
  /\ totalAnomalies (loadMLInferenceResults ml)
       = sum_list (sensorAnomalyCounts ml).*2
  /\ (200 < max_list (sensorAnomalyCounts ml).*2 ->
      riskLevel (loadMLInferenceResults ml) = "CRITICAL"
      /\ healthScore (loadMLInferenceResults ml) = 45)
  /\ (100 < max_list (sensorAnomalyCounts ml).*2 <= 200 ->
      riskLevel (loadMLInferenceResults ml) = "UNSTABLE"
      /\ healthScore (loadMLInferenceResults ml) = 65)
  /\ (50 < max_list (sensorAnomalyCounts ml).*2 <= 100 ->
      riskLevel (loadMLInferenceResults ml) = "WATCH"
      /\ healthScore (loadMLInferenceResults ml) = 80)
  /\ (max_list (sensorAnomalyCounts ml).*2 <= 50 ->
      riskLevel (loadMLInferenceResults ml) = "NORMAL"
      /\ healthScore (loadMLInferenceResults ml) = 98)
  /\ (forall ml2 : ML_STATE,
        sensorAnomalyCounts ml2 = sensorAnomalyCounts ml ->
        loadMLInferenceResults ml2 = loadMLInferenceResults ml).
Proof.
  unfold loadMLInferenceResults. rewrite totals_spec.
  set (m := max_list (sensorAnomalyCounts ml).*2).
  assert (Hlast : forall ml2 : ML_STATE,
    sensorAnomalyCounts ml2 = sensorAnomalyCounts ml ->
    (let '(total, maxCount) := totals (sensorAnomalyCounts ml2) in
     let '(risk, health) := risk_of maxCount in
     {| sensorAnomalyCounts := sensorAnomalyCounts ml2;
        totalAnomalies := total; riskLevel := risk; healthScore := health |})
    = (let '(risk, health) := risk_of m in
       {| sensorAnomalyCounts := sensorAnomalyCounts ml;
          totalAnomalies := sum_list (sensorAnomalyCounts ml).*2;
          riskLevel := risk; healthScore := health |})).
  { intros ml2 ->. rewrite totals_spec. reflexivity. }
  revert Hlast. unfold risk_of.
  destruct (200 <? m) eqn:H2; [apply Nat.ltb_lt in H2 | apply Nat.ltb_ge in H2];
    [cbn; intros Hlast; repeat split; try lia; exact Hlast|].
  destruct (100 <? m) eqn:H1; [apply Nat.ltb_lt in H1 | apply Nat.ltb_ge in H1];
    [cbn; intros Hlast; repeat split; try lia; exact Hlast|].
  destruct (50 <? m) eqn:H0; [apply Nat.ltb_lt in H0 | apply Nat.ltb_ge in H0];
    cbn; intros Hlast; repeat split; try lia; exact Hlast.
Qed.

Lemma risk_level_from_counts_witness :
  riskLevel (loadMLInferenceResults initial_ML_STATE) = "CRITICAL"
  /\ healthScore (loadMLInferenceResults initial_ML_STATE) = 45.
Proof.
  apply (risk_level_from_counts initial_ML_STATE).
  vm_compute. lia.
Defined.

Lemma Qsum_perm (l l' : list Q) : l ≡ₚ l' -> (Qsum l == Qsum l')%Q.
Proof.
  induction 1 as [|x l l' _ IH|x y l|l l' l'' _ IH1 _ IH2]; simpl.
  - reflexivity.
  - rewrite IH. reflexivity.
  - ring.
  - rewrite IH1. exact IH2.
Qed.

Lemma updateManagementView_unfold ml :
  updateManagementView ml
  = omap (attribute (nat_or (Some (totalAnomalies ml)) 1))
      (sort_desc snd (sensorAnomalyCounts ml)).
Proof. reflexivity. Qed.

Lemma Qsum_attribute total cs :
  0 < total ->
  (Qsum (omap (attribute total) cs).*2
     == inject_Z (Z.of_nat (sum_list cs.*2)) / inject_Z (Z.of_nat total)
        * TOTAL_BUDGET_RISK)%Q.
Proof.
  intros Hpos.
  assert (Hnz : ~ (inject_Z (Z.of_nat total) == 0)%Q).
  { change 0%Q with (inject_Z 0). rewrite inject_Z_injective. lia. }
  unfold TOTAL_BUDGET_RISK.
  induction cs as [|[k c] cs IH]; simpl.
  - change (inject_Z (Z.of_nat 0)) with 0%Q. field. exact Hnz.
  - change (list_omap _ _ (attribute total) cs) with (omap (attribute total) cs).
    change (list_fmap _ nat snd cs) with (cs.*2).
    rewrite Nat2Z.inj_add, inject_Z_plus.
    set (rest := Qsum (omap (attribute total) cs).*2) in *.
    set (sum := inject_Z (Z.of_nat (sum_list cs.*2))) in *.
    destruct (0 <? c) eqn:E.
    + change (Qsum ((k, cost_of total c) :: omap (attribute total) cs).*2)
        with (cost_of total c + rest)%Q.
      rewrite IH. unfold cost_of, TOTAL_BUDGET_RISK. field. exact Hnz.
    + apply Nat.ltb_ge in E. assert (c = 0) as -> by lia.
      fold rest. rewrite IH.
      change (inject_Z (Z.of_nat 0)) with 0%Q. field. exact Hnz.
Qed.

(** C10: with a positive total, the attribution list holds exactly the
    sensors with a positive count, each with the cost
    count / totalAnomalies * 450000 (in descending order of count), and
    whenever the total equals the sum of the per-sensor counts these costs
    add up to 450000. *)
Theorem cost_attribution_sums_to_budget (ml : ML_STATE) :
  0 < totalAnomalies ml ->
  updateManagementView ml
    ≡ₚ omap (fun '(sensor, count) =>
               if 0 <? count
               then Some (sensor, (inject_Z (Z.of_nat count)
                                   / inject_Z (Z.of_nat (totalAnomalies ml))
                                   * 450000)%Q)
               else None)
            (sensorAnomalyCounts ml)
  /\ (totalAnomalies ml = sum_list (sensorAnomalyCounts ml).*2 ->
      (Qsum (updateManagementView ml).*2 == 450000)%Q).
Proof.
  intros Hpos. rewrite updateManagementView_unfold.
  assert (Ht : nat_or (Some (totalAnomalies ml)) 1 = totalAnomalies ml).
  { unfold nat_or. destruct (totalAnomalies ml); [lia | reflexivity]. }
  rewrite Ht. split.
  - rewrite sort_desc_perm. reflexivity.
  - intros Hsum.
    rewrite (Qsum_perm _ (omap (attribute (totalAnomalies ml))
                            (sensorAnomalyCounts ml)).*2)
      by (rewrite sort_desc_perm; reflexivity).
    rewrite Qsum_attribute by exact Hpos.
    rewrite <- Hsum. unfold TOTAL_BUDGET_RISK. field.
    change 0%Q with (inject_Z 0). rewrite inject_Z_injective. lia.
Qed.

Lemma cost_attribution_sums_to_budget_witness :
  (Qsum (updateManagementView (loadMLInferenceResults initial_ML_STATE)).*2
     == 450000)%Q.
Proof.
  apply (cost_attribution_sums_to_budget
           (loadMLInferenceResults initial_ML_STATE)).
  - vm_compute. lia.
  - vm_compute. reflexivity.
Defined.

End SimViews.

(** ** The backend pipeline *)

Section BackendProps.

Import Backend.

Context `{TrainedModel}.

Lemma append_unfold r buf :
  length buf < WINDOW -> append r buf = buf ++ [r].
Proof.
  intros Hlt. unfold append. rewrite length_app. simpl.
  destruct (WINDOW <? length buf + 1) eqn:E; [|reflexivity].
  apply Nat.ltb_lt in E. lia.
Qed.

Lemma append_length_le r buf :
  length buf <= WINDOW -> length (append r buf) <= WINDOW.
Proof.
  intros Hle. unfold append. rewrite length_app. simpl.
  destruct (WINDOW <? length buf + 1) eqn:E.
  - rewrite length_drop, length_app. simpl. lia.
  - apply Nat.ltb_ge in E. rewrite length_app. simpl. lia.
Qed.

Lemma process_buffer r st :
  buffer (process r st).1 = append r (buffer st).
Proof.
  unfold process. destruct (negb (is_ready _)); [reflexivity|].
  destruct (infer _). reflexivity.
Qed.

Lemma process_learning r st :
  is_ready (append r (buffer st)) = false ->
  process r st =
    ({| queue := queue st; buffer := append r (buffer st);
        counters := counters st; status := LEARNING; latest := latest st |},
     None).
Proof. intros E. unfold process. rewrite E. reflexivity. Qed.

Lemma process_inference_ready r st :
  is_Some (process r st).2 <-> length (buffer (process r st).1) = WINDOW.
Proof.
  rewrite process_buffer. unfold process.
  destruct (is_ready (append r (buffer st))) eqn:E; simpl.
  - destruct (infer _). simpl. apply Nat.eqb_eq in E. split; eauto.
  - apply Nat.eqb_neq in E. split; [intros [? ?]; discriminate | intros; lia].
Qed.

Lemma process_all_filling rs st :
  length (buffer st) + length rs < WINDOW ->
  process_all rs st
  = ({| queue := queue st; buffer := buffer st ++ rs; counters := counters st;
        status := match rs with [] => status st | _ => LEARNING end;
        latest := latest st |},
     replicate (length rs) None).
Proof.
  revert st. induction rs as [|r rs IH]; intros st Hlen; simpl in *.
  - rewrite app_nil_r. destruct st; reflexivity.
  - assert (Happ : append r (buffer st) = buffer st ++ [r])
      by (apply append_unfold; lia).
    rewrite process_learning.
    2:{ rewrite Happ. unfold is_ready. apply Nat.eqb_neq.
        rewrite length_app. simpl. lia. }
    rewrite IH; cbn [buffer queue counters status latest].
    2:{ rewrite Happ, length_app. simpl. lia. }
    rewrite Happ, <- app_assoc. simpl.
    destruct rs; reflexivity.
Qed.

Lemma step_buffer_le e st :
  length (buffer st) <= WINDOW -> length (buffer (step e st)) <= WINDOW.
Proof.
  intros Hle. destruct e; simpl; try assumption.
  - destruct (status st), (take (queue st)) as [[r q']|]; try assumption;
      rewrite process_buffer; apply append_length_le; assumption.
  - lia.
Qed.

Lemma steps_buffer_le es st :
  length (buffer st) <= WINDOW -> length (buffer (steps es st)) <= WINDOW.
Proof.
  unfold steps. revert st.
  induction es as [|e es IH]; intros st Hle; simpl; [assumption|].
  apply IH, step_buffer_le, Hle.
Qed.

(** C3: after 29 or fewer readings fed to a buffer that was just created
    or cleared, the buffer is not ready, no inference was attempted for any
    of them and the status is LEARNING; an inference is attempted exactly
    when the buffer holds 30 readings; and the buffer of a processor never
    holds more than 30 readings, whatever events it went through. *)
Theorem no_inference_before_window_full
    (st : processor) (rs : list reading) (es : list event) :
  buffer st = [] ->
  length rs <= 29 ->
  (is_ready (buffer (process_all rs st).1) = false
   /\ (process_all rs st).2 = replicate (length rs) None
   /\ (rs <> [] \/ status st = LEARNING ->
       status (process_all rs st).1 = LEARNING))
  /\ (forall (r : reading) (st0 : processor),
        is_Some (process r st0).2 <-> length (buffer (process r st0).1) = 30)
  /\ length (buffer (steps es new_processor)) <= 30.
Proof.
  intros Hb Hlen.
  rewrite process_all_filling by (rewrite Hb; simpl; unfold WINDOW; lia).
  cbn [fst snd buffer status]. rewrite Hb. simpl.
  split; [split; [|split]|split].
  - unfold is_ready. apply Nat.eqb_neq. unfold WINDOW. lia.
  - reflexivity.
  - intros [Hne|Hs]; destruct rs; congruence.
  - intros r st0. apply process_inference_ready.
  - apply steps_buffer_le. simpl. unfold WINDOW. lia.
Qed.

End BackendProps.

Lemma no_inference_before_window_full_witness :
  Backend.is_ready
    (Backend.buffer
       (@Backend.process_all demo_model [quiet_reading; hot_reading]
          Backend.new_processor).1) = false
  /\ (@Backend.process_all demo_model [quiet_reading; hot_reading]
        Backend.new_processor).2 = [None; None]
  /\ ([quiet_reading; hot_reading] <> [] \/
      Backend.status Backend.new_processor = Backend.LEARNING ->
      Backend.status
        (@Backend.process_all demo_model [quiet_reading; hot_reading]
           Backend.new_processor).1 = Backend.LEARNING).
Proof.
  apply (@no_inference_before_window_full demo_model Backend.new_processor
           [quiet_reading; hot_reading] []).
  - reflexivity.
  - simpl. lia.
Defined.

(** With the stand-in model the thirtieth reading is the first to be
    inferred on. *)
Example thirtieth_reading_inferred :
  is_Some (last (@Backend.process_all demo_model (replicate 30 hot_reading)
                   Backend.new_processor).2 ≫= id)
  /\ Backend.status
       (@Backend.process_all demo_model (replicate 30 hot_reading)
          Backend.new_processor).1 = Backend.ANOMALY.
Proof. split; [vm_compute; eauto | vm_compute; reflexivity]. Qed.

(** ** Anomaly counters *)

Section BackendCounters.

Import Backend.

Context `{TrainedModel}.

Lemma update_counters_count states cs k :
  count cs k <= count (update_counters states cs) k.
Proof.
  unfold count, update_counters. rewrite lookup_merge.
  destruct (cs !! k) as [n|], (states !! k) as [l|]; simpl; try lia;
    destruct (flagged l); simpl; lia.
Qed.

Lemma process_counters r st k :
  count (counters st) k <= count (counters (process r st).1) k.
Proof.
  unfold process. destruct (negb (is_ready _)); [reflexivity|].
  destruct (infer _). cbn [fst counters]. apply update_counters_count.
Qed.

Lemma reset_counters_count cs k : count (reset_counters cs) k = 0.
Proof.
  unfold count, reset_counters. rewrite lookup_fmap.
  destruct (cs !! k); reflexivity.
Qed.

Lemma step_counters e st k :
  e <> ResetCounters -> count (counters st) k <= count (counters (step e st)) k.
Proof.
  intros Hne. destruct e; simpl; try reflexivity; [|congruence].
  destruct (status st), (take (queue st)) as [[r q']|]; try reflexivity;
    apply (process_counters r
             {| queue := q'; buffer := buffer st; counters := counters st;
                status := _; latest := latest st |} k).
Qed.

(** C5: for every channel, every event of the stream processor other than
    the administrative reset leaves the channel's anomaly count unchanged
    or larger; consequently an event that lowers some count is the reset;
    after the reset every count is zero; and the polling client only
    mirrors the counts it is served ([updateMLStats] stores them as they
    come, or keeps the previous ones when the answer carries none). *)
Theorem counters_monotone_except_reset
    (e : event) (st : processor) (k : string)
    (d : Live.response) (m : Live.ML_STATE) :
  (e <> ResetCounters ->
   count (counters st) k <= count (counters (step e st)) k)
  /\ (count (counters (step e st)) k < count (counters st) k ->
      e = ResetCounters)
  /\ count (counters (step ResetCounters st)) k = 0
  /\ Live.sensorAnomalyCounts (Live.updateMLStats d m)
     = default (Live.sensorAnomalyCounts m) (Live.sensor_anomaly_counts d).
Proof.
  split; [apply step_counters|]. split; [|split].
  - intros Hlt. destruct e; try reflexivity; exfalso;
      (eapply Nat.lt_irrefl, Nat.lt_le_trans;
       [exact Hlt | apply step_counters; discriminate]).
  - apply reset_counters_count.
  - unfold Live.updateMLStats. cbn [Live.sensorAnomalyCounts].
    destruct (Live.sensor_anomaly_counts d); reflexivity.
Qed.

(** ** Ingestion queue *)

Lemma submit_all_bounded rs q :
  length (pending q) <= capacity q ->
  submit_all rs q
  = (replicate (length rs `min` (capacity q - length (pending q))) Accepted
       ++ replicate (length rs - (capacity q - length (pending q)))
            (Rejected QueueFull),
     {| capacity := capacity q;
        pending := pending q
                     ++ firstn (capacity q - length (pending q)) rs |}).
Proof.
  revert q. induction rs as [|r rs IH]; intros q Hle; simpl.
  - rewrite take_nil, app_nil_r. destruct q; reflexivity.
  - unfold submit.
    destruct (length (pending q) <? capacity q) eqn:E;
      [apply Nat.ltb_lt in E | apply Nat.ltb_ge in E].
    + rewrite IH; cbn [capacity pending]; rewrite ?length_app; simpl; [|lia].
      replace (capacity q - length (pending q))
        with (S (capacity q - (length (pending q) + 1))) by lia.
      simpl. rewrite <- app_assoc. reflexivity.
    + rewrite IH by exact Hle.
      replace (capacity q - length (pending q)) with 0 by lia.
      rewrite Nat.min_0_r, Nat.sub_0_r, take_0. reflexivity.
Qed.

(** C7: 1001 readings submitted to an empty queue of capacity 1000 while
    nothing is taken are answered Accepted a thousand times and then
    Rejected(QueueFull) once; the queue then holds the first thousand
    readings; and [submit] always answers, with Rejected(QueueFull) exactly
    when the queue is full, in which case the queue is left as it was. *)
Theorem burst_rejects_only_the_overflow (rs : list reading) :
  length rs = 1001 ->
  (submit_all rs new_queue).1
    = replicate 1000 Accepted ++ [Rejected QueueFull]
  /\ pending (submit_all rs new_queue).2 = firstn 1000 rs
  /\ (forall (r : reading) (q : IngestionQueue),
        ((submit r q).1 = Accepted <-> length (pending q) < capacity q)
        /\ ((submit r q).1 = Rejected QueueFull
            <-> capacity q <= length (pending q))
        /\ ((submit r q).1 = Rejected QueueFull -> (submit r q).2 = q)).
Proof.
  intros Hlen.
  rewrite submit_all_bounded by (simpl; lia).
  cbn [fst snd capacity pending new_queue length]. rewrite Hlen.
  split; [reflexivity|]. split; [reflexivity|].
  intros r q. unfold submit.
  destruct (length (pending q) <? capacity q) eqn:E;
    [apply Nat.ltb_lt in E | apply Nat.ltb_ge in E]; cbn [fst snd].
  - split; [tauto|]. split; [split; [discriminate | lia] | discriminate].
  - split; [split; [discriminate | lia]|]. split; [tauto | reflexivity].
Qed.

End BackendCounters.

Lemma counters_monotone_except_reset_witness :
  Backend.count (Backend.counters loaded_processor) "Bearing_Temperature_C"
  <= Backend.count
       (Backend.counters
          (@Backend.step demo_model Backend.Consume loaded_processor))
       "Bearing_Temperature_C".
Proof.
  apply (@counters_monotone_except_reset demo_model Backend.Consume
           loaded_processor "Bearing_Temperature_C"
           completed_response Live.initial_ML_STATE).
  discriminate.
Defined.

(** On that processor the thirtieth reading raises the bearing count from
    0 to 1, and the reset brings it back to 0. *)
Example thirtieth_reading_counted :
  Backend.count (Backend.counters loaded_processor) "Bearing_Temperature_C" = 0
  /\ Backend.count
       (Backend.counters
          (@Backend.step demo_model Backend.Consume loaded_processor))
       "Bearing_Temperature_C" = 1
  /\ Backend.count
       (Backend.counters
          (@Backend.steps demo_model [Backend.Consume; Backend.ResetCounters]
             loaded_processor))
       "Bearing_Temperature_C" = 0.
Proof. repeat split; vm_compute; reflexivity. Qed.

Lemma burst_rejects_only_the_overflow_witness :
  (Backend.submit_all (replicate 1001 quiet_reading) Backend.new_queue).1
  = replicate 1000 Backend.Accepted ++ [Backend.Rejected Backend.QueueFull].
Proof.
  apply (burst_rejects_only_the_overflow (replicate 1001 quiet_reading)).
  apply length_replicate.
Defined.

(** ** The OFFLINE state *)

Section Offline.

Context `{Backend.TrainedModel}.

Lemma status_name_not_offline s : Backend.status_name s <> "OFFLINE".
Proof. destruct s; discriminate. Qed.

(** C8: when the poll of the live-data endpoint fails (network error or
    non-2xx answer) the client sets its observed state to OFFLINE; the
    status published by the stream processor is never OFFLINE, whatever
    events it went through; and when the poll succeeds with a status the
    processor published, the client shows OFFLINE only if the rest of the
    step raised an exception (health endpoint unreachable or the view
    throwing), never because of the processor. *)
Theorem offline_only_from_the_observer
    (o : Live.outcome) (w : Live.page)
    (es : list Backend.event) (st : Backend.processor) :
  (Live.poll_failed o = true ->
   Live.systemState (Live.app (Live.fetchLiveStep o w)) = "OFFLINE")
  /\ Backend.read_status (Backend.steps es st) <> "OFFLINE"
  /\ (forall d : Live.response,
        Live.live_data o = Live.HttpOk d ->
        Live.status d = Backend.read_status (Backend.steps es st) ->
        (Live.systemState (Live.app (Live.fetchLiveStep o w)) = "OFFLINE"
         <-> (Live.status d <> "COMPLETED"
              /\ Live.system_health o = Live.NetworkError)
             \/ Live.view_throws o = true)).
Proof.
  split; [|split].
  - unfold Live.poll_failed, Live.fetchLiveStep.
    destruct (Live.live_data o); (reflexivity || discriminate).
  - apply status_name_not_offline.
  - intros d Hd Hs. unfold Live.fetchLiveStep. rewrite Hd.
    pose proof (status_name_not_offline
                  (Backend.status (Backend.steps es st))) as Hno.
    fold (Backend.read_status (Backend.steps es st)) in Hno.
    rewrite <- Hs in Hno.
    destruct (bool_decide (Live.status d = "COMPLETED")) eqn:Ec.
    + apply bool_decide_eq_true_1 in Ec.
      destruct (Live.view_throws o); cbn.
      * split; [intros _; right; reflexivity | reflexivity].
      * split; [discriminate | intros [[Hn _]|Hv]; [congruence|discriminate]].
    + apply bool_decide_eq_false_1 in Ec.
      destruct (Live.system_health o), (Live.view_throws o); cbn;
        split; intros Hx; try tauto; try congruence;
        try (right; reflexivity); try (left; split; [assumption|reflexivity]);
        destruct Hx as [[_ Hx]|Hx]; discriminate.
Qed.

End Offline.

Lemma offline_only_from_the_observer_witness :
  Live.systemState (Live.app (Live.fetchLiveStep failed_outcome streaming_page))
  = "OFFLINE".
Proof.
  apply (@offline_only_from_the_observer demo_model failed_outcome
           streaming_page [] Backend.new_processor).
  reflexivity.
Defined.

(** * Further properties of the two clients *)

(** ** The simulation loop, continued *)

Section SimLoopMore.

Import Sim.

Lemma updateLoop_idle_step rnd st :
  isPlaying st = false \/ data st = [] -> updateLoop rnd st = st.
Proof.
  intros [Hp|Hd]; unfold updateLoop.
  - rewrite Hp. reflexivity.
  - rewrite Hd. simpl. rewrite orb_true_r. reflexivity.
Qed.

(** X2: while the loop is paused, or while no data is loaded, calls of
    [updateLoop] change nothing at all. *)
Theorem updateLoop_idle (rnds : list Q) (st : APP_STATE) :
  isPlaying st = false \/ data st = [] -> run rnds st = st.
Proof.
  intros H. unfold run. induction rnds as [|r rnds IH]; simpl; [reflexivity|].
  rewrite updateLoop_idle_step by exact H. exact IH.
Qed.

Lemma updateLoop_idle_witness :
  run [0%Q; (1 # 2)%Q] initial_APP_STATE = initial_APP_STATE.
Proof.
  apply (updateLoop_idle [0%Q; (1 # 2)%Q] initial_APP_STATE).
  right. reflexivity.
Defined.

Lemma updateLoop_frame rnd st :
  data (updateLoop rnd st) = data st
  /\ isPlaying (updateLoop rnd st) = isPlaying st
  /\ currentRole (updateLoop rnd st) = currentRole st.
Proof.
  unfold updateLoop.
  destruct (negb (isPlaying st) || (length (data st) =? 0)); [auto|].
  destruct (data st !! _); auto.
Qed.

Lemma updateLoop_index rnd st :
  isPlaying st = true -> data st <> [] ->
  dataIndex (updateLoop rnd st) = (dataIndex st + 1) mod length (data st).
Proof.
  intros Hp Hd. unfold updateLoop. rewrite Hp. simpl.
  destruct (length (data st) =? 0) eqn:E.
  - apply Nat.eqb_eq in E. destruct (data st); [congruence | discriminate].
  - destruct (data st !! _); reflexivity.
Qed.

(** X1: while playing over a non-empty data set, k calls of [updateLoop]
    move the index from i to (i + k) mod n, whatever was drawn; the index
    stays inside the data, the data and the playing flag are left alone,
    and after exactly n calls the index is back where it started. *)
Theorem updateLoop_cycles (rnds : list Q) (st : APP_STATE) :
  isPlaying st = true ->
  dataIndex st < length (data st) ->
  dataIndex (run rnds st)
    = (dataIndex st + length rnds) mod length (data st)
  /\ dataIndex (run rnds st) < length (data st)
  /\ data (run rnds st) = data st
  /\ isPlaying (run rnds st) = true
  /\ (length rnds = length (data st) ->
      dataIndex (run rnds st) = dataIndex st).
Proof.
  intros Hp Hlt.
  assert (Hmain : dataIndex (run rnds st)
                  = (dataIndex st + length rnds) mod length (data st)
                  /\ data (run rnds st) = data st
                  /\ isPlaying (run rnds st) = true).
  { unfold run. revert st Hp Hlt.
    induction rnds as [|r rnds IH]; intros st Hp Hlt; simpl.
    - rewrite Nat.add_0_r, Nat.mod_small by exact Hlt. auto.
    - destruct (updateLoop_frame r st) as (Hd & Hp' & _).
      assert (Hne : data st <> []) by (destruct (data st); simpl in *; [lia | discriminate]).
      pose proof (updateLoop_index r st Hp Hne) as Hi.
      destruct (IH (updateLoop r st)) as (H1 & H2 & H3).
      + congruence.
      + rewrite Hi, Hd. apply Nat.mod_upper_bound. lia.
      + rewrite H1, H2, Hd, Hi. split; [|auto].
        rewrite Nat.Div0.add_mod_idemp_l. f_equal. lia. }
  destruct Hmain as (H1 & H2 & H3).
  split; [exact H1|]. split; [|split; [exact H2|split; [exact H3|]]].
  - rewrite H1. apply Nat.mod_upper_bound. lia.
  - intros Hn. rewrite H1, Hn.
    rewrite <- Nat.Div0.add_mod_idemp_r, Nat.Div0.mod_same, Nat.add_0_r.
    apply Nat.mod_small. exact Hlt.
Qed.

Lemma updateLoop_cycles_witness :
  dataIndex (run [0%Q; 0%Q; 0%Q] sample_app) = dataIndex sample_app.
Proof.
  apply (updateLoop_cycles [0%Q; 0%Q; 0%Q] sample_app).
  - reflexivity.
  - vm_compute. lia.
  - reflexivity.
Defined.

Lemma reconstructionError_cases rnd cur :
  let vib := num_or (cur !! "Vibration_mm_s") 0 in
  let temp := num_or (cur !! "Bearing_Temperature_C") 0 in
  (reconstructionError rnd cur
   == (5 # 100) + rnd * (2 # 100)
      + (if Qgtb vib 4 then 2 # 10 else 0)
      + (if Qgtb temp 75 then 3 # 10 else 0))%Q.
Proof.
  unfold reconstructionError. cbv zeta.
  destruct (Qgtb _ 4), (Qgtb _ 75); ring.
Qed.

(** X3: with the threshold the page ships with and any draw in [0, 1),
    the simulated error lies in [0.05, 0.57) and the verdict follows the
    reading's vibration and bearing temperature (a missing field counts as
    0): both above their limits (4.0 and 75) is always CRITICAL; vibration
    alone is always WARNING; temperature alone is never NORMAL; and a
    reading within both limits is never CRITICAL. *)
Theorem classification_bands (rnd : Q) (cur : reading) :
  (0 <= rnd)%Q -> (rnd < 1)%Q ->
  ((5 # 100 <= reconstructionError rnd cur)%Q
   /\ (reconstructionError rnd cur < 57 # 100)%Q)
  /\ ((4 < num_or (cur !! "Vibration_mm_s") 0)%Q ->
      (75 < num_or (cur !! "Bearing_Temperature_C") 0)%Q ->
      classify (reconstructionError rnd cur) (mlThreshold initial_APP_STATE)
        = "CRITICAL")
  /\ ((4 < num_or (cur !! "Vibration_mm_s") 0)%Q ->
      (num_or (cur !! "Bearing_Temperature_C") 0 <= 75)%Q ->
      classify (reconstructionError rnd cur) (mlThreshold initial_APP_STATE)
        = "WARNING")
  /\ ((num_or (cur !! "Vibration_mm_s") 0 <= 4)%Q ->
      (75 < num_or (cur !! "Bearing_Temperature_C") 0)%Q ->
      classify (reconstructionError rnd cur) (mlThreshold initial_APP_STATE)
        <> "NORMAL")
  /\ ((num_or (cur !! "Vibration_mm_s") 0 <= 4)%Q ->
      (num_or (cur !! "Bearing_Temperature_C") 0 <= 75)%Q ->
      classify (reconstructionError rnd cur) (mlThreshold initial_APP_STATE)
        <> "CRITICAL").
Proof.
  intros H0 H1.
  pose proof (reconstructionError_cases rnd cur) as He. cbv zeta in He.
  set (e := reconstructionError rnd cur) in *.
  set (vib := num_or (cur !! "Vibration_mm_s") 0) in *.
  set (temp := num_or (cur !! "Bearing_Temperature_C") 0) in *.
  cbn [mlThreshold initial_APP_STATE]. unfold classify.
  destruct (Qgtb vib 4) eqn:Ev; [apply Qgtb_lt in Ev | apply Qgtb_le in Ev];
  destruct (Qgtb temp 75) eqn:Et; [apply Qgtb_lt in Et | apply Qgtb_le in Et
                                  | apply Qgtb_lt in Et | apply Qgtb_le in Et];
  (split; [split; lra|]);
  destruct (Qgtb e _) eqn:Ec; [apply Qgtb_lt in Ec | apply Qgtb_le in Ec
                              | apply Qgtb_lt in Ec | apply Qgtb_le in Ec
                              | apply Qgtb_lt in Ec | apply Qgtb_le in Ec
                              | apply Qgtb_lt in Ec | apply Qgtb_le in Ec];
  try (destruct (Qgtb e _) eqn:Ew;
       [apply Qgtb_lt in Ew | apply Qgtb_le in Ew]);
  repeat split; intros; try reflexivity; try discriminate; exfalso; lra.
Qed.

Lemma classification_bands_witness :
  (5 # 100 <= reconstructionError (1 # 2) hot_reading)%Q
  /\ (reconstructionError (1 # 2) hot_reading < 57 # 100)%Q.
Proof.
  apply (classification_bands (1 # 2) hot_reading); vm_compute;
    (reflexivity || discriminate).
Defined.

End SimLoopMore.

(** ** The engineer table and the cost list, continued *)

Section SimViewsMore.

Import Sim.

Lemma insert_desc_sorted {A} (f : A -> nat) x l :
  StronglySorted (fun a b => f b <= f a) l ->
  StronglySorted (fun a b => f b <= f a) (insert_desc f x l).
Proof.
  induction 1 as [|y l Hs IH Hy]; simpl.
  - repeat constructor.
  - destruct (f x <? f y) eqn:E;
      [apply Nat.ltb_lt in E | apply Nat.ltb_ge in E].
    + constructor; [exact IH|].
      rewrite insert_desc_perm. constructor; [lia | exact Hy].
    + constructor; [constructor; assumption|].
      constructor; [exact E|].
      eapply Forall_impl; [exact Hy|]. simpl. intros; lia.
Qed.

Lemma sort_desc_sorted {A} (f : A -> nat) l :
  StronglySorted (fun a b => f b <= f a) (sort_desc f l).
Proof.
  unfold sort_desc. induction l as [|x l IH]; simpl.
  - constructor.
  - apply insert_desc_sorted, IH.
Qed.

Lemma filter_length_perm {A} (P : A -> Prop) `{forall x, Decision (P x)}
    (l l' : list A) :
  l ≡ₚ l' -> length (filter P l) = length (filter P l').
Proof. intros Hp. rewrite Hp. reflexivity. Qed.

Lemma critical_rows_count data cs :
  length (filter (fun r => status r = "CRITICAL") (make_row data <$> cs))
  = length (filter (fun e : string * nat => 200 < e.2) cs).
Proof.
  induction cs as [|[k c] cs IH]; [reflexivity|].
  rewrite fmap_cons, !filter_cons. cbn [snd].
  destruct (make_row_labels data k c) as (_ & _ & H2 & _).
  destruct (decide (status (make_row data (k, c)) = "CRITICAL")) as [Hs|Hs],
           (decide (200 < c)) as [Hc|Hc]; simpl; try (rewrite IH; reflexivity).
  - apply H2 in Hs. lia.
  - apply H2 in Hc. congruence.
Qed.

Lemma engineer_table_critical_count ml data :
  (updateEngineerTable ml data).2
  = length (filter (fun e : string * nat => 200 < e.2)
              (sensorAnomalyCounts ml)).
Proof.
  unfold updateEngineerTable. cbn [snd].
  rewrite (filter_length_perm _ _ _ (sort_desc_perm _ _)).
  apply critical_rows_count.
Qed.

(** X4: the engineer table has exactly one row per sensor of the stored
    counts, listed in non-increasing order of anomaly count, and the number
    it reports as critical is the number of sensors whose count exceeds
    200. *)
Theorem engineer_table_sorted (ml : ML_STATE) (data : option reading) :
  (updateEngineerTable ml data).1 ≡ₚ make_row data <$> sensorAnomalyCounts ml
  /\ StronglySorted (fun a b => anomalyCount b <= anomalyCount a)
       (updateEngineerTable ml data).1
  /\ (updateEngineerTable ml data).2
     = length (filter (fun e : string * nat => 200 < e.2)
                 (sensorAnomalyCounts ml)).
Proof.
  split; [apply sort_desc_perm|]. split; [apply sort_desc_sorted|].
  apply engineer_table_critical_count.
Qed.

Lemma max_list_gt (l : list nat) n :
  n < max_list l <-> Exists (fun c => n < c) l.
Proof.
  induction l as [|c l IH]; simpl.
  - split; [lia | intros H; inversion H].
  - rewrite Exists_cons, <- IH. lia.
Qed.

Lemma filter_nonempty_Exists {A} (P : A -> Prop) `{forall x, Decision (P x)}
    (l : list A) :
  0 < length (filter P l) <-> Exists P l.
Proof.
  induction l as [|x l IH]; simpl.
  - split; [lia | intros E; inversion E].
  - rewrite filter_cons, Exists_cons.
    destruct (decide (P x)); simpl; [split; [auto | lia]|].
    rewrite IH. tauto.
Qed.

Lemma loadMLInferenceResults_risk ml :
  riskLevel (loadMLInferenceResults ml)
  = (risk_of (max_list (sensorAnomalyCounts ml).*2)).1.
Proof.
  unfold loadMLInferenceResults. rewrite totals_spec.
  destruct (risk_of _). reflexivity.
Qed.

(** X5: the engineer view raises its risk banner (some sensor reported as
    critical) exactly when [loadMLInferenceResults] rates the system
    CRITICAL on the same counts. *)
Theorem critical_banner_iff_critical_risk
    (ml : ML_STATE) (data : option reading) :
  0 < (updateEngineerTable ml data).2
  <-> riskLevel (loadMLInferenceResults ml) = "CRITICAL".
Proof.
  rewrite engineer_table_critical_count, filter_nonempty_Exists.
  assert (Hex : Exists (fun e : string * nat => 200 < e.2) (sensorAnomalyCounts ml)
                <-> 200 < max_list (sensorAnomalyCounts ml).*2).
  { rewrite max_list_gt, Exists_fmap. reflexivity. }
  rewrite Hex, loadMLInferenceResults_risk. unfold risk_of.
  destruct (200 <? _) eqn:H2; [apply Nat.ltb_lt in H2 | apply Nat.ltb_ge in H2].
  - tauto.
  - split; [lia|].
    destruct (100 <? _); [discriminate|].
    destruct (50 <? _); discriminate.
Qed.

Lemma sum_list_elem_le (l : list nat) c : c ∈ l -> c <= sum_list l.
Proof.
  induction 1 as [c l|c d l _ IH]; simpl; lia.
Qed.

Lemma cost_of_mono total a b :
  0 < total -> a <= b -> (cost_of total a <= cost_of total b)%Q.
Proof.
  intros Hpos Hab. unfold cost_of, TOTAL_BUDGET_RISK.
  assert (Ht : (0 < inject_Z (Z.of_nat total))%Q).
  { change 0%Q with (inject_Z 0). rewrite <- Zlt_Qlt. lia. }
  assert (Hq : (inject_Z (Z.of_nat a) <= inject_Z (Z.of_nat b))%Q).
  { rewrite <- Zle_Qle. lia. }
  apply Qmult_le_compat_r; [|discriminate].
  apply Qmult_le_compat_r; [exact Hq|].
  apply Qlt_le_weak, Qinv_lt_0_compat, Ht.
Qed.

Lemma omap_attribute_sorted total cs :
  0 < total ->
  StronglySorted (fun a b : string * nat => b.2 <= a.2) cs ->
  StronglySorted (fun a b : string * Q => (b.2 <= a.2)%Q)
    (omap (attribute total) cs).
Proof.
  intros Hpos. induction 1 as [|[k c] cs Hs IH Hc]; simpl; [constructor|].
  destruct (0 <? c); simpl; [|exact IH].
  constructor; [exact IH|].
  apply Forall_forall. intros [k' q'] Hin.
  apply list_elem_of_omap in Hin as ([k2 c2] & Hin & Heq).
  unfold attribute in Heq. destruct (0 <? c2); [|discriminate].
  inversion Heq; subst. simpl.
  rewrite Forall_forall in Hc. specialize (Hc _ Hin). simpl in Hc.
  apply cost_of_mono; assumption.
Qed.

(** X6: with a positive total, the financial attribution list is in
    non-increasing order of cost and every listed cost is positive; when
    the total is the sum of the counts, no sensor is charged more than the
    budget of 450000. *)
Theorem cost_list_sorted_and_bounded (ml : ML_STATE) :
  0 < totalAnomalies ml ->
  StronglySorted (fun a b : string * Q => (b.2 <= a.2)%Q)
    (updateManagementView ml)
  /\ (forall (k : string) (q : Q),
        (k, q) ∈ updateManagementView ml ->
        (0 < q)%Q
        /\ (totalAnomalies ml = sum_list (sensorAnomalyCounts ml).*2 ->
            (q <= 450000)%Q)).
Proof.
  intros Hpos. rewrite updateManagementView_unfold.
  assert (Ht : nat_or (Some (totalAnomalies ml)) 1 = totalAnomalies ml).
  { unfold nat_or. destruct (totalAnomalies ml); [lia | reflexivity]. }
  rewrite Ht. split.
  - apply omap_attribute_sorted; [exact Hpos | apply sort_desc_sorted].
  - intros k q Hin.
    apply list_elem_of_omap in Hin as ([k2 c] & Hin & Heq).
    rewrite sort_desc_perm in Hin.
    unfold attribute in Heq.
    destruct (0 <? c) eqn:E; [apply Nat.ltb_lt in E | discriminate].
    inversion Heq; subst k2 q. clear Heq.
    assert (Hq : (0 < inject_Z (Z.of_nat (totalAnomalies ml)))%Q).
    { change 0%Q with (inject_Z 0). rewrite <- Zlt_Qlt. lia. }
    split.
    + unfold cost_of, TOTAL_BUDGET_RISK.
      apply Qmult_lt_0_compat; [|reflexivity].
      apply Qmult_lt_0_compat; [|apply Qinv_lt_0_compat, Hq].
      change 0%Q with (inject_Z 0). rewrite <- Zlt_Qlt. lia.
    + intros Hsum.
      assert (Hle : c <= totalAnomalies ml).
      { rewrite Hsum. apply sum_list_elem_le.
        apply list_elem_of_fmap. exists (k, c). split; [reflexivity | exact Hin]. }
      eapply Qle_trans; [apply (cost_of_mono _ c (totalAnomalies ml)); lia|].
      unfold cost_of, TOTAL_BUDGET_RISK.
      assert (Hone : (inject_Z (Z.of_nat (totalAnomalies ml))
                      / inject_Z (Z.of_nat (totalAnomalies ml)) == 1)%Q).
      { field. intros Hz. rewrite Hz in Hq. discriminate. }
      rewrite Hone. discriminate.
Qed.

Lemma cost_list_sorted_and_bounded_witness :
  StronglySorted (fun a b : string * Q => (b.2 <= a.2)%Q)
    (updateManagementView (loadMLInferenceResults initial_ML_STATE)).
Proof.
  apply (cost_list_sorted_and_bounded
           (loadMLInferenceResults initial_ML_STATE)).
  vm_compute. lia.
Defined.

End SimViewsMore.

(** ** The live-streaming client, continued *)

Section LiveMore.

Import Live.
Import LiveExtra.

Lemma Qofnat_nonneg n : (0 <= Qofnat n)%Q.
Proof.
  unfold Qofnat. change 0%Q with (inject_Z 0). rewrite <- Zle_Qle. lia.
Qed.

Lemma Qofnat_le n k : (Qofnat n <= inject_Z k)%Q <-> (Z.of_nat n <= k)%Z.
Proof. unfold Qofnat. rewrite <- Zle_Qle. reflexivity. Qed.

Lemma Qofnat_lt k n : (inject_Z k < Qofnat n)%Q <-> (k < Z.of_nat n)%Z.
Proof. unfold Qofnat. rewrite <- Zlt_Qlt. reflexivity. Qed.

Lemma Qdiv_mult_cancel (u c : Q) : ~ (c == 0)%Q -> (u / c * c == u)%Q.
Proof. intros Hc. field. exact Hc. Qed.

Lemma foldl_total (cs : counts) t :
  foldl (fun (t : nat) (e : string * nat) => t + e.2) t cs
  = t + sum_list cs.*2.
Proof.
  revert t. induction cs as [|[k c] cs IH]; intros t; simpl; [lia|].
  rewrite IH. change (list_fmap (string * nat)%type nat snd cs) with (cs.*2).
  lia.
Qed.

Lemma updateMLStats_total d m :
  totalAnomalies (updateMLStats d m)
  = match sensor_anomaly_counts d with
    | Some cs => sum_list cs.*2
    | None => totalAnomalies m
    end.
Proof.
  unfold updateMLStats. cbn [totalAnomalies].
  destruct (sensor_anomaly_counts d); [apply foldl_total | reflexivity].
Qed.

Lemma updateMLStats_health d m :
  healthScore (updateMLStats d m)
  = let h := (100 - Qofnat (totalAnomalies (updateMLStats d m)) / 10)%Q in
    if Qgtb 0 h then 0%Q else h.
Proof. reflexivity. Qed.

Lemma updateMLStats_fallback d m :
  financial d = None ->
  let t := Qofnat (totalAnomalies (updateMLStats d m)) in
  let p := if Qgtb (t / 150) 1 then 1%Q else (t / 150)%Q in
  moneyAtRisk (updateMLStats d m) = (t * 450)%Q
  /\ failureProbability (updateMLStats d m) = p
  /\ maintenanceCost (updateMLStats d m) = 25000%Q
  /\ decision (updateMLStats d m)
     = if Qgtb p (6 # 10) then "APPROVE_MAINTENANCE" else "MONITORING".
Proof.
  intros Hf. unfold updateMLStats. rewrite Hf. cbn. auto.
Qed.

(** X7: after [updateMLStats] the health score lies between 0 and 100 and
    is 0 exactly from 1000 anomalies on; when the answer carries counts the
    total is their sum, otherwise the previous total is kept; and when the
    answer carries no financial figures the client's own estimate applies:
    450 per anomaly at risk, a failure probability between 0 and 1, a fixed
    repair cost of 25000, and the decision APPROVE_MAINTENANCE exactly when
    the total exceeds 90 anomalies. *)
Theorem updateMLStats_derived (d : response) (m : ML_STATE) :
  ((0 <= healthScore (updateMLStats d m))%Q
   /\ (healthScore (updateMLStats d m) <= 100)%Q
   /\ ((healthScore (updateMLStats d m) == 0)%Q
       <-> 1000 <= totalAnomalies (updateMLStats d m)))
  /\ (forall cs : counts,
        sensor_anomaly_counts d = Some cs ->
        totalAnomalies (updateMLStats d m) = sum_list cs.*2)
  /\ (sensor_anomaly_counts d = None ->
      totalAnomalies (updateMLStats d m) = totalAnomalies m
      /\ sensorAnomalyCounts (updateMLStats d m) = sensorAnomalyCounts m)
  /\ (financial d = None ->
      (moneyAtRisk (updateMLStats d m)
         == 450 * Qofnat (totalAnomalies (updateMLStats d m)))%Q
      /\ (0 <= failureProbability (updateMLStats d m))%Q
      /\ (failureProbability (updateMLStats d m) <= 1)%Q
      /\ (maintenanceCost (updateMLStats d m) == 25000)%Q
      /\ (decision (updateMLStats d m) = "APPROVE_MAINTENANCE"
          <-> 90 < totalAnomalies (updateMLStats d m))).
Proof.
  split; [|split; [|split]].
  - rewrite updateMLStats_health. cbv zeta.
    set (t := totalAnomalies (updateMLStats d m)).
    pose proof (Qofnat_nonneg t) as Ht.
    assert (Hx : (Qofnat t / 10 * 10 == Qofnat t)%Q)
      by (apply Qdiv_mult_cancel; discriminate).
    set (x := (Qofnat t / 10)%Q) in *.
    destruct (Qgtb 0 _) eqn:E; [apply Qgtb_lt in E | apply Qgtb_le in E].
    + split; [lra|]. split; [lra|]. split; [intros _|reflexivity].
      assert (Hz : (inject_Z 1000 < Qofnat t)%Q) by (change (inject_Z 1000) with 1000%Q; lra).
      apply Qofnat_lt in Hz. lia.
    + split; [exact E|]. split; [lra|]. split.
      * intros Hz.
        assert (Hq : (inject_Z 1000 <= Qofnat t)%Q)
          by (change (inject_Z 1000) with 1000%Q; lra).
        unfold Qofnat in Hq. rewrite <- Zle_Qle in Hq. lia.
      * intros Hge.
        assert (Hq : (inject_Z 1000 <= Qofnat t)%Q)
          by (unfold Qofnat; rewrite <- Zle_Qle; lia).
        change (inject_Z 1000) with 1000%Q in Hq. lra.
  - intros cs Hcs. rewrite updateMLStats_total, Hcs. reflexivity.
  - intros Hn. rewrite updateMLStats_total, Hn. split; [reflexivity|].
    unfold updateMLStats. rewrite Hn. reflexivity.
  - intros Hf.
    destruct (updateMLStats_fallback d m Hf) as (Hm & Hp & Hc & Hd).
    cbv zeta in *.
    set (t := totalAnomalies (updateMLStats d m)) in *.
    pose proof (Qofnat_nonneg t) as Ht.
    rewrite Hm, Hp, Hc, Hd.
    split; [ring|].
    assert (Hx : (Qofnat t / 150 * 150 == Qofnat t)%Q)
      by (apply Qdiv_mult_cancel; discriminate).
    set (x := (Qofnat t / 150)%Q) in *.
    destruct (Qgtb x 1) eqn:E;
      [apply Qgtb_lt in E | apply Qgtb_le in E].
    + split; [discriminate|]. split; [apply Qle_refl|]. split; [reflexivity|].
      split; [intros _|reflexivity].
      assert (Hz : (inject_Z 150 < Qofnat t)%Q)
        by (change (inject_Z 150) with 150%Q; lra).
      apply Qofnat_lt in Hz. lia.
    + split; [lra|]. split; [exact E|]. split; [reflexivity|].
      destruct (Qgtb x (6 # 10)) eqn:E2;
        [apply Qgtb_lt in E2 | apply Qgtb_le in E2].
      * split; [intros _|reflexivity].
        assert (Hz : (inject_Z 90 < Qofnat t)%Q)
          by (change (inject_Z 90) with 90%Q; lra).
        apply Qofnat_lt in Hz. lia.
      * split; [discriminate|]. intros Hgt. exfalso.
        assert (Hz : (inject_Z 90 < Qofnat t)%Q)
          by (apply Qofnat_lt; lia).
        change (inject_Z 90) with 90%Q in Hz. lra.
Qed.

(** X8: after [updateMLStats] on an answer without financial figures,
    rendering a view never changes the global ML state: the management
    view's own estimate of 5500 per anomaly can only apply when the backend
    itself reports a money-at-risk of zero. *)
Theorem management_fallback_unreachable
    (d : response) (m : ML_STATE) (role : string) :
  financial d = None ->
  view_effect role (updateMLStats d m) = updateMLStats d m.
Proof.
  intros Hf.
  destruct (updateMLStats_fallback d m Hf) as (Hm & _). cbv zeta in Hm.
  set (m' := updateMLStats d m) in *. unfold view_effect. rewrite Hm.
  destruct (bool_decide (role = "management")); [|reflexivity].
  rewrite andb_true_l.
  destruct (totalAnomalies m') as [|t] eqn:Et.
  - rewrite andb_false_r. reflexivity.
  - replace (Qeq_bool (Qofnat (S t) * 450) 0) with false; [reflexivity|].
    symmetry. apply not_true_is_false. intros Hq. apply Qeq_bool_iff in Hq.
    assert (Hz : (inject_Z 0 < Qofnat (S t))%Q) by (apply Qofnat_lt; lia).
    change (inject_Z 0) with 0%Q in Hz. lra.
Qed.

Lemma management_fallback_unreachable_witness :
  view_effect "management" (updateMLStats completed_response initial_ML_STATE)
  = updateMLStats completed_response initial_ML_STATE.
Proof.
  apply (management_fallback_unreachable completed_response initial_ML_STATE
           "management").
  reflexivity.
Defined.

Lemma push_bounded_length d l :
  length l <= 100 -> length (push_bounded d l) <= 100.
Proof.
  intros Hle. unfold push_bounded. rewrite length_app. simpl.
  destruct (100 <? length l + 1) eqn:E.
  - rewrite length_drop, length_app. simpl. lia.
  - apply Nat.ltb_ge in E. rewrite length_app. simpl. lia.
Qed.

Lemma push_bounded_last d l :
  length l <= 100 -> last (push_bounded d l) = Some d.
Proof.
  intros Hle. unfold push_bounded. rewrite length_app. simpl.
  destruct (100 <? length l + 1) eqn:E.
  - destruct l as [|x l]; [simpl in E; discriminate|].
    simpl. rewrite drop_0. apply last_snoc.
  - apply last_snoc.
Qed.

Lemma on_error_data w : data (app (on_error w)) = data (app w).
Proof. reflexivity. Qed.

Lemma render_app w : app (render w) = app w.
Proof. reflexivity. Qed.

Lemma fetchLiveStep_data o w :
  data (app (fetchLiveStep o w))
  = match live_data o with
    | HttpOk d =>
        if bool_decide (status d = "COMPLETED") then data (app w)
        else push_bounded (display_of d) (data (app w))
    | _ => data (app w)
    end.
Proof.
  unfold fetchLiveStep.
  destruct (live_data o) as [| |d]; [reflexivity ..|].
  destruct (bool_decide (status d = "COMPLETED")).
  - destruct (view_throws o); reflexivity.
  - destruct (system_health o), (view_throws o); reflexivity.
Qed.

Lemma tick_data_bounded o w :
  length (data (app w)) <= 100 -> length (data (app (tick o w))) <= 100.
Proof.
  intros Hle. unfold tick.
  destruct (streamInterval (app w)); [|exact Hle].
  destruct (bool_decide _); [|exact Hle].
  rewrite fetchLiveStep_data.
  destruct (live_data o) as [| |d]; try exact Hle.
  destruct (bool_decide _); [exact Hle|].
  apply push_bounded_length, Hle.
Qed.

(** X9: the chart history of the live client never holds more than 100
    entries, however many polls run; a poll that answers with a status
    other than COMPLETED puts its reading last in the history even when the
    rest of the step fails, and a failed poll or a COMPLETED answer leaves
    the history as it is. *)
Theorem history_bounded (os : list outcome) (w : page) :
  length (data (app w)) <= 100 ->
  length (data (app (ticks os w))) <= 100
  /\ (forall (o : outcome) (d : response),
        live_data o = HttpOk d -> status d <> "COMPLETED" ->
        last (data (app (fetchLiveStep o w))) = Some (display_of d)
        /\ length (data (app (fetchLiveStep o w)))
           = S (length (data (app w))) `min` 100)
  /\ (forall o : outcome,
        poll_failed o = true ->
        data (app (fetchLiveStep o w)) = data (app w)).
Proof.
  intros Hle. split; [|split].
  - unfold ticks. revert w Hle.
    induction os as [|o os IH]; intros w Hle; simpl; [exact Hle|].
    apply IH, tick_data_bounded, Hle.
  - intros o d Hd Hs. rewrite fetchLiveStep_data, Hd.
    rewrite bool_decide_eq_false_2 by exact Hs.
    split; [apply push_bounded_last, Hle|].
    unfold push_bounded. rewrite length_app. simpl.
    destruct (100 <? length (data (app w)) + 1) eqn:E;
      [apply Nat.ltb_lt in E | apply Nat.ltb_ge in E].
    + rewrite length_drop, length_app. simpl. lia.
    + rewrite length_app. simpl. lia.
  - intros o Hf. rewrite fetchLiveStep_data. unfold poll_failed in Hf.
    destruct (live_data o); [reflexivity | reflexivity | discriminate].
Qed.

Lemma history_bounded_witness :
  length (data (app (ticks [quiet_outcome completed_response; failed_outcome]
                       streaming_page))) <= 100.
Proof.
  apply (history_bounded [quiet_outcome completed_response; failed_outcome]
           streaming_page).
  vm_compute. lia.
Defined.






End LiveMore.

(** ** The plant-head page of the simulation client *)

Section SimPlantHead.

Import Sim.
Import SimExtra.

Lemma insert_asc_perm {A} (f : A -> nat) x l : insert_asc f x l ≡ₚ x :: l.
Proof.
  induction l as [|y l IH]; simpl; [reflexivity|].
  destruct (f y <? f x); [|reflexivity].
  rewrite IH. apply Permutation_swap.
Qed.

Lemma sort_asc_perm {A} (f : A -> nat) l : sort_asc f l ≡ₚ l.
Proof.
  unfold sort_asc. induction l as [|x l IH]; simpl; [reflexivity|].
  rewrite insert_asc_perm, IH. reflexivity.
Qed.

Lemma insert_asc_sorted {A} (f : A -> nat) x l :
  StronglySorted (fun a b => f a <= f b) l ->
  StronglySorted (fun a b => f a <= f b) (insert_asc f x l).
Proof.
  induction 1 as [|y l Hs IH Hy]; simpl.
  - repeat constructor.
  - destruct (f y <? f x) eqn:E;
      [apply Nat.ltb_lt in E | apply Nat.ltb_ge in E].
    + constructor; [exact IH|].
      rewrite insert_asc_perm. constructor; [lia | exact Hy].
    + constructor; [constructor; assumption|].
      constructor; [exact E|].
      eapply Forall_impl; [exact Hy|]. simpl. intros; lia.
Qed.

Lemma sort_asc_sorted {A} (f : A -> nat) l :
  StronglySorted (fun a b => f a <= f b) (sort_asc f l).
Proof.
  unfold sort_asc. induction l as [|x l IH]; simpl.
  - constructor.
  - apply insert_asc_sorted, IH.
Qed.

Lemma rul_item_of_cases cs key :
  let c := count_or_zero cs key in
  let b := rul_item_of cs key in
  item_name b = assoc key displayNames
  /\ (200 < c /\ item_value b = 20 /\ item_color b = "red"
      \/ 100 < c <= 200 /\ item_value b = 40 /\ item_color b = "amber"
      \/ 50 < c <= 100 /\ item_value b = 60 /\ item_color b = "amber"
      \/ c <= 50 /\ item_value b = 85 /\ item_color b = "green").
Proof.
  cbv zeta. unfold rul_item_of.
  destruct (200 <? _) eqn:E1; [apply Nat.ltb_lt in E1 | apply Nat.ltb_ge in E1];
    [simpl; split; [reflexivity|left; auto]|].
  destruct (100 <? _) eqn:E2; [apply Nat.ltb_lt in E2 | apply Nat.ltb_ge in E2];
    [simpl; split; [reflexivity|right; left; auto]|].
  destruct (50 <? _) eqn:E3; [apply Nat.ltb_lt in E3 | apply Nat.ltb_ge in E3];
    simpl; (split; [reflexivity|]); [right; right; left|right; right; right]; auto.
Qed.


Lemma assoc_Some_elem {V} k (cs : list (string * V)) c :
  assoc k cs = Some c -> (k, c) ∈ cs.
Proof.
  induction cs as [|[k' c'] cs IH]; simpl; [discriminate|].
  destruct (String.eqb k k') eqn:E.
  - apply String.eqb_eq in E. intros [= ->]. subst. left.
  - intros H. right. apply IH, H.
Qed.

Lemma assoc_NoDup {V} k (cs : list (string * V)) c :
  NoDup cs.*1 -> (k, c) ∈ cs -> assoc k cs = Some c.
Proof.
  induction cs as [|[k' c'] cs IH]; simpl; intros Hnd Hin.
  - inversion Hin.
  - apply NoDup_cons in Hnd as [Hk Hnd].
    apply elem_of_cons in Hin as [[= -> ->]|Hin].
    + rewrite String.eqb_refl. reflexivity.
    + destruct (String.eqb k k') eqn:E; [|apply IH; assumption].
      apply String.eqb_eq in E. subst k'. exfalso. apply Hk.
      apply list_elem_of_fmap. exists (k, c). split; [reflexivity | exact Hin].
Qed.

Lemma count_or_zero_le cs key : count_or_zero cs key <= max_list cs.*2.
Proof.
  unfold count_or_zero, nat_or.
  destruct (assoc key cs) as [[|c]|] eqn:E; try lia.
  apply assoc_Some_elem in E. apply max_list_elem_of_le.
  apply list_elem_of_fmap. exists (key, S c). split; [reflexivity | exact E].
Qed.

Lemma count_or_zero_max cs :
  NoDup cs.*1 -> Forall (fun k => k ∈ SENSOR_ORDER) cs.*1 ->
  exists key, key ∈ SENSOR_ORDER /\ count_or_zero cs key = max_list cs.*2.
Proof.
  intros Hnd Hks.
  destruct cs as [|e cs'] eqn:Ecs.
  - exists "Vibration_mm_s". split; [left | reflexivity].
  - rewrite <- Ecs in *.
    assert (Hne : cs.*2 <> []) by (rewrite Ecs; discriminate).
    apply max_list_elem_of in Hne.
    apply list_elem_of_fmap in Hne as ([k c] & Hc & Hin). simpl in Hc.
    exists k. split.
    + rewrite Forall_forall in Hks. apply Hks.
      apply list_elem_of_fmap. exists (k, c). split; [reflexivity | exact Hin].
    + unfold count_or_zero. rewrite (assoc_NoDup k cs c Hnd Hin).
      rewrite Hc. unfold nat_or. destruct c; reflexivity.
Qed.

Lemma rul_item_of_anti cs k1 k2 :
  count_or_zero cs k1 <= count_or_zero cs k2 ->
  item_value (rul_item_of cs k2) <= item_value (rul_item_of cs k1).
Proof.
  intros Hle.
  destruct (rul_item_of_cases cs k1) as (_ & H1).
  destruct (rul_item_of_cases cs k2) as (_ & H2). cbv zeta in *.
  lia.
Qed.

(** X11: on the plant-head page of the simulation client the remaining
    useful life bars are one per sensor of [SENSOR_ORDER], listed worst
    first (ascending value); when the counted sensors are among the ten
    displayed ones (keys distinct, as in any object), the first bar tells
    the risk level computed by [loadMLInferenceResults]: 20% red for
    CRITICAL, 40% amber for UNSTABLE, 60% amber for WATCH, 85% green for
    NORMAL. *)
Theorem rul_bars_worst_first (ml : ML_STATE) :
  NoDup (sensorAnomalyCounts ml).*1 ->
  Forall (fun k => k ∈ SENSOR_ORDER) (sensorAnomalyCounts ml).*1 ->
  StronglySorted (fun a b => item_value a <= item_value b)
    (rul_bars (updatePlantHeadView (loadMLInferenceResults ml)))
  /\ rul_bars (updatePlantHeadView (loadMLInferenceResults ml))
       ≡ₚ rul_item_of (sensorAnomalyCounts ml) <$> SENSOR_ORDER
  /\ exists (b : rul_item) (rest : list rul_item),
       rul_bars (updatePlantHeadView (loadMLInferenceResults ml)) = b :: rest
       /\ (item_value b, item_color b,
           Sim.riskLevel (loadMLInferenceResults ml))
            ∈ [(20, "red", "CRITICAL"); (40, "amber", "UNSTABLE");
               (60, "amber", "WATCH"); (85, "green", "NORMAL")].
Proof.
  intros Hnd Hks.
  assert (Hbars : rul_bars (updatePlantHeadView (loadMLInferenceResults ml))
                  = generateAndRenderRUL (sensorAnomalyCounts ml)).
  { unfold loadMLInferenceResults. destruct (totals _), (risk_of _). reflexivity. }
  rewrite Hbars, loadMLInferenceResults_risk.
  set (cs := sensorAnomalyCounts ml) in *.
  pose proof (sort_asc_sorted item_value (rul_item_of cs <$> SENSOR_ORDER)) as Hs.
  pose proof (sort_asc_perm item_value (rul_item_of cs <$> SENSOR_ORDER)) as Hp.
  fold (generateAndRenderRUL cs) in Hs, Hp.
  split; [exact Hs|]. split; [exact Hp|].
  destruct (count_or_zero_max cs Hnd Hks) as (kmax & Hkin & Hkmax).
  assert (Hmaxin : rul_item_of cs kmax ∈ generateAndRenderRUL cs).
  { rewrite Hp. apply list_elem_of_fmap. exists kmax. auto. }
  destruct (generateAndRenderRUL cs) as [|b rest] eqn:Eb; [inversion Hmaxin|].
  exists b, rest. split; [reflexivity|].
  assert (Hbin : b ∈ rul_item_of cs <$> SENSOR_ORDER)
    by (rewrite <- Hp; left).
  apply list_elem_of_fmap in Hbin as (kb & -> & _).
  assert (Hval : item_value (rul_item_of cs kb)
                 = item_value (rul_item_of cs kmax)).
  { apply Nat.le_antisymm.
    - apply elem_of_cons in Hmaxin as [<-|Hin]; [lia|].
      apply StronglySorted_inv in Hs as [_ Hall].
      rewrite Forall_forall in Hall. apply Hall, Hin.
    - apply rul_item_of_anti. rewrite Hkmax. apply count_or_zero_le. }
  destruct (rul_item_of_cases cs kb) as (_ & Hb).
  destruct (rul_item_of_cases cs kmax) as (_ & Hm). cbv zeta in Hb, Hm.
  rewrite Hkmax in Hm. rewrite Hval in *. unfold risk_of.
  destruct Hm as [(Hm & Hv)|[(Hm & Hv)|[(Hm & Hv)|(Hm & Hv)]]];
    destruct Hv as (Hv & _); rewrite Hv in *;
    destruct Hb as [(_ & Hw & ->)|[(_ & Hw & ->)|[(_ & Hw & ->)|(_ & Hw & ->)]]];
    try discriminate Hw;
    repeat match goal with
           | |- context [?a <? ?b] =>
               let E := fresh in
               destruct (a <? b) eqn:E;
               [apply Nat.ltb_lt in E | apply Nat.ltb_ge in E]; try lia
           end;
    cbn [fst]; in_list.
Qed.

Lemma rul_bars_worst_first_witness :
  exists (b : rul_item) (rest : list rul_item),
    rul_bars (updatePlantHeadView (loadMLInferenceResults initial_ML_STATE))
    = b :: rest
    /\ (item_value b, item_color b,
        Sim.riskLevel (loadMLInferenceResults initial_ML_STATE))
         ∈ [(20, "red", "CRITICAL"); (40, "amber", "UNSTABLE");
            (60, "amber", "WATCH"); (85, "green", "NORMAL")].
Proof.
  apply (rul_bars_worst_first initial_ML_STATE).
  - refine (bool_decide_unpack _ _). vm_compute. exact I.
  - refine (bool_decide_unpack _ _). vm_compute. exact I.
Defined.

Lemma filter_nil_Forall {A} (P : A -> Prop) `{forall x, Decision (P x)}
    (l : list A) :
  filter P l = [] <-> Forall (fun x => ~ P x) l.
Proof.
  induction l as [|x l IH]; [split; auto|].
  rewrite filter_cons, Forall_cons.
  destruct (decide (P x)); [split; [discriminate | tauto]|].
  rewrite IH. tauto.
Qed.

Lemma max_list_fmap_le {A} (f : A -> nat) (l : list A) m :
  Forall (fun y => f y <= m) l -> max_list (f <$> l) <= m.
Proof.
  induction 1 as [|y l Hd _ IH]; [simpl; lia|].
  rewrite fmap_cons. simpl. lia.
Qed.

Lemma sorted_max_head {A} (f : A -> nat) (x : A) (l : list A) :
  StronglySorted (fun a b => f b <= f a) (x :: l) ->
  max_list (f <$> x :: l) = f x.
Proof.
  intros Hs. apply StronglySorted_inv in Hs as [_ Hall].
  pose proof (max_list_fmap_le f l (f x) Hall).
  rewrite fmap_cons. simpl. lia.
Qed.

Lemma sorted_take_filter_nil (l : counts) n k :
  StronglySorted (fun a b : string * nat => b.2 <= a.2) l -> 0 < n ->
  filter (fun e : string * nat => k < e.2) (firstn n l) = []
  <-> max_list l.*2 <= k.
Proof.
  intros Hs Hn. destruct l as [|x l].
  - destruct n; simpl; split; auto; lia.
  - rewrite (sorted_max_head snd x l Hs).
    apply StronglySorted_inv in Hs as [_ Hall].
    destruct n as [|n]; [lia|]. cbn [firstn].
    rewrite filter_cons.
    destruct (decide (k < x.2)) as [Hk|Hk].
    + split; [discriminate | lia].
    + split; [lia|]. intros _.
      apply filter_nil_Forall, Forall_forall. intros y Hin.
      apply elem_of_take in Hin as (i & Hi & _).
      apply list_elem_of_lookup_2 in Hi.
      rewrite Forall_forall in Hall. specialize (Hall _ Hi). lia.
Qed.

Lemma max_list_perm (l l' : list nat) :
  l ≡ₚ l' -> max_list l = max_list l'.
Proof. induction 1; simpl; lia. Qed.

Lemma max_sort_desc (cs : counts) :
  max_list (sort_desc snd cs).*2 = max_list cs.*2.
Proof. apply max_list_perm, fmap_Permutation, sort_desc_perm. Qed.

Lemma sum_zero_max_zero (l : list nat) : sum_list l = 0 <-> max_list l <= 0.
Proof. induction l as [|c l IH]; simpl; lia. Qed.

Lemma length_filter_impl {A} (P Q : A -> Prop) `{forall x, Decision (P x)}
    `{forall x, Decision (Q x)} (l : list A) :
  (forall x, P x -> Q x) -> length (filter P l) <= length (filter Q l).
Proof.
  intros HPQ. induction l as [|x l IH]; [reflexivity|].
  rewrite !filter_cons.
  destruct (decide (P x)) as [HP|HP], (decide (Q x)) as [HQ|HQ]; simpl;
    try lia.
  exfalso. apply HQ, HPQ, HP.
Qed.

Lemma fmap_nil_eq {A B} (f : A -> B) (l : list A) :
  f <$> l = [] <-> l = [].
Proof. destruct l; split; (reflexivity || discriminate). Qed.

Lemma loadMLInferenceResults_counts ml :
  sensorAnomalyCounts (loadMLInferenceResults ml) = sensorAnomalyCounts ml.
Proof.
  unfold loadMLInferenceResults. destruct (totals _), (risk_of _). reflexivity.
Qed.

Lemma loadMLInferenceResults_total ml :
  totalAnomalies (loadMLInferenceResults ml)
  = sum_list (sensorAnomalyCounts ml).*2.
Proof.
  unfold loadMLInferenceResults. rewrite totals_spec.
  destruct (risk_of _). reflexivity.
Qed.

Lemma risk_of_cases m :
  ((risk_of m).1 = "CRITICAL" <-> 200 < m)
  /\ ((risk_of m).1 = "NORMAL" <-> m <= 50).
Proof.
  unfold risk_of.
  destruct (200 <? m) eqn:E2; [apply Nat.ltb_lt in E2 | apply Nat.ltb_ge in E2];
    [cbn; split; split; intros; try discriminate; try reflexivity; lia|].
  destruct (100 <? m) eqn:E1; [apply Nat.ltb_lt in E1 | apply Nat.ltb_ge in E1];
    [cbn; split; split; intros; try discriminate; try reflexivity; lia|].
  destruct (50 <? m) eqn:E0; [apply Nat.ltb_lt in E0 | apply Nat.ltb_ge in E0];
    cbn; split; split; intros; try discriminate; try reflexivity; lia.
Qed.

(** X12: after [loadMLInferenceResults], the plant-head page shows "No
    Significant Risks" (no risk driver) exactly when the risk level is
    NORMAL, lists a "High Impact" driver exactly when the operational risk
    reads "High", shows "No Significant Faults" exactly when there is no
    anomaly at all, and never lists more drivers than top faults, nor more
    than three of either. *)
Theorem plant_head_follows_risk (ml : ML_STATE) :
  (risk_drivers (updatePlantHeadView (loadMLInferenceResults ml)) = []
   <-> Sim.riskLevel (loadMLInferenceResults ml) = "NORMAL")
  /\ ((exists (name : string) (c : nat),
         (name, "High Impact", c)
           ∈ risk_drivers (updatePlantHeadView (loadMLInferenceResults ml)))
      <-> risk_text (updatePlantHeadView (loadMLInferenceResults ml)) = "High")
  /\ (top_faults (updatePlantHeadView (loadMLInferenceResults ml)) = []
      <-> totalAnomalies (loadMLInferenceResults ml) = 0)
  /\ length (risk_drivers (updatePlantHeadView (loadMLInferenceResults ml)))
     <= length (top_faults (updatePlantHeadView (loadMLInferenceResults ml)))
     <= 3.
Proof.
  unfold updatePlantHeadView.
  cbn [risk_drivers risk_text top_faults].
  rewrite loadMLInferenceResults_counts, loadMLInferenceResults_total,
    loadMLInferenceResults_risk.
  set (cs := sensorAnomalyCounts ml).
  pose proof (sort_desc_sorted snd cs) as Hs.
  pose proof (max_sort_desc cs) as Hmax.
  destruct (risk_of_cases (max_list cs.*2)) as (Hcrit & Hnorm).
  set (sorted := sort_desc snd cs) in *.
  split; [|split; [|split]].
  - rewrite fmap_nil_eq.
    rewrite (sorted_take_filter_nil sorted 3 50 Hs) by lia.
    rewrite Hmax, Hnorm. reflexivity.
  - assert (Htext : (if bool_decide ((risk_of (max_list cs.*2)).1 = "CRITICAL")
                     then "High"
                     else if bool_decide ((risk_of (max_list cs.*2)).1 = "UNSTABLE")
                          then "Medium" else "Low") = "High"
                    <-> 200 < max_list cs.*2).
    { rewrite <- Hcrit. case_bool_decide; [tauto|].
      case_bool_decide; split; (discriminate || tauto). }
    rewrite Htext. clear Htext. split.
    + intros (name & c & Hin).
      apply list_elem_of_fmap in Hin as ([k c'] & Heq & Hin).
      apply list_elem_of_filter in Hin as [_ Hin].
      apply elem_of_take in Hin as (i & Hi & _).
      apply list_elem_of_lookup_2 in Hi.
      cbn [fst snd] in Heq.
      destruct (200 <? c') eqn:E; [apply Nat.ltb_lt in E | discriminate].
      rewrite <- Hmax.
      eapply Nat.lt_le_trans; [exact E|]. apply max_list_elem_of_le.
      apply list_elem_of_fmap. exists (k, c'). split; [reflexivity | exact Hi].
    + intros Hgt. rewrite <- Hmax in Hgt.
      destruct sorted as [|[k c] rest] eqn:Es; [simpl in Hgt; lia|].
      rewrite (sorted_max_head snd (k, c) rest Hs) in Hgt. cbn [snd] in Hgt.
      exists (replace_underscores k), c.
      apply list_elem_of_fmap. exists (k, c). cbn [fst snd]. split.
      * apply Nat.ltb_lt in Hgt. rewrite Hgt. reflexivity.
      * apply list_elem_of_filter. split; [simpl; lia | left].
  - rewrite fmap_nil_eq.
    rewrite (sorted_take_filter_nil sorted 3 0 Hs) by lia.
    rewrite Hmax, sum_zero_max_zero. reflexivity.
  - rewrite !length_fmap. split.
    + apply length_filter_impl. intros x. lia.
    + etransitivity; [apply length_filter|]. apply firstn_le_length.
Qed.

End SimPlantHead.

(** ** The alert panel of the simulation client *)

Section SimAlerts.

Import Sim.
Import SimExtra.

Lemma Qgtb_num_or (x : option Q) (k : Q) :
  (0 <= k)%Q ->
  Qgtb (num_or x 0) k = match x with Some v => Qgtb v k | None => false end.
Proof.
  intros Hk. destruct x as [v|]; simpl.
  - destruct (Qeq_bool v 0) eqn:E; [|reflexivity].
    apply Qeq_bool_iff in E.
    assert (H0 : Qgtb 0 k = false) by (apply Qgtb_le; exact Hk).
    assert (Hv : Qgtb v k = false) by (apply Qgtb_le; rewrite E; exact Hk).
    congruence.
  - apply Qgtb_le. exact Hk.
Qed.

(** X13: for a draw in [0, 1) and the threshold the page ships with, an
    alert card of the engineer panel is only shown for a reading that
    [updateLoop] rates WARNING or CRITICAL, and both cards together mean
    CRITICAL; the converse fails: a bearing temperature above 75 and up to
    80 (vibration within its limit) is rated anomalous while the panel
    says "No active alerts". *)
Theorem alerts_imply_anomalous (rnd : Q) (cur : reading) :
  (0 <= rnd)%Q -> (rnd < 1)%Q ->
  (updateEngineerAlerts cur <> [NoActiveAlerts] ->
   classify (reconstructionError rnd cur) (mlThreshold initial_APP_STATE)
     <> "NORMAL")
  /\ (length (updateEngineerAlerts cur) = 2 ->
      classify (reconstructionError rnd cur) (mlThreshold initial_APP_STATE)
        = "CRITICAL")
  /\ ((num_or (cur !! "Vibration_mm_s") 0 <= 4)%Q ->
      (75 < num_or (cur !! "Bearing_Temperature_C") 0)%Q ->
      (num_or (cur !! "Bearing_Temperature_C") 0 <= 80)%Q ->
      updateEngineerAlerts cur = [NoActiveAlerts]
      /\ classify (reconstructionError rnd cur)
           (mlThreshold initial_APP_STATE) <> "NORMAL").
Proof.
  intros H0 H1.
  pose proof (reconstructionError_cases rnd cur) as He. cbv zeta in He.
  set (e := reconstructionError rnd cur) in *.
  pose proof (Qgtb_num_or (cur !! "Vibration_mm_s") 4 ltac:(discriminate)) as Hv4.
  pose proof (Qgtb_num_or (cur !! "Bearing_Temperature_C") 75 ltac:(discriminate)) as Ht75.
  pose proof (Qgtb_num_or (cur !! "Bearing_Temperature_C") 80 ltac:(discriminate)) as Ht80.
  rewrite <- !Qgtb_le, <- !Qgtb_lt.
  set (vib := num_or (cur !! "Vibration_mm_s") 0) in *.
  set (temp := num_or (cur !! "Bearing_Temperature_C") 0) in *.
  assert (Hmono : Qgtb temp 80 = true -> Qgtb temp 75 = true).
  { rewrite !Qgtb_lt. intros; lra. }
  unfold updateEngineerAlerts.
  cbn [mlThreshold initial_APP_STATE]. unfold classify.
  destruct (cur !! "Vibration_mm_s") as [v|];
    destruct (cur !! "Bearing_Temperature_C") as [t|];
    try rewrite <- Hv4; try rewrite <- Ht80;
    destruct (Qgtb vib 4) eqn:Ev; destruct (Qgtb temp 80) eqn:Et8;
    destruct (Qgtb temp 75) eqn:Et7;
    try (specialize (Hmono eq_refl); discriminate Hmono);
    try discriminate Hv4; try discriminate Ht80; try discriminate Ht75;
    cbn [app length];
    (destruct (Qgtb e _) eqn:Ec;
       [apply Qgtb_lt in Ec | apply Qgtb_le in Ec]);
    try (destruct (Qgtb e _) eqn:Ew;
         [apply Qgtb_lt in Ew | apply Qgtb_le in Ew]);
    repeat split; intros; try reflexivity; try discriminate;
    try congruence; exfalso; lra.
Qed.

Lemma alerts_imply_anomalous_witness :
  classify (reconstructionError (1 # 2) hot_reading)
    (mlThreshold initial_APP_STATE) = "CRITICAL".
Proof.
  apply (alerts_imply_anomalous (1 # 2) hot_reading); vm_compute;
    (reflexivity || discriminate).
Defined.

End SimAlerts.

(** ** The chat assistant of the simulation client *)

Section SimChat.

Import Sim.
Import SimExtra.

Lemma detectIntent_range (q : string) :
  detectIntent q = "CREATE_ALERT" \/ detectIntent q = "GREETING"
  \/ detectIntent q = "SYSTEM_DIAGNOSTICS" \/ detectIntent q = "FINANCIAL"
  \/ detectIntent q = "SAFETY_DECISION" \/ detectIntent q = "TIMELINE_RISK"
  \/ detectIntent q = "GENERAL_DECISION" \/ detectIntent q = "STATUS_CHECK"
  \/ detectIntent q = "GENERAL".
Proof.
  unfold detectIntent.
  repeat match goal with
         | |- context [if ?b then _ else _] => destruct b
         end; tauto.
Qed.

Lemma sort_desc_head_max {A} (f : A -> nat) (l : list A) (t : A) :
  head (sort_desc f l) = Some t -> f t = max_list (f <$> l).
Proof.
  intros Hh.
  pose proof (sort_desc_sorted f l) as Hs.
  rewrite <- (max_list_perm _ _ (fmap_Permutation f _ _ (sort_desc_perm f l))).
  destruct (sort_desc f l) as [|x rest]; [discriminate|].
  injection Hh as ->. symmetry. apply sorted_max_head, Hs.
Qed.

Lemma max_list_filter_gt (cs : counts) k :
  filter (fun e : string * nat => k < e.2) cs <> [] ->
  max_list (filter (fun e : string * nat => k < e.2) cs).*2 = max_list cs.*2.
Proof.
  intros Hne. apply Nat.le_antisymm.
  - apply max_list_fmap_le, Forall_forall. intros e He.
    apply list_elem_of_filter in He as [_ He].
    apply max_list_elem_of_le, list_elem_of_fmap. exists e. auto.
  - destruct (filter _ cs) as [|e0 rest] eqn:Ef; [congruence|].
    assert (He0 : e0 ∈ filter (fun e : string * nat => k < e.2) cs)
      by (rewrite Ef; left).
    apply list_elem_of_filter in He0 as [Hk0 He0].
    assert (Hcs : cs.*2 <> []) by (destruct cs; [inversion He0 | discriminate]).
    apply max_list_elem_of in Hcs.
    apply list_elem_of_fmap in Hcs as (em & Hm & Hin).
    assert (Hle : e0.2 <= max_list cs.*2).
    { apply max_list_elem_of_le, list_elem_of_fmap. exists e0. auto. }
    rewrite <- Ef. apply max_list_elem_of_le, list_elem_of_fmap.
    exists em. split; [exact Hm|].
    apply list_elem_of_filter. split; [lia | exact Hin].
Qed.

Lemma topSensor_after_load app ml :
  (topSensor (getSystemContext app (loadMLInferenceResults ml)) = None
   <-> max_list (sensorAnomalyCounts ml).*2 <= 50)
  /\ (forall t : sensor_info,
        topSensor (getSystemContext app (loadMLInferenceResults ml)) = Some t ->
        s_count t = max_list (sensorAnomalyCounts ml).*2
        /\ s_isCritical t = (200 <? s_count t)).
Proof.
  unfold getSystemContext. cbn [topSensor].
  rewrite loadMLInferenceResults_counts.
  set (cs := sensorAnomalyCounts ml). unfold criticalSensors.
  set (mk := fun e : string * nat =>
               mkSensor (replace_underscores e.1) e.2 (200 <? e.2)).
  set (big := filter (fun e : string * nat => 50 < e.2) cs).
  assert (Hnil : big = [] <-> max_list cs.*2 <= 50).
  { unfold big. rewrite filter_nil_Forall. split.
    - intros Hall. apply max_list_fmap_le.
      eapply Forall_impl; [exact Hall|]. simpl. intros; lia.
    - intros Hmax. apply Forall_forall. intros e He.
      assert (e.2 <= max_list cs.*2)
        by (apply max_list_elem_of_le, list_elem_of_fmap; exists e; auto).
      lia. }
  split.
  - rewrite <- Hnil. split.
    + intros Hh. destruct big as [|e rest] eqn:Eb; [reflexivity|].
      exfalso.
      assert (Hp : sort_desc s_count (mk <$> e :: rest) ≡ₚ mk <$> e :: rest)
        by apply sort_desc_perm.
      destruct (sort_desc s_count (mk <$> e :: rest)); [|discriminate].
      apply Permutation_nil_l in Hp. discriminate.
    + intros ->. reflexivity.
  - intros t Ht.
    assert (Hin : t ∈ mk <$> big).
    { rewrite <- (sort_desc_perm s_count (mk <$> big)).
      destruct (sort_desc s_count (mk <$> big)); [discriminate|].
      injection Ht as ->. left. }
    apply sort_desc_head_max in Ht.
    rewrite <- list_fmap_compose in Ht.
    change (s_count ∘ mk) with (snd : string * nat -> nat) in Ht.
    split.
    + rewrite Ht. apply max_list_filter_gt.
      apply list_elem_of_fmap in Hin as (e & _ & He).
      intros Hb. fold big in Hb. rewrite Hb in He. inversion He.
    + apply list_elem_of_fmap in Hin as (e & -> & _). reflexivity.
Qed.

Lemma isCritical_after_load app ml :
  isCritical (getSystemContext app (loadMLInferenceResults ml)) = true
  <-> 200 < max_list (sensorAnomalyCounts ml).*2.
Proof.
  unfold getSystemContext. cbn [isCritical].
  rewrite loadMLInferenceResults_risk.
  destruct (risk_of_cases (max_list (sensorAnomalyCounts ml).*2)) as [<- _].
  rewrite bool_decide_eq_true. reflexivity.
Qed.

Lemma engineer_reply_defined intent ctx :
  (isCritical ctx = true -> topSensor ctx <> None) ->
  generateEngineerResponse intent ctx <> TypeError.
Proof.
  intros Hc. unfold generateEngineerResponse.
  destruct (String.eqb intent "FINANCIAL"); [discriminate|].
  destruct (String.eqb intent "SYSTEM_DIAGNOSTICS"); [discriminate|].
  destruct (is_one_of intent _).
  - destruct (isCritical ctx).
    + destruct (topSensor ctx); [discriminate|]. exfalso. apply Hc; reflexivity.
    + destruct (isWarning ctx); discriminate.
  - destruct (is_one_of intent _); [destruct (isCritical ctx)|]; discriminate.
Qed.

Lemma other_replies_defined intent ctx :
  generatePlantHeadResponse intent ctx <> TypeError
  /\ generateManagementResponse intent ctx <> TypeError
  /\ generateAdminResponse intent ctx <> TypeError.
Proof.
  unfold generatePlantHeadResponse, generateManagementResponse,
    generateAdminResponse.
  repeat split;
    repeat match goal with
           | |- context [if ?b then _ else _] => destruct b
           end; discriminate.
Qed.

(** X14: once [loadMLInferenceResults] has run, the chat assistant
    answers every message for every role: no reply fails on a missing top
    sensor.  The top sensor is missing exactly when the risk level is
    NORMAL; otherwise it carries the largest anomaly count and is flagged
    critical exactly when the system is. *)
Theorem chat_answers_after_load
    (app : APP_STATE) (ml : ML_STATE) (q : string) :
  (exists s : string,
     displayed_reply (generateAIResponse app (loadMLInferenceResults ml) q)
     = Some s)
  /\ (topSensor (getSystemContext app (loadMLInferenceResults ml)) = None
      <-> Sim.riskLevel (loadMLInferenceResults ml) = "NORMAL")
  /\ (forall t : sensor_info,
        topSensor (getSystemContext app (loadMLInferenceResults ml)) = Some t ->
        s_count t = max_list (sensorAnomalyCounts ml).*2
        /\ s_isCritical t
           = isCritical (getSystemContext app (loadMLInferenceResults ml))).
Proof.
  destruct (topSensor_after_load app ml) as (Hnone & Hsome).
  pose proof (isCritical_after_load app ml) as Hcrit.
  split; [|split].
  - assert (Hne : generateAIResponse app (loadMLInferenceResults ml) q
                  <> TypeError).
    { unfold generateAIResponse.
      set (ctx := getSystemContext app (loadMLInferenceResults ml)) in *.
      destruct (other_replies_defined (detectIntent q) ctx) as (H1 & H2 & H3).
      destruct (String.eqb (detectIntent q) "CREATE_ALERT"); [discriminate|].
      destruct (String.eqb (detectIntent q) "GREETING"); [discriminate|].
      destruct (String.eqb (role ctx) "plant-engineer").
      { apply engineer_reply_defined. intros Hc Ht.
        apply Hcrit in Hc. apply Hnone in Ht. lia. }
      destruct (String.eqb (role ctx) "plant-head"); [exact H1|].
      destruct (String.eqb (role ctx) "management"); [exact H2|].
      destruct (String.eqb (role ctx) "admin"); [exact H3 | discriminate]. }
    destruct (generateAIResponse app (loadMLInferenceResults ml) q);
      [eexists; reflexivity | eexists; reflexivity | congruence].
  - rewrite Hnone, loadMLInferenceResults_risk.
    destruct (risk_of_cases (max_list (sensorAnomalyCounts ml).*2)) as [_ <-].
    reflexivity.
  - intros t Ht. destruct (Hsome t Ht) as (Hc & Hi). split; [exact Hc|].
    rewrite Hi, Hc. clear Hi Hc.
    destruct (200 <? max_list (sensorAnomalyCounts ml).*2) eqn:E;
      [apply Nat.ltb_lt in E | apply Nat.ltb_ge in E].
    + symmetry. apply Hcrit, E.
    + symmetry. apply not_true_is_false. intros Hx. apply Hcrit in Hx. lia.
Qed.

(** X15: for the admin role the assistant has four replies only: the
    pending alert request, the admin greeting, the refusal to advise, and
    the diagnostic report; the fallback line "System ready. Diagnostics
    active. API online." of [generateAdminResponse] can never be returned,
    and the reply does not depend on the ML state. *)
Theorem admin_chat_replies
    (app : APP_STATE) (ml ml' : ML_STATE) (q : string) :
  currentRole app = "admin" ->
  generateAIResponse app ml q
    ∈ [handleCreateAlert q;
       Text "System Online. Admin console active. I can report on diagnostics and data integrity.";
       Text admin_refusal;
       Text (admin_report (getSystemContext app ml))]
  /\ generateAIResponse app ml q <> Text admin_fallback
  /\ generateAIResponse app ml q = generateAIResponse app ml' q.
Proof.
  intros Hrole. unfold generateAIResponse.
  unfold getSystemContext at 1 3 5 7. cbn [role]. rewrite Hrole.
  unfold generateGreeting, getSystemContext. cbn [role]. rewrite Hrole.
  unfold admin_report. cbn [lastSync].
  destruct (detectIntent_range q)
    as [H|[H|[H|[H|[H|[H|[H|[H|H]]]]]]]]; rewrite H;
    (split; [|split]);
    try (vm_compute; discriminate); try reflexivity;
    vm_compute; in_list.
Qed.

Lemma admin_chat_replies_witness :
  generateAIResponse admin_app initial_ML_STATE "Is it safe to run?"
  <> Text admin_fallback.
Proof.
  apply (admin_chat_replies admin_app initial_ML_STATE initial_ML_STATE
           "Is it safe to run?").
  reflexivity.
Defined.

(** X16: a message that contains "alert", one of "if"/"when" and one of
    ">"/"above"/"greater" (in any letter case) is an alert request for
    every role and state, and what the chat then displays is the text
    "[object Promise]": neither the confirmation nor the failure text of
    [handleCreateAlert] is shown. *)
Theorem alert_request_shows_promise
    (app : APP_STATE) (ml : ML_STATE) (q : string) :
  includes (toLowerCase q) "alert" = true ->
  includes (toLowerCase q) "if" || includes (toLowerCase q) "when" = true ->
  includes (toLowerCase q) ">" || includes (toLowerCase q) "above"
    || includes (toLowerCase q) "greater" = true ->
  detectIntent q = "CREATE_ALERT"
  /\ displayed_reply (generateAIResponse app ml q) = Some "[object Promise]"
  /\ (forall ok ko : string,
        handleCreateAlert q = Pending ok ko ->
        displayed_reply (generateAIResponse app ml q) <> Some ok
        /\ displayed_reply (generateAIResponse app ml q) <> Some ko).
Proof.
  intros Ha Hi Hg.
  assert (Hint : detectIntent q = "CREATE_ALERT").
  { unfold detectIntent. rewrite Ha, Hi, Hg. reflexivity. }
  split; [exact Hint|].
  unfold generateAIResponse. rewrite Hint. cbn [String.eqb Ascii.eqb].
  change (displayed_reply (handleCreateAlert q)) with (Some "[object Promise]").
  split; [reflexivity|].
  intros ok ko [= <- <-]. split; discriminate.
Qed.

Lemma alert_request_shows_promise_witness :
  displayed_reply
    (generateAIResponse sample_app initial_ML_STATE "Alert if vibration > 5")
  = Some "[object Promise]".
Proof.
  apply (alert_request_shows_promise sample_app initial_ML_STATE
           "Alert if vibration > 5"); reflexivity.
Defined.

End SimChat.

(** ** The charts of the live-streaming client *)

Section LiveCharts.

Import Live.
Import LiveExtra.

Lemma calculateRUL_closed (count : nat) :
  calculateRUL count = Nat.max 10 (100 - (count + 1) / 2).
Proof.
  unfold calculateRUL. cbv zeta.
  set (rul := (100 - Qofnat count * (5 # 10))%Q).
  assert (Hfloor : Qfloor rul = (100 - (Z.of_nat count + 1) / 2)%Z).
  { unfold rul, Qofnat. unfold Qfloor, Qminus, Qplus, Qopp, Qmult, inject_Z.
    cbn [Qnum Qden]. Z.div_mod_to_equations. lia. }
  pose proof (Qofnat_nonneg count) as Hc0.
  assert (Hd : Z.of_nat ((count + 1) / 2) = ((Z.of_nat count + 1) / 2)%Z).
  { rewrite Nat2Z.inj_div. f_equal. lia. }
  unfold SimExtra.Qltb.
  destruct (Qgtb 10 rul) eqn:E; [apply Qgtb_lt in E | apply Qgtb_le in E].
  - assert (Hz : (inject_Z 180 < Qofnat count)%Q)
      by (change (inject_Z 180) with 180%Q; unfold rul in E; lra).
    apply Qofnat_lt in Hz. change (Qfloor 10) with 10%Z.
    revert Hd. generalize ((count + 1) / 2). intros d Hd.
    Z.div_mod_to_equations. lia.
  - assert (Hz : (Qofnat count <= inject_Z 180)%Q)
      by (change (inject_Z 180) with 180%Q; unfold rul in E; lra).
    apply Qofnat_le in Hz. rewrite Hfloor, <- Hd.
    revert Hd. generalize ((count + 1) / 2). intros d Hd.
    Z.div_mod_to_equations. lia.
Qed.

Lemma rul_color_cases (v : nat) :
  (rul_color v = "red" <-> v < 40)
  /\ (rul_color v = "amber" <-> 40 <= v < 75)
  /\ (rul_color v = "green" <-> 75 <= v).
Proof.
  unfold rul_color.
  destruct (v <? 40) eqn:E1; [apply Nat.ltb_lt in E1 | apply Nat.ltb_ge in E1];
    [repeat split; intros; try discriminate; try reflexivity; lia|].
  destruct (v <? 75) eqn:E2; [apply Nat.ltb_lt in E2 | apply Nat.ltb_ge in E2];
    repeat split; intros; try discriminate; try reflexivity; lia.
Qed.

(** X17: the live client's remaining useful life is
    max(10, 100 - ceil(count / 2)), hence between 10 and 100; its bar is
    red exactly above 120 anomalies, amber from 51 to 120 and green up to
    50; the bars are one per sensor, listed worst first. *)
Theorem live_rul_bars (sensorStats : counts) (count : nat) :
  calculateRUL count = Nat.max 10 (100 - (count + 1) / 2)
  /\ 10 <= calculateRUL count <= 100
  /\ (rul_color (calculateRUL count) = "red" <-> 120 < count)
  /\ (rul_color (calculateRUL count) = "amber" <-> 50 < count <= 120)
  /\ (rul_color (calculateRUL count) = "green" <-> count <= 50)
  /\ StronglySorted
       (fun a b => SimExtra.item_value a <= SimExtra.item_value b)
       (generateAndRenderRUL sensorStats)
  /\ generateAndRenderRUL sensorStats
       ≡ₚ rul_item_of sensorStats <$> SENSOR_ORDER.
Proof.
  pose proof (calculateRUL_closed count) as Hc.
  destruct (rul_color_cases (calculateRUL count)) as (Hr & Ha & Hg).
  rewrite Hr, Ha, Hg, Hc.
  pose proof (Nat.div_mod_eq (count + 1) 2) as Hdiv.
  pose proof (Nat.mod_upper_bound (count + 1) 2 ltac:(lia)) as Hmod.
  split; [reflexivity|].
  split; [lia|].
  split; [lia|]. split; [lia|]. split; [lia|].
  split.
  - apply sort_asc_sorted.
  - apply sort_asc_perm.
Qed.

Lemma ratio_gt (C T k : Q) :
  (0 < T)%Q -> (k < C / T)%Q <-> (k * T < C)%Q.
Proof.
  intros HT. rewrite <- (Qmult_lt_r _ _ T HT).
  rewrite Qdiv_mult_cancel; [reflexivity|].
  intros Hz. rewrite Hz in HT. discriminate.
Qed.

Lemma ratio_lt (C T k : Q) :
  (0 < T)%Q -> (C / T < k)%Q <-> (C < k * T)%Q.
Proof.
  intros HT. rewrite <- (Qmult_lt_r _ _ T HT).
  rewrite Qdiv_mult_cancel; [reflexivity|].
  intros Hz. rewrite Hz in HT. discriminate.
Qed.

Lemma Qofnat_scaled_lt (a b c t : nat) :
  (Qofnat a * Qofnat t < Qofnat b * Qofnat c)%Q <-> a * t < b * c.
Proof.
  unfold Qofnat. rewrite <- !inject_Z_mult, <- Zlt_Qlt.
  rewrite <- !Nat2Z.inj_mul, <- Nat2Z.inj_lt. reflexivity.
Qed.

Lemma ratio_bands (count total : nat) :
  0 < total ->
  ((1 # 5 < Qofnat count / Qofnat total)%Q <-> total < 5 * count)
  /\ ((1 # 20 < Qofnat count / Qofnat total)%Q <-> total < 20 * count)
  /\ ((Qofnat count / Qofnat total < 1)%Q <-> count < total).
Proof.
  intros Ht.
  assert (HT : (0 < Qofnat total)%Q).
  { change 0%Q with (inject_Z 0). apply Qofnat_lt. lia. }
  rewrite !ratio_gt, ratio_lt by exact HT.
  pose proof (Qofnat_scaled_lt 1 5 count total) as H5.
  pose proof (Qofnat_scaled_lt 1 20 count total) as H20.
  pose proof (Qofnat_scaled_lt 1 1 total count) as H1.
  change (Qofnat 1) with 1%Q in *. change (Qofnat 5) with 5%Q in *.
  change (Qofnat 20) with 20%Q in *.
  rewrite !Nat.mul_1_l in *.
  set (C := Qofnat count) in *. set (T := Qofnat total) in *.
  split; [|split].
  - rewrite <- H5. split; intros; lra.
  - rewrite <- H20. split; intros; lra.
  - rewrite <- H1. split; intros; lra.
Qed.

Lemma ratio_nonneg (count total : nat) :
  0 < total -> (0 <= Qofnat count / Qofnat total)%Q.
Proof.
  intros Ht. apply Qle_shift_div_l.
  - change 0%Q with (inject_Z 0). apply Qofnat_lt. lia.
  - rewrite Qmult_0_l. apply Qofnat_nonneg.
Qed.

Ltac ratio_cases x H5 H20 H1 :=
  let Q5 := fresh "Q5" in let N5 := fresh "N5" in
  let Q20 := fresh "Q20" in let N20 := fresh "N20" in
  let Q1 := fresh "Q1" in let N1 := fresh "N1" in
  destruct (Qlt_le_dec (1 # 5) x) as [Q5|Q5];
    [pose proof (proj1 H5 Q5) as N5
    |assert (N5 : ~ (1 # 5 < x)%Q) by (intros N; lra);
     rewrite H5 in N5];
  (destruct (Qlt_le_dec (1 # 20) x) as [Q20|Q20];
    [pose proof (proj1 H20 Q20) as N20
    |assert (N20 : ~ (1 # 20 < x)%Q) by (intros N; lra);
     rewrite H20 in N20]);
  (destruct (Qlt_le_dec x 1) as [Q1|Q1];
    [pose proof (proj1 H1 Q1) as N1
    |assert (N1 : ~ (x < 1)%Q) by (intros N; lra);
     rewrite H1 in N1]);
  try lia; try (exfalso; lra).

Ltac split_Qgtb :=
  repeat match goal with
         | |- context [Qgtb ?a ?b] =>
             let E := fresh "E" in
             destruct (Qgtb a b) eqn:E;
             [apply Qgtb_lt in E | apply Qgtb_le in E]
         end.

Lemma live_reliability_cases (count total : nat) :
  0 < total ->
  (0 <= reliability count total)%Q
  /\ (reliability count total <= 100)%Q
  /\ ((reliability count total == 0)%Q <-> total <= count)
  /\ (SimExtra.reliability_color (reliability count total) = "#da3633"
      <-> total < 5 * count)
  /\ (SimExtra.reliability_color (reliability count total) = "#d29922"
      <-> 5 * count <= total < 20 * count)
  /\ (SimExtra.reliability_color (reliability count total) = "#238636"
      <-> 20 * count <= total).
Proof.
  intros Ht. destruct (ratio_bands count total Ht) as (H5 & H20 & H1).
  pose proof (ratio_nonneg count total Ht) as Hx0.
  unfold reliability, SimExtra.reliability, SimExtra.reliability_color,
    SimExtra.Qltb.
  fold (Qofnat count). fold (Qofnat total). cbv zeta.
  set (x := (Qofnat count / Qofnat total)%Q) in *.
  ratio_cases x H5 H20 H1;
  (destruct (Qgtb 0 (100 - x * 100)) eqn:E0;
     [apply Qgtb_lt in E0 | apply Qgtb_le in E0]);
  try (exfalso; lra);
  split_Qgtb;
  try (exfalso; lra);
  repeat split; intros; try discriminate; try reflexivity;
  try lia; try lra; exfalso; lra.
Qed.

Lemma sim_reliability_cases (count total : nat) :
  0 < total ->
  (SimExtra.reliability count total <= 100)%Q
  /\ ((SimExtra.reliability count total < 0)%Q <-> total < count)
  /\ (SimExtra.reliability_color (SimExtra.reliability count total)
      = "#da3633" <-> total < 5 * count)
  /\ (SimExtra.reliability_color (SimExtra.reliability count total)
      = "#d29922" <-> 5 * count <= total < 20 * count)
  /\ (SimExtra.reliability_color (SimExtra.reliability count total)
      = "#238636" <-> 20 * count <= total).
Proof.
  intros Ht. destruct (ratio_bands count total Ht) as (H5 & H20 & H1).
  pose proof (ratio_nonneg count total Ht) as Hx0.
  assert (Hgt : (1 < Qofnat count / Qofnat total)%Q <-> total < count).
  { assert (HT : (0 < Qofnat total)%Q)
      by (change 0%Q with (inject_Z 0); apply Qofnat_lt; lia).
    rewrite ratio_gt by exact HT.
    pose proof (Qofnat_scaled_lt 1 1 count total) as Hs.
    change (Qofnat 1) with 1%Q in Hs. rewrite !Nat.mul_1_l in Hs.
    rewrite <- Hs. split; intros; lra. }
  unfold SimExtra.reliability, SimExtra.reliability_color, SimExtra.Qltb.
  fold (Qofnat count). fold (Qofnat total).
  set (x := (Qofnat count / Qofnat total)%Q) in *.
  split; [lra|]. split.
  { rewrite <- Hgt. split; intros; lra. }
  clear Hgt.
  ratio_cases x H5 H20 H1;
  split_Qgtb;
  try (exfalso; lra);
  repeat split; intros; try discriminate; try reflexivity;
  try lia; exfalso; lra.
Qed.

Lemma nat_or_one n : nat_or (Some n) 1 = Nat.max 1 n /\ 0 < nat_or (Some n) 1.
Proof. destruct n; simpl; lia. Qed.

(** X18: in the live client's reliability chart the bar of each sensor
    carries the sensor's name with underscores replaced, a reliability
    between 0 and 100 that is 0 exactly when the count reaches the number
    of records (at least 1), and a colour fixed by the anomaly rate: red
    above one anomaly in 5 records, orange above one in 20, green
    otherwise. *)
Theorem live_reliability_bands
    (ml : ML_STATE) (i : nat) (sensor : string) :
  SENSOR_ORDER !! i = Some sensor ->
  exists (r : Q) (colour : string),
    trend_chart ml !! i
    = Some (SimExtra.replace_underscores sensor, r, colour)
    /\ (0 <= r)%Q /\ (r <= 100)%Q
    /\ ((r == 0)%Q
        <-> Nat.max 1 (recordNumber ml)
            <= SimExtra.count_or_zero (sensorAnomalyCounts ml) sensor)
    /\ (colour = "#da3633"
        <-> Nat.max 1 (recordNumber ml)
            < 5 * SimExtra.count_or_zero (sensorAnomalyCounts ml) sensor)
    /\ (colour = "#d29922"
        <-> 5 * SimExtra.count_or_zero (sensorAnomalyCounts ml) sensor
            <= Nat.max 1 (recordNumber ml)
            < 20 * SimExtra.count_or_zero (sensorAnomalyCounts ml) sensor)
    /\ (colour = "#238636"
        <-> 20 * SimExtra.count_or_zero (sensorAnomalyCounts ml) sensor
            <= Nat.max 1 (recordNumber ml)).
Proof.
  intros Hs. unfold trend_chart. rewrite list_lookup_fmap, Hs. cbn [fmap option_fmap option_map].
  destruct (nat_or_one (recordNumber ml)) as (<- & Hpos).
  eexists _, _. split; [reflexivity|].
  apply live_reliability_cases, Hpos.
Qed.

Lemma live_reliability_bands_witness :
  exists (r : Q) (colour : string),
    trend_chart initial_ML_STATE !! 0 = Some ("Vibration mm s", r, colour)
    /\ (0 <= r)%Q /\ (r <= 100)%Q.
Proof.
  destruct (live_reliability_bands initial_ML_STATE 0 "Vibration_mm_s")
    as (r & colour & H & H0 & H100 & _); [reflexivity|].
  exists r, colour. auto.
Defined.

(** X19: the simulation client's reliability chart uses the same colour
    bands on the anomaly rate (red above 1 in 5, orange above 1 in 20,
    green otherwise, over data.length or 1 records) but does not clamp:
    the reliability never exceeds 100 and is negative exactly when the
    sensor's count exceeds the number of records. *)
Theorem sim_reliability_bands
    (cs : counts) (data : list reading) (i : nat) (sensor : string) :
  SimExtra.SENSOR_ORDER !! i = Some sensor ->
  exists (r : Q) (colour : string),
    SimExtra.trend_chart cs data !! i
    = Some (SimExtra.replace_underscores sensor, r, colour)
    /\ (r <= 100)%Q
    /\ ((r < 0)%Q
        <-> Nat.max 1 (length data) < SimExtra.count_or_zero cs sensor)
    /\ (colour = "#da3633"
        <-> Nat.max 1 (length data) < 5 * SimExtra.count_or_zero cs sensor)
    /\ (colour = "#d29922"
        <-> 5 * SimExtra.count_or_zero cs sensor
            <= Nat.max 1 (length data)
            < 20 * SimExtra.count_or_zero cs sensor)
    /\ (colour = "#238636"
        <-> 20 * SimExtra.count_or_zero cs sensor
            <= Nat.max 1 (length data)).
Proof.
  intros Hs. unfold SimExtra.trend_chart.
  rewrite list_lookup_fmap, Hs. cbn [fmap option_fmap option_map].
  destruct (nat_or_one (length data)) as (<- & Hpos).
  eexists _, _. split; [reflexivity|].
  apply sim_reliability_cases, Hpos.
Qed.

Lemma sim_reliability_bands_witness :
  exists (r : Q) (colour : string),
    SimExtra.trend_chart (Sim.sensorAnomalyCounts Sim.initial_ML_STATE)
      [hot_reading; quiet_reading] !! 0
    = Some ("Vibration mm s", r, colour)
    /\ (r < 0)%Q /\ colour = "#da3633".
Proof.
  destruct (sim_reliability_bands
              (Sim.sensorAnomalyCounts Sim.initial_ML_STATE)
              [hot_reading; quiet_reading] 0 "Vibration_mm_s")
    as (r & colour & H & _ & Hneg & Hred & _); [reflexivity|].
  exists r, colour. split; [exact H|]. split.
  - apply Hneg. vm_compute. lia.
  - apply Hred. vm_compute. lia.
Defined.

(** X20: for a draw in [0, 1) a point of the live intelligence stream is
    the state's level plus noise in [-5, 5): the clamp at 0 never applies,
    the point stays in [15, 100), and its height identifies the state:
    at least 90 exactly for CRITICAL, in [65, 75) exactly for ANOMALY, below
    25 exactly for any other state. *)
Theorem live_point_bands (state : option string) (rnd : Q) :
  (0 <= rnd)%Q -> (rnd < 1)%Q ->
  (live_point state rnd == state_level state + (rnd * 10 - 5))%Q
  /\ (15 <= live_point state rnd)%Q
  /\ (live_point state rnd < 100)%Q
  /\ (state = Some "CRITICAL" <-> (90 <= live_point state rnd)%Q)
  /\ (state = Some "ANOMALY"
      <-> (65 <= live_point state rnd)%Q /\ (live_point state rnd < 75)%Q)
  /\ (state <> Some "ANOMALY" /\ state <> Some "CRITICAL"
      <-> (live_point state rnd < 25)%Q).
Proof.
  intros H0 H1.
  assert (Hlevel :
            state_level state = 95%Q /\ state = Some "CRITICAL"
            \/ state_level state = 70%Q /\ state = Some "ANOMALY"
            \/ state_level state = 20%Q /\ state <> Some "ANOMALY"
               /\ state <> Some "CRITICAL").
  { unfold state_level. cbv zeta. repeat case_bool_decide; subst; auto. }
  assert (Hp : (live_point state rnd
                == state_level state + (rnd * 10 - 5))%Q).
  { unfold live_point, SimExtra.Qltb. cbv zeta.
    destruct (Qgtb 0 _) eqn:E; [apply Qgtb_lt in E | reflexivity].
    exfalso.
    destruct Hlevel as [(Hv & _)|[(Hv & _)|(Hv & _)]]; rewrite Hv in E; lra. }
  split; [exact Hp|].
  set (p := live_point state rnd) in *.
  destruct Hlevel as [(Hv & Hs)|[(Hv & Hs)|(Hv & Ha & Hc)]];
    rewrite Hv in Hp; (split; [lra|]); (split; [lra|]);
    (split; [|split]); split; intros;
    repeat match goal with H : _ /\ _ |- _ => destruct H end;
    try assumption; try lra; try congruence;
    try (split; lra); try (split; congruence);
    try (exfalso; lra); try (subst; discriminate).
Qed.

Lemma live_point_bands_witness :
  (90 <= live_point (Some "CRITICAL") (1 # 2))%Q.
Proof.
  destruct (live_point_bands (Some "CRITICAL") (1 # 2))
    as (_ & _ & _ & Hc & _); [discriminate | reflexivity|].
  apply Hc. reflexivity.
Defined.

Lemma last100_length {A} (l : list A) : length (last100 l) <= 100.
Proof. unfold last100. rewrite length_drop. lia. Qed.

Lemma push100_full {A} (x : A) (l : list A) :
  length l = 100 -> length (push100 x l) = 100 /\ last (push100 x l) = Some x.
Proof.
  intros Hl. unfold push100. rewrite length_app, Hl. simpl.
  destruct l as [|y l]; [discriminate|]. simpl. rewrite drop_0.
  rewrite length_app, last_snoc. simpl in *. split; [lia | reflexivity].
Qed.

(** X21: the live stream chart always shows a window of exactly 100
    points on each of its ten lines and on its label axis: this holds when
    the chart is created from any history, and is kept by every update; an
    update with sensor states puts the new label and, on each line, the new
    point last, and shows a line exactly when its sensor is among the three
    with the most anomalies; an update without sensor states leaves the
    chart as it is. *)
Theorem live_chart_window
    (data : list displayData) (rnd : nat -> nat -> Q)
    (chart : live_chart) (sensor_states : gmap string string) (cs : counts)
    (now : string) (draw : nat -> Q) :
  window_full chart ->
  window_full (create_live_chart data rnd)
  /\ window_full (update_live_chart chart (Some sensor_states) cs now draw)
  /\ (sensor_states <> ∅ ->
      last (chart_labels
              (update_live_chart chart (Some sensor_states) cs now draw))
      = Some now
      /\ forall (i : nat) (sensor : string),
           SENSOR_ORDER !! i = Some sensor ->
           exists ds : dataset,
             chart_datasets
               (update_live_chart chart (Some sensor_states) cs now draw) !! i
             = Some ds
             /\ last (ds_data ds)
                = Some (Some (live_point (sensor_states !! sensor) (draw i)))
             /\ (ds_hidden ds = false <-> sensor ∈ top3Keys cs))
  /\ update_live_chart chart None cs now draw = chart
  /\ update_live_chart chart (Some ∅) cs now draw = chart.
Proof.
  intros (Hl & Hn & Hd).
  split; [|split; [|split; [|split]]].
  - unfold create_live_chart, window_full. cbn [chart_labels chart_datasets].
    pose proof (last100_length data) as Hh.
    rewrite length_app, length_replicate, length_fmap, length_imap.
    split; [lia|]. split; [reflexivity|].
    apply Forall_forall. intros ds Hin.
    apply elem_of_lookup_imap_1 in Hin as (i & s & -> & _).
    cbn [ds_data]. rewrite length_app, length_replicate, length_imap. lia.
  - unfold update_live_chart. cbn [default].
    case_bool_decide; [repeat split; assumption|].
    unfold window_full. cbn [chart_labels chart_datasets].
    rewrite length_imap.
    split; [apply push100_full, Hl|]. split; [exact Hn|].
    apply Forall_forall. intros ds Hin.
    apply elem_of_lookup_imap_1 in Hin as (i & ds0 & -> & Hi).
    rewrite Forall_forall in Hd.
    pose proof (Hd ds0 (list_elem_of_lookup_2 _ _ _ Hi)) as Hlen.
    destruct (SENSOR_ORDER !! i); [|exact Hlen].
    cbn [ds_data]. apply push100_full, Hlen.
  - intros Hne. unfold update_live_chart. cbn [default].
    rewrite bool_decide_eq_false_2 by exact Hne.
    cbn [chart_labels chart_datasets].
    split; [apply push100_full, Hl|].
    intros i sensor Hs.
    assert (Hi : i < length (chart_datasets chart)).
    { rewrite Hn. apply lookup_lt_Some in Hs. exact Hs. }
    apply lookup_lt_is_Some_2 in Hi as [ds0 Hds0].
    rewrite list_lookup_imap, Hds0, Hs. cbn [fmap option_fmap option_map].
    eexists. split; [reflexivity|]. cbn [ds_data ds_hidden].
    rewrite Forall_forall in Hd.
    pose proof (Hd ds0 (list_elem_of_lookup_2 _ _ _ Hds0)) as Hlen.
    split; [apply push100_full, Hlen|].
    rewrite negb_false_iff, bool_decide_eq_true. reflexivity.
  - reflexivity.
  - reflexivity.
Qed.

Lemma live_chart_window_witness :
  window_full (create_live_chart [] (fun _ _ => 0%Q)).
Proof.
  apply (live_chart_window [] (fun _ _ => 0%Q)
           (create_live_chart [] (fun _ _ => 0%Q)) ∅ [] "" (fun _ => 0%Q)).
  vm_compute. repeat split; repeat constructor.
Defined.

End LiveCharts.

(** ** The anomaly pie of the live-streaming client *)

Section LivePie.

Import Live.
Import LiveExtra.

Lemma StronglySorted_filter {A} (R : A -> A -> Prop) (P : A -> Prop)
    `{forall x, Decision (P x)} (l : list A) :
  StronglySorted R l -> StronglySorted R (filter P l).
Proof.
  induction 1 as [|x l Hs IH Hx]; [constructor|].
  rewrite filter_cons. destruct (decide (P x)); [|exact IH].
  constructor; [exact IH|].
  apply Forall_forall. intros y Hy. apply list_elem_of_filter in Hy as [_ Hy].
  rewrite Forall_forall in Hx. apply Hx, Hy.
Qed.

Lemma sum_list_perm (l l' : list nat) : l ≡ₚ l' -> sum_list l = sum_list l'.
Proof. induction 1; simpl; lia. Qed.

Lemma sum_filter_positive (cs : counts) :
  sum_list (filter (fun e : string * nat => 0 < e.2) cs).*2 = sum_list cs.*2.
Proof.
  induction cs as [|[k c] cs IH]; [reflexivity|].
  rewrite filter_cons. cbn [snd].
  destruct (decide (0 < c)); rewrite !fmap_cons; simpl;
    change (list_fmap (string * nat)%type nat snd cs) with (cs.*2) in *;
    change (list_fmap (string * nat)%type nat snd
              (filter (fun e : string * nat => 0 < e.2) cs))
      with ((filter (fun e : string * nat => 0 < e.2) cs).*2) in *;
    lia.
Qed.

(** X25: the live client's anomaly pie shows the single slice "No
    Anomalies" when the counts sum to zero; otherwise it shows exactly the
    sensors with a positive count, largest first, and the slices add up to
    the total number of anomalies. *)
Theorem live_pie_chart (cs : counts) :
  (sum_list cs.*2 = 0 ->
   anomaly_chart cs = [("No Anomalies", 1, "#238636")])
  /\ (0 < sum_list cs.*2 ->
      sum_list ((fun e : string * nat * string => e.1.2) <$> anomaly_chart cs)
      = sum_list cs.*2
      /\ StronglySorted
           (fun a b : string * nat * string => b.1.2 <= a.1.2)
           (anomaly_chart cs)
      /\ Forall (fun e : string * nat * string => 0 < e.1.2)
           (anomaly_chart cs)
      /\ length (anomaly_chart cs)
         = length (filter (fun e : string * nat => 0 < e.2) cs)).
Proof.
  unfold anomaly_chart.
  set (sorted := Sim.sort_desc snd cs).
  assert (Hp : sorted ≡ₚ cs) by apply sort_desc_perm.
  assert (Hsum : sum_list (filter (fun e : string * nat => 0 < e.2) sorted).*2
                 = sum_list cs.*2).
  { rewrite sum_filter_positive. apply sum_list_perm, fmap_Permutation, Hp. }
  set (pos := filter (fun e : string * nat => 0 < e.2) sorted) in *.
  split.
  - intros Hz. destruct pos as [|[k c] rest] eqn:Epos; [reflexivity|].
    exfalso.
    assert (Hin : (k, c) ∈ pos) by (rewrite Epos; left).
    apply list_elem_of_filter in Hin as [Hc _]. simpl in Hc.
    rewrite Hz in Hsum. simpl in Hsum. lia.
  - intros Hpos.
    destruct (length pos =? 0) eqn:E; [apply Nat.eqb_eq in E|].
    { destruct pos; [|discriminate]. simpl in Hsum. lia. }
    split; [|split; [|split]].
    + rewrite <- list_fmap_compose. exact Hsum.
    + apply (StronglySorted_fmap _
               (fun a b : string * nat => b.2 <= a.2)); [auto|].
      apply StronglySorted_filter, sort_desc_sorted.
    + apply Forall_fmap, Forall_forall. intros e He.
      apply list_elem_of_filter in He as [He _]. exact He.
    + rewrite length_fmap. unfold pos. apply filter_length_perm, Hp.
Qed.

End LivePie.

(** ** The polling dashboard *)

Section ImprovedDashboard.

Import Improved.

(** X22: the polling dashboard draws three remaining-useful-life bars
    (bearing temperature, vibration, motor current) with value
    100 - 10 * count, never below 0 and 0 from 10 anomalies on; the bar is
    green up to 3 anomalies, amber from 4 to 6 and red from 7 on. *)
Theorem improved_rul_bars (data : live_data) :
  Forall2
    (fun (sensor : string) (bar : option string * nat * string) =>
       bar.1.1 = Sim.assoc sensor SENSOR_LABELS
       /\ bar.1.2 = 100 - 10 * count_of data sensor
       /\ (bar.1.2 = 0 <-> 10 <= count_of data sensor)
       /\ (bar.2 = "green" <-> count_of data sensor <= 3)
       /\ (bar.2 = "amber" <-> 4 <= count_of data sensor <= 6)
       /\ (bar.2 = "red" <-> 7 <= count_of data sensor))
    ["Bearing_Temperature_C"; "Vibration_mm_s"; "Motor_Current_A"]
    (updateRULBars data).
Proof.
  unfold updateRULBars. apply Forall2_fmap_r, Forall_Forall2_diag.
  apply Forall_forall. intros sensor _. unfold compose. cbn [fst snd].
  set (c := count_of data sensor).
  split; [reflexivity|]. split; [lia|]. split; [lia|].
  destruct (60 <? 100 - c * 10) eqn:E1;
    [apply Nat.ltb_lt in E1 | apply Nat.ltb_ge in E1];
    [repeat split; intros; try discriminate; try reflexivity; lia|].
  destruct (30 <? 100 - c * 10) eqn:E2;
    [apply Nat.ltb_lt in E2 | apply Nat.ltb_ge in E2];
    repeat split; intros; try discriminate; try reflexivity; lia.
Qed.

Lemma indexOf_Some (x : nat) (l : list nat) (i : nat) :
  indexOf x l = Some i ->
  l !! i = Some x /\ forall j y, j < i -> l !! j = Some y -> y <> x.
Proof.
  revert i. induction l as [|y l IH]; intros i; simpl; [discriminate|].
  destruct (x =? y) eqn:E; [apply Nat.eqb_eq in E | apply Nat.eqb_neq in E].
  - intros [= <-]. subst. split; [reflexivity|]. intros; lia.
  - destruct (indexOf x l) as [k|]; [|discriminate].
    intros [= <-]. destruct (IH k eq_refl) as (Hk & Hfirst).
    split; [exact Hk|]. intros [|j] z Hj Hz; simpl in Hz.
    + injection Hz as <-. congruence.
    + apply (Hfirst j z); [lia | exact Hz].
Qed.

Lemma indexOf_elem (x : nat) (l : list nat) :
  x ∈ l -> exists i, indexOf x l = Some i.
Proof.
  induction 1 as [x l|x y l _ IH]; simpl.
  - rewrite Nat.eqb_refl. eauto.
  - destruct (x =? y); [eauto|]. destruct IH as (i & ->). simpl. eauto.
Qed.

Lemma labels_total (i : nat) (s : string) :
  SENSOR_FEATURES !! i = Some s -> is_Some (Sim.assoc s SENSOR_LABELS).
Proof.
  intros Hs.
  assert (Hall : Forall (fun s => is_Some (Sim.assoc s SENSOR_LABELS))
                   SENSOR_FEATURES)
    by (repeat constructor; eexists; reflexivity).
  rewrite Forall_forall in Hall. apply Hall.
  apply list_elem_of_lookup_2 in Hs. exact Hs.
Qed.

(** X23: when the answer carries anomaly counts, the polling dashboard
    draws one bar per sensor of [SENSOR_FEATURES] and names a primary
    anomaly source exactly when some count is positive; the sensor named is
    one with the largest count, and of several with the largest count the
    first in [SENSOR_FEATURES] order. *)
Theorem root_cause_is_first_maximum (data : live_data) (cs : counts) :
  sensor_anomaly_counts data = Some cs ->
  exists (rootCause : option string),
    updateAnomalyChart data
    = Some (count_of data <$> SENSOR_FEATURES, rootCause)
    /\ (rootCause = None
        <-> forall s : string, s ∈ SENSOR_FEATURES -> count_of data s = 0)
    /\ (forall label : string,
          rootCause = Some label ->
          exists (i : nat) (s : string),
            SENSOR_FEATURES !! i = Some s
            /\ Sim.assoc s SENSOR_LABELS = Some label
            /\ 0 < count_of data s
            /\ (forall s' : string,
                  s' ∈ SENSOR_FEATURES ->
                  count_of data s' <= count_of data s)
            /\ (forall (j : nat) (s' : string),
                  j < i -> SENSOR_FEATURES !! j = Some s' ->
                  count_of data s' < count_of data s)).
Proof.
  intros Hcs. unfold updateAnomalyChart. rewrite Hcs. cbv zeta.
  set (bars := count_of data <$> SENSOR_FEATURES).
  assert (Hne : bars <> []) by discriminate.
  pose proof (max_list_elem_of bars Hne) as Hmax.
  destruct (indexOf_elem _ _ Hmax) as (i & Hi). rewrite Hi.
  destruct (indexOf_Some _ _ _ Hi) as (Hbi & Hfirst). rewrite Hbi.
  assert (Hle : forall s', s' ∈ SENSOR_FEATURES ->
                           count_of data s' <= max_list bars).
  { intros s' Hs'. apply max_list_elem_of_le.
    apply list_elem_of_fmap. exists s'. auto. }
  assert (Hs : exists s, SENSOR_FEATURES !! i = Some s
                         /\ count_of data s = max_list bars).
  { pose proof Hbi as Hsi. unfold bars at 1 in Hsi.
    rewrite list_lookup_fmap in Hsi.
    destruct (SENSOR_FEATURES !! i) as [s|]; [|discriminate].
    exists s. split; [reflexivity|]. cbn [fmap option_fmap option_map] in Hsi.
    congruence. }
  destruct Hs as (s & Es & Hsi). rewrite Es.
  destruct (labels_total i s Es) as (label & Hlabel).
  eexists. split; [reflexivity|].
  destruct (max_list bars) as [|m] eqn:Em.
  - split.
    + split; [|reflexivity]. intros _ s' Hs'. specialize (Hle s' Hs'). lia.
    + intros l [=].
  - rewrite Hlabel. split.
    + split; [discriminate|]. intros Hz. exfalso.
      apply list_elem_of_lookup_2 in Es. specialize (Hz s Es). lia.
    + intros l [= <-]. exists i, s.
      split; [exact Es|]. split; [exact Hlabel|]. split; [lia|].
      split; [intros s' Hs'; rewrite Hsi; apply Hle, Hs'|].
      intros j s' Hj Hs'.
      assert (Hbj : bars !! j = Some (count_of data s'))
        by (unfold bars; rewrite list_lookup_fmap, Hs'; reflexivity).
      pose proof (Hfirst j _ Hj Hbj) as Hneq.
      assert (count_of data s' <= S m).
      { apply Hle. apply list_elem_of_lookup_2 in Hs'. exact Hs'. }
      lia.
Qed.

Lemma root_cause_is_first_maximum_witness :
  exists (rootCause : option string),
    updateAnomalyChart sample_live_data
    = Some (count_of sample_live_data <$> SENSOR_FEATURES, rootCause)
    /\ (rootCause = None
        <-> forall s : string,
              s ∈ SENSOR_FEATURES -> count_of sample_live_data s = 0).
Proof.
  destruct (root_cause_is_first_maximum sample_live_data
              [("Vibration_mm_s", 7); ("Bearing_Temperature_C", 7);
               ("Motor_RPM", 2)] eq_refl)
    as (rc & H1 & H2 & _).
  exists rc. split; assumption.
Defined.

(** X24: when the answer carries values, the sensor table of the polling
    dashboard has one row per sensor of [SENSOR_FEATURES], in that order;
    a row's state is never empty (NORMAL is the default); the row is
    highlighted critical exactly above 5 anomalies and warning from 3 to 5,
    whatever the state; its text is "Requires immediate attention" exactly
    for an ANOMALY state with more than 5 anomalies, "Monitor closely"
    exactly for an ANOMALY state with at most 5, and "Operating normally"
    exactly for any other state. *)
Theorem sensor_table_rows (data : live_data) (vals : reading) :
  values data = Some vals ->
  exists rows : list table_row,
    updateSensorTable data = Some rows
    /\ Forall2
         (fun (sensor : string) (r : table_row) =>
            row_label r = Sim.assoc sensor SENSOR_LABELS
            /\ row_state r = state_of data sensor
            /\ row_state r <> ""
            /\ row_count r = count_of data sensor
            /\ (row_class r = "critical-row" <-> 5 < row_count r)
            /\ (row_class r = "warning-row" <-> 2 < row_count r <= 5)
            /\ (row_text r = span "text-critical" "Requires immediate attention"
                <-> row_state r = "ANOMALY" /\ 5 < row_count r)
            /\ (row_text r = span "text-warning" "Monitor closely"
                <-> row_state r = "ANOMALY" /\ row_count r <= 5)
            /\ (row_text r = span "text-muted" "Operating normally"
                <-> row_state r <> "ANOMALY"))
         SENSOR_FEATURES rows.
Proof.
  intros Hv. unfold updateSensorTable. rewrite Hv.
  eexists. split; [reflexivity|].
  apply Forall2_fmap_r, Forall_Forall2_diag.
  apply Forall_forall. intros sensor _. unfold compose.
  cbn [row_label row_state row_count row_class row_text].
  set (c := count_of data sensor).
  assert (Hstate : state_of data sensor <> "").
  { unfold state_of.
    destruct (sensor_states data ≫= _) as [s|]; [|discriminate].
    destruct (String.eqb s "") eqn:E; [discriminate|].
    apply String.eqb_neq in E. exact E. }
  set (st := state_of data sensor) in *.
  split; [reflexivity|]. split; [reflexivity|]. split; [exact Hstate|].
  split; [reflexivity|].
  unfold interpretSensor. fold c.
  destruct (String.eqb st "ANOMALY") eqn:Es;
    [apply String.eqb_eq in Es | apply String.eqb_neq in Es];
    (destruct (5 <? c) eqn:E5;
       [apply Nat.ltb_lt in E5 | apply Nat.ltb_ge in E5]);
    try (destruct (2 <? c) eqn:E2;
         [apply Nat.ltb_lt in E2 | apply Nat.ltb_ge in E2]);
    repeat split; intros;
    repeat match goal with H : _ /\ _ |- _ => destruct H end;
    try reflexivity; try assumption; try lia; try congruence;
    try (exfalso; vm_compute in *; discriminate).
Qed.

Lemma sensor_table_rows_witness :
  exists rows : list table_row,
    updateSensorTable sample_live_data = Some rows /\ length rows = 10.
Proof.
  destruct (sensor_table_rows sample_live_data hot_reading eq_refl)
    as (rows & H & Hall).
  exists rows. split; [exact H|].
  apply Forall2_length in Hall. rewrite <- Hall. reflexivity.
Defined.

End ImprovedDashboard.
